(** * wagtailmodeladmin.views: a shallow embedding of the admin views

    The development follows [wagtailmodeladmin/views.py].  Query-string
    dictionaries are finite maps from strings to strings, querysets are
    symbolic descriptions of the ORM calls made on them, and every view is a
    function in a small state-and-exception monad over the admin's world
    (database rows, flash messages, session). *)

From Stdlib Require Import ZArith Lia Ascii String DecimalString.
From stdpp Require Import gmap strings list.

(** ** Python string primitives used by the views *)

Module PyStr.

(** [s.startswith(c)] for a one-character prefix. *)
Definition startswith (c : ascii) (s : string) : bool :=
  match s with
  | String c' _ => bool_decide (c' = c)
  | EmptyString => false
  end.

(** [s[1:]] *)
Definition tail (s : string) : string :=
  match s with
  | String _ r => r
  | EmptyString => EmptyString
  end.

(** [s.split('__')]: left-to-right, non-overlapping, empty pieces kept. *)
Fixpoint split_dunder (s : string) : list string :=
  match s with
  | EmptyString => [EmptyString]
  | String "_"%char (String "_"%char rest) => EmptyString :: split_dunder rest
  | String c rest =>
      match split_dunder rest with
      | p :: ps => String c p :: ps
      | [] => [String c EmptyString]
      end
  end.

(** [sep.join(parts)] *)
Fixpoint join (sep : string) (parts : list string) : string :=
  match parts with
  | [] => EmptyString
  | [p] => p
  | p :: ps => p +:+ sep +:+ join sep ps
  end.

(** [s.split(c)] for a one-character separator. *)
Fixpoint split_char (c : ascii) (s : string) : list string :=
  match s with
  | EmptyString => [EmptyString]
  | String c' rest =>
      if bool_decide (c' = c) then EmptyString :: split_char c rest
      else match split_char c rest with
           | p :: ps => String c' p :: ps
           | [] => [String c' EmptyString]
           end
  end.

(** Whitespace of a text string, on code points below 256. *)
Definition isspace (c : ascii) : bool :=
  let n := nat_of_ascii c in
  ((9 <=? n)%nat && (n <=? 13)%nat) || ((28 <=? n)%nat && (n <=? 32)%nat)
  || (n =? 133)%nat || (n =? 160)%nat.

(** [s.split()]: maximal runs of non-whitespace characters. *)
Fixpoint split_ws_aux (s : string) : string * list string :=
  match s with
  | EmptyString => (EmptyString, [])
  | String c rest =>
      let '(cur, done) := split_ws_aux rest in
      if isspace c then
        (EmptyString, match cur with EmptyString => done | _ => cur :: done end)
      else (String c cur, done)
  end.

Definition split_ws (s : string) : list string :=
  let '(cur, done) := split_ws_aux s in
  match cur with EmptyString => done | _ => cur :: done end.

(** [s.rpartition('-')], as [Some (head, tail)] around the last dash, or
    [None] when there is no dash (Python then returns [('', '', s)]). *)
Fixpoint rfind_dash (s : string) : option (string * string) :=
  match s with
  | EmptyString => None
  | String c rest =>
      match rfind_dash rest with
      | Some (h, t) => Some (String c h, t)
      | None => if bool_decide (c = "-"%char) then Some (EmptyString, rest)
                else None
      end
  end.

Definition rpartition_dash (s : string) : string * string * string :=
  match rfind_dash s with
  | Some (h, t) => (h, "-", t)
  | None => ("", "", s)
  end.

(** ASCII case mapping, for [capfirst] and [lower()]. *)
Definition upper_char (c : ascii) : ascii :=
  let n := nat_of_ascii c in
  if (97 <=? n)%nat && (n <=? 122)%nat then ascii_of_nat (n - 32) else c.

Definition lower_char (c : ascii) : ascii :=
  let n := nat_of_ascii c in
  if (65 <=? n)%nat && (n <=? 90)%nat then ascii_of_nat (n + 32) else c.

Definition capfirst (s : string) : string :=
  match s with
  | String c r => String (upper_char c) r
  | EmptyString => EmptyString
  end.

Fixpoint lower (s : string) : string :=
  match s with
  | String c r => String (lower_char c) (lower r)
  | EmptyString => EmptyString
  end.

(** [int(s)] on decimal text: surrounding whitespace is stripped, one
    optional sign, then at least one digit and nothing else.  [None] stands
    for ValueError. *)
Definition is_digit (c : ascii) : bool :=
  let n := nat_of_ascii c in (48 <=? n)%nat && (n <=? 57)%nat.

Fixpoint lstrip (s : string) : string :=
  match s with
  | String c rest => if isspace c then lstrip rest else s
  | EmptyString => EmptyString
  end.

Fixpoint rstrip (s : string) : string :=
  match s with
  | EmptyString => EmptyString
  | String c rest =>
      match rstrip rest with
      | EmptyString => if isspace c then EmptyString else String c EmptyString
      | r => String c r
      end
  end.

Definition strip (s : string) : string := rstrip (lstrip s).

Fixpoint digits (s : string) (acc : Z) : option Z :=
  match s with
  | EmptyString => Some acc
  | String c rest =>
      if is_digit c
      then digits rest (10 * acc + (Z.of_nat (nat_of_ascii c) - 48))
      else None
  end.

Definition unsigned (s : string) : option Z :=
  match s with
  | EmptyString => None
  | _ => digits s 0
  end.

Definition int (s : string) : option Z :=
  match strip s with
  | String "-"%char r => Z.opp <$> unsigned r
  | String "+"%char r => unsigned r
  | t => unsigned t
  end.

End PyStr.

(** ** Module constants *)

Definition ORDER_VAR : string := "o".
Definition ORDER_TYPE_VAR : string := "ot".
Definition PAGE_VAR : string := "p".
Definition SEARCH_VAR : string := "q".
Definition ERROR_FLAG : string := "e".
Definition IGNORED_PARAMS : list string := [ORDER_VAR; ORDER_TYPE_VAR; SEARCH_VAR].

(** The page URL names depend on the installed Wagtail version: releases
    before 1.1 use the un-namespaced names. *)
Definition version_startswith (pre ver : string) : bool :=
  bool_decide (String.substring 0 (String.length pre) ver = pre).

Definition legacy_urls (wagtail_version : string) : bool :=
  version_startswith "1.0" wagtail_version
  || version_startswith "0." wagtail_version.

Definition PAGES_CREATE_URL_NAME (wagtail_version : string) : string :=
  if legacy_urls wagtail_version then "wagtailadmin_pages_create"
  else "wagtailadmin_pages:add".
Definition PAGES_EDIT_URL_NAME (wagtail_version : string) : string :=
  if legacy_urls wagtail_version then "wagtailadmin_pages_edit"
  else "wagtailadmin_pages:edit".
Definition PAGES_UNPUBLISH_URL_NAME (wagtail_version : string) : string :=
  if legacy_urls wagtail_version then "wagtailadmin_pages_unpublish"
  else "wagtailadmin_pages:unpublish".
Definition PAGES_DELETE_URL_NAME (wagtail_version : string) : string :=
  if legacy_urls wagtail_version then "wagtailadmin_pages_delete"
  else "wagtailadmin_pages:delete".
Definition PAGES_COPY_URL_NAME (wagtail_version : string) : string :=
  if legacy_urls wagtail_version then "wagtailadmin_pages_copy"
  else "wagtailadmin_pages:copy".

Definition LOOKUP_SEP : string := "__".

(** ** The framework as the views see it *)

(** Exceptions that can leave a view.  [OtherException] stands for an
    exception of any class the views do not name. *)
Inductive exn :=
| Http404
| DisallowedModelAdminLookup (msg : string)
| IncorrectLookupParameters
| SuspiciousOperation
| ImproperlyConfigured
| FieldDoesNotExist
| FieldError
| ValueError
| ValidationError
| AttributeError (name : string)
| UnboundLocalError (name : string)
| ZeroDivisionError
| EmptyPage
| MultipleObjectsReturned
| ProtectedError
| OtherException (cls : string).

(** [on_delete] of a reverse relation. *)
Inductive OnDelete := CASCADE | PROTECT | SET_NULL | DO_NOTHING.

Global Instance OnDelete_eq_dec : EqDecision OnDelete.
Proof. solve_decision. Defined.

(** An object reachable through a reverse accessor of an instance. *)
Record Related := { rel_pk : string; rel_str : string }.

Record Rel := { on_delete : OnDelete; accessor : list Related }.

(** A row of the administered model; [pk] is its primary key as text.
    [related] lists, per reverse relation of the model
    ([_meta.get_all_related_objects()]), the objects behind the accessor.
    The last two fields are what the ORM's delete collector finds when it
    starts from the row: [delete_blocked] tells whether it meets a protected
    reference, in which case [delete()] raises ProtectedError before removing
    anything; [cascade] holds the keys of the other rows of this table that it
    gathers through CASCADE foreign keys of the model to itself, and that are
    deleted with the row. *)
Record Instance := {
  pk : string;
  str : string;
  related : list Rel;
  delete_blocked : bool;
  cascade : list string;
}.

Record User := { username : string; is_authenticated : bool }.

(** The HTTP method of a request: the eight names of
    [View.http_method_names], and [OTHER] for any method outside them. *)
Inductive Method := GET | POST | PUT | PATCH | DELETE | HEAD | OPTIONS | TRACE | OTHER.

Record Request := {
  method : Method;
  user : User;
  path : string;
  req_GET : gmap string string;
  (* the form data in the body of the request *)
  form_data : gmap string string;
}.

(** [request.POST]: the form data of a POST; it is empty for a request of
    any other method, whatever its body holds. *)
Definition req_POST (request : Request) : gmap string string :=
  match method request with
  | POST => form_data request
  | _ => ∅
  end.

(** Where a redirect goes: a named URL with its arguments, a literal URL, or
    the login page. *)
Inductive Target :=
| UrlName (name : string) (args : list string)
| Url (u : string)
| LoginUrl (next : string).

Inductive Level := SUCCESS | ERROR.

Record Message := { level : Level; text : string; buttons : list (Target * string) }.

(** The mutable world a request acts on.  [checks] records, in order, the
    permission-helper methods consulted so far. *)
Record World := {
  table : list Instance;
  messages : list Message;
  session : gmap string string;
  checks : list string;
}.

(** Computations of a view: state passing, with Python exceptions keeping the
    state reached when they were raised. *)
Definition M (A : Type) : Type := World -> (exn + A) * World.

Definition ret {A} (a : A) : M A := fun w => (inr a, w).
Definition raise {A} (e : exn) : M A := fun w => (inl e, w).
Definition bind {A B} (m : M A) (k : A -> M B) : M B :=
  fun w => match m w with
           | (inr a, w') => k a w'
           | (inl e, w') => (inl e, w')
           end.
Definition lift {A} (r : exn + A) : M A := fun w => (r, w).

(** Exceptions alone, for the parts of a view that touch no state. *)
Global Instance exn_ret : MRet (sum exn) := fun A a => inr a.
Global Instance exn_bind : MBind (sum exn) :=
  fun A B k m => match m with inl e => inl e | inr a => k a end.

Global Instance M_ret : MRet M := @ret.
Global Instance M_bind : MBind M := fun A B k m => bind m k.

(** [messages.error] / [messages.success] *)
Definition add_message (l : Level) (t : string) (b : list (Target * string)) : M unit :=
  fun w => (inr tt, {| table := table w;
                       messages := messages w ++ [{| level := l; text := t; buttons := b |}];
                       session := session w;
                       checks := checks w |}).

(** Consulting the permission helper leaves a mark in [checks]. *)
Definition checked {A} (name : string) (answer : A) : M A :=
  fun w => (inr answer, {| table := table w; messages := messages w;
                           session := session w;
                           checks := checks w ++ [name] |}).

Definition set_session (k v : string) : M unit :=
  fun w => (inr tt, {| table := table w; messages := messages w;
                       session := <[k:=v]> (session w);
                       checks := checks w |}).

Definition del_session (k : string) : M unit :=
  fun w => (inr tt, {| table := table w; messages := messages w;
                       session := delete k (session w);
                       checks := checks w |}).

Definition get_table : M (list Instance) := fun w => (inr (table w), w).

(** [instance.delete()]: unless a protected reference stops it, the row
    goes, and with it the rows of the table the deletion cascades to. *)
Definition orm_delete (inst : Instance) : M unit :=
  fun w =>
    if delete_blocked inst then (inl ProtectedError, w)
    else (inr tt, {| table := filter (fun i => pk i <> pk inst /\ pk i ∉ cascade inst)
                                     (table w);
                     messages := messages w; session := session w;
                     checks := checks w |}).

(** The template context of each rendering view. *)
Inductive Context :=
| IndexContext (all_count result_count : nat) (number : Z)
               (object_list : list Instance) (has_add : bool)
               (no_valid_parents : option bool)
| InspectContext (inst : Instance)
| FormContext (inst : option Instance)
| ChooseParentContext (parents : list Instance)
| ConfirmDeleteContext (inst : Instance) (error_protected : bool)
                       (linked_objects : list Related).

(** [NotAllowed] is the answer of [http_method_not_allowed] (status 405),
    [Allow] the empty answer of [View.options] with its Allow header. *)
Inductive Response :=
| Redirect (t : Target)
| Rendered (template : string) (ctx : Context)
| NotAllowed
| Allow (methods : list string).

(** [django.contrib.auth.decorators.login_required] *)
Definition login_required (view : Request -> M Response) (request : Request) : M Response :=
  if is_authenticated (user request) then view request
  else ret (Redirect (LoginUrl (path request))).

(** *** Model metadata, querysets and the collaborators of a view *)

(** What [_meta.get_field_by_name(part)] finds, as far as [lookup_allowed]
    looks at it.  A model field always has the attribute [rel], None when
    the field is no relation; [PlainField] is what is left: an object that is
    neither a field with [rel] nor a reverse relation, such as a generic
    foreign key. *)
Inductive FieldRel :=
| PlainField                            (* no [rel] attribute, not a reverse relation *)
| RelNone                               (* has [rel], which is None *)
| RelTo (related_field_name : string)   (* [field.rel.get_related_field().name] *)
| ReverseRel (pk_name_of_model : string). (* ForeignObjectRel: [field.model._meta.pk.name] *)

Record Field := {
  field_name : string;
  is_many_to_one_rel : bool;
  m2m : bool;
}.

(** [model._meta] *)
Record Options := {
  app_label : string;
  model_name : string;
  verbose_name : string;
  pk_name : string;
  pk_attname : string;
  (* what the key field makes of a text handed to [filter()] for it: the key
     as the rows have it, or the error of the conversion (ValueError from an
     integer key for a text that is no integer) *)
  pk_get_prep_value : string -> exn + string;
  opts_ordering : list string;
  (* each entry already passed through [widgets.url_params_from_lookup_dict] *)
  related_fkey_lookups : list (gmap string string);
  get_field_by_name : string -> option FieldRel;
  get_field : string -> option Field;
}.

Record PermissionHelper := {
  allow_list_view : User -> bool;
  has_list_permission : User -> bool;
  has_add_permission : User -> bool;
  can_edit_object : User -> Instance -> bool;
  can_delete_object : User -> Instance -> bool;
  can_unpublish_object : User -> Instance -> bool;
  can_copy_object : User -> Instance -> bool;
  get_valid_parent_pages : User -> list Instance;
}.

(** [models.Q]: keyword lookups combined with [|]. *)
Inductive Q :=
| QLookup (lookup value : string)
| QOr (a b : Q).

(** A queryset is the ORM calls that built it. *)
Inductive QuerySet :=
| Base (order_by : list string) (select_related : bool)
| FilterQ (q : Q) (qs : QuerySet)
| FilterKw (kwargs : gmap string string) (qs : QuerySet)
| OrderBy (fields : list string) (qs : QuerySet)
| SelectRelatedAll (qs : QuerySet)
| SelectRelatedFields (fields : list string) (qs : QuerySet)
| Distinct (qs : QuerySet).

(** [queryset.query.order_by] *)
Fixpoint query_order_by (qs : QuerySet) : list string :=
  match qs with
  | Base o _ => o
  | OrderBy f _ => f
  | FilterQ _ q | FilterKw _ q
  | SelectRelatedAll q | SelectRelatedFields _ q | Distinct q => query_order_by q
  end.

(** truth value of [queryset.query.select_related] *)
Fixpoint query_select_related (qs : QuerySet) : bool :=
  match qs with
  | Base _ b => b
  | SelectRelatedAll _ => true
  | SelectRelatedFields f q => negb (bool_decide (f = [])) || query_select_related q
  | FilterQ _ q | FilterKw _ q | OrderBy _ q | Distinct q =>
      query_select_related q
  end.

(** A list-filter spec once built by the admin's filter classes: the query
    parameters it popped from the lookup dictionary, whether it has output,
    and its [queryset(request, qs)], which hands back any queryset it likes,
    or None. *)
Record FilterSpec := {
  used_parameters : list string;
  has_output : bool;
  queryset : QuerySet -> option QuerySet;
}.

Inductive ListFilterKind := CustomFilter | FieldPath | FieldPathWithClass.

Global Instance ListFilterKind_eq_dec : EqDecision ListFilterKind.
Proof. solve_decision. Defined.

(** An entry of [list_filter]: a custom filter class, a field path, or a
    [(field path, filter class)] pair.  Building its spec is the work of the
    admin's filter classes; they are taken to read the lookup dictionary they
    are handed (and to pop from it), not the request beside it. *)
Record ListFilter := {
  lf_kind : ListFilterKind;
  lf_field_path : string;
  lf_create : gmap string string -> option FilterSpec;
  lf_needs_distinct : bool;
}.

(** An entry of [list_display]: a name, or a callable with its
    [admin_order_field] attribute if it has one. *)
Inductive Column :=
| ColName (name : string)
| ColCallable (admin_order_field : option string).

Inductive SelectRelated := SRTrue | SRFalse | SRFields (fields : list string).

(** The model admin a view is made for.  What the source obtains from it by
    a call with the request ([get_list_display], [get_list_filter],
    [get_search_fields], [get_ordering], [get_queryset]) is a field here: the
    configuration does not vary with the request. *)
Record ModelAdmin := {
  opts : Options;
  is_pagemodel : bool;
  permission_helper : PermissionHelper;
  inspect_view_enabled : bool;
  list_display : list Column;
  list_filter : list ListFilter;
  search_fields : list string;
  list_per_page : Z;
  list_select_related : SelectRelated;
  ordering : list string;
  (* [model_admin.get_queryset(request)] *)
  base_queryset : QuerySet;
  (* [hasattr(model_admin, name)], with the attribute's [admin_order_field] *)
  admin_attr : string -> option (option string);
  (* the same for attributes of the model class *)
  model_attr : string -> option (option string);
  index_url : string;
  choose_parent_url : string;
  index_template : string;
  inspect_template : string;
  create_template : string;
  edit_template : string;
  choose_parent_template : string;
  confirm_delete_template : string;
  (* validation and saving of the edit-handler form on POST data *)
  form_is_valid : gmap string string -> bool;
  form_save : gmap string string -> option Instance -> Instance;
  (* the parent-chooser form on POST data: the chosen parent when valid *)
  parent_chooser_form : list Instance -> gmap string string -> option Instance;
  (* [helpers.get_url_name(opts, action)] *)
  get_url_name : string -> string;
}.

(** The database side.  [holds] tells when a row satisfies a keyword lookup
    (through some related row, for a lookup that crosses a multi-valued
    relation).  A row that passes a [filter()] call whose lookups cross such
    relations comes back once per joined row: [q_joins] and [kw_joins] count
    the copies beyond the first.  [sort_rows] and [dedup] are [order_by] and
    [distinct()]; [prepare_lookup_value] is the admin's function of that name.
    [lookup_error] is the error [filter()] raises for a keyword lookup it
    cannot build, if any: FieldError for a lookup that names no field, or no
    lookup of the field, ValueError or ValidationError for a value the field
    cannot take.  [filter_error] is the same for a whole dictionary of
    request-supplied keyword arguments. *)
Record Django := {
  wagtail_version : string;
  holds : string -> string -> Instance -> bool;
  q_joins : Q -> Instance -> nat;
  kw_joins : gmap string string -> Instance -> nat;
  sort_rows : list string -> list Instance -> list Instance;
  dedup : list Instance -> list Instance;
  prepare_lookup_value : string -> string -> string;
  lookup_error : string -> string -> option exn;
  filter_error : gmap string string -> option exn;
}.

Fixpoint q_holds (dj : Django) (q : Q) (i : Instance) : bool :=
  match q with
  | QLookup l v => holds dj l v i
  | QOr a b => q_holds dj a i || q_holds dj b i
  end.

(** The error of [filter(q)]: that of the first lookup, from the left, that
    cannot be built. *)
Fixpoint q_error (dj : Django) (q : Q) : option exn :=
  match q with
  | QLookup l v => lookup_error dj l v
  | QOr a b =>
      match q_error dj a with
      | Some e => Some e
      | None => q_error dj b
      end
  end.

(** The rows a queryset yields on a table, repeated as the joins repeat
    them. *)
Fixpoint rows (dj : Django) (tbl : list Instance) (qs : QuerySet) : list Instance :=
  match qs with
  | Base o _ => sort_rows dj o tbl
  | FilterQ q qs' =>
      flat_map (fun i => if q_holds dj q i
                         then replicate (S (q_joins dj q i)) i else [])
               (rows dj tbl qs')
  | FilterKw kw qs' =>
      flat_map (fun i => if forallb (fun kv => holds dj kv.1 kv.2 i) (map_to_list kw)
                         then replicate (S (kw_joins dj kw i)) i else [])
               (rows dj tbl qs')
  | OrderBy f qs' => sort_rows dj f (rows dj tbl qs')
  | SelectRelatedAll qs' | SelectRelatedFields _ qs' => rows dj tbl qs'
  | Distinct qs' => dedup dj (rows dj tbl qs')
  end.

(** [django.contrib.admin.utils.quote], as in the Django releases this module
    runs on (1.8, 1.9): the characters that would confuse admin URLs, among
    them the colon, the slash and the underscore, become an underscore and two
    hexadecimal digits.  Codes 34 and 92 are the double quote and the
    backslash. *)
Definition quoted_chars : list ascii :=
  [":"; "/"; "_"; "#"; "?"; ";"; "@"; "&"; "="; "+"; "$"; ",";
   ascii_of_nat 34; "["; "]"; "<"; ">"; "%"; ascii_of_nat 92]%char.

Definition hex_digit (n : nat) : ascii :=
  if (n <? 10)%nat then ascii_of_nat (48 + n) else ascii_of_nat (55 + n).

Fixpoint quote (s : string) : string :=
  match s with
  | EmptyString => EmptyString
  | String c rest =>
      if bool_decide (c ∈ quoted_chars)
      then String "_"%char
             (String (hex_digit (nat_of_ascii c / 16))
                (String (hex_digit (nat_of_ascii c mod 16)) (quote rest)))
      else String c (quote rest)
  end.

(** [django.core.paginator.Paginator] with its defaults (no orphans, an empty
    first page allowed). *)
Module Paginator.

Record t := { object_list : list Instance; per_page : Z }.

Definition count (p : t) : Z := Z.of_nat (length (object_list p)).

(** [ceil(hits / float(per_page))] for [hits = max(1, count)]. *)
Definition num_pages (p : t) : exn + Z :=
  if (per_page p =? 0)%Z then inl ZeroDivisionError
  else inr (- ((- Z.max 1 (count p)) / per_page p))%Z.

(** [None] stands for InvalidPage (here always EmptyPage). *)
Definition validate_number (p : t) (number : Z) : exn + option Z :=
  if (number <? 1)%Z then inr None
  else match num_pages p with
       | inl e => inl e
       | inr n => if (n <? number)%Z
                  then (if (number =? 1)%Z then inr (Some number) else inr None)
                  else inr (Some number)
       end.

Definition slice (l : list Instance) (bottom top : Z) : list Instance :=
  take (Z.to_nat top - Z.to_nat bottom) (drop (Z.to_nat bottom) l).

(** [paginator.page(number)]: the page's number and its objects. *)
Definition page (p : t) (number : Z) : exn + option (Z * list Instance) :=
  match validate_number p number with
  | inl e => inl e
  | inr None => inr None
  | inr (Some n) =>
      let bottom := ((n - 1) * per_page p)%Z in
      let top := (bottom + per_page p)%Z in
      let top := if (count p <=? top)%Z then count p else top in
      inr (Some (n, slice (object_list p) bottom top))
  end.

End Paginator.

(** [django.db.models.sql.constants.QUERY_TERMS] *)
Definition QUERY_TERMS : list string :=
  ["exact"; "iexact"; "contains"; "icontains"; "gt"; "gte"; "lt"; "lte"; "in";
   "startswith"; "istartswith"; "endswith"; "iendswith"; "range"; "year";
   "month"; "day"; "week_day"; "hour"; "minute"; "second"; "isnull"; "search";
   "regex"; "iregex"].

(** [django.contrib.admin.utils.lookup_needs_distinct] *)
Definition lookup_needs_distinct (o : Options) (lookup_path : string) : exn + bool :=
  match get_field o (hd "" (PyStr.split_dunder lookup_path)) with
  | None => inl FieldDoesNotExist
  | Some f => inr (m2m f)
  end.

(** [seq[i]] with Python's negative indices; [None] stands for IndexError. *)
Definition py_getitem {A} (l : list A) (i : Z) : option A :=
  if (i <? 0)%Z then
    (if (Z.of_nat (length l) + i <? 0)%Z then None
     else l !! Z.to_nat (Z.of_nat (length l) + i))
  else l !! Z.to_nat i.

(** [permission_denied_response] *)
Definition permission_denied_response (request : Request) : M Response :=
  _ ← add_message ERROR "Sorry, you do not have permission to access this area." [];
  mret (Redirect (UrlName "wagtailadmin_home" [])).

(** ** WMABaseView *)

Module WMABaseView.

Definition prime_session_for_redirection (ma : ModelAdmin) : M unit :=
  set_session "return_to_index_url" (index_url ma).

Definition model_name (ma : ModelAdmin) : string :=
  PyStr.capfirst (verbose_name (opts ma)).

Definition get_edit_url (ma : ModelAdmin) (obj : Instance) : Target :=
  UrlName (get_url_name ma "edit") [pk obj].

(** [View._allowed_methods]: the methods the view has a handler for, in the
    order of [http_method_names].  [as_view] gives a view that has [get] a
    [head] that is its [get]; every view has [options]. *)
Definition allowed_methods (get post put : option (Request -> M Response))
    : list string :=
  let has (h : option (Request -> M Response)) (name : string) :=
    match h with Some _ => [name] | None => [] end in
  has get "GET" ++ has post "POST" ++ has put "PUT" ++ has get "HEAD" ++ ["OPTIONS"].

(** [getattr(self, request.method.lower(), self.http_method_not_allowed)] *)
Definition handler (h : option (Request -> M Response)) (request : Request)
    : M Response :=
  match h with
  | Some h => h request
  | None => mret NotAllowed
  end.

(** [dispatch]: behind [login_required], the button helper is built and
    [View.dispatch] hands the request to the handler of its HTTP method, or
    to [http_method_not_allowed].  None of the views has a handler for PATCH,
    DELETE or TRACE. *)
Definition dispatch (get post put : option (Request -> M Response))
    : Request -> M Response :=
  login_required (fun request =>
    match method request with
    | GET | HEAD => handler get request
    | POST => handler post request
    | PUT => handler put request
    | OPTIONS => mret (Allow (allowed_methods get post put))
    | PATCH | DELETE | TRACE | OTHER => mret NotAllowed
    end).

Definition get_delete_url (ma : ModelAdmin) (obj : Instance) : Target :=
  UrlName (get_url_name ma "delete") [pk obj].

End WMABaseView.

(** ** IndexView *)

Module IndexView.

(** The attributes [dispatch] sets on the view before anything else runs. *)
Record t := {
  model_admin : ModelAdmin;
  page_num : Z;
  params : gmap string string;
  query : string;
}.

Definition construct_search (field_name : string) : string :=
  if PyStr.startswith "^" field_name then PyStr.tail field_name +:+ "__istartswith"
  else if PyStr.startswith "=" field_name then PyStr.tail field_name +:+ "__iexact"
  else if PyStr.startswith "@" field_name then PyStr.tail field_name +:+ "__search"
  else field_name +:+ "__icontains".

(** [reduce(operator.or_, qs)]; on an empty list Python raises, which
    cannot happen below because the lookups are non-empty there. *)
Definition reduce_or (qs : list Q) : option Q :=
  match qs with
  | [] => None
  | q :: rest => Some (fold_left QOr rest q)
  end.

(** One turn of the loop over the bits of the search term: [filter()]
    raises when it cannot build one of the lookups. *)
Definition filter_bit (dj : Django) (orm_lookups : list string)
    (queryset : QuerySet) (bit : string) : exn + QuerySet :=
  match reduce_or (map (fun orm_lookup => QLookup orm_lookup bit) orm_lookups) with
  | Some q =>
      match q_error dj q with
      | Some e => inl e
      | None => inr (FilterQ q queryset)
      end
  | None => inr queryset
  end.

Fixpoint filter_bits (dj : Django) (orm_lookups : list string)
    (queryset : QuerySet) (bits : list string) : exn + QuerySet :=
  match bits with
  | [] => inr queryset
  | bit :: rest =>
      queryset ← filter_bit dj orm_lookups queryset bit;
      filter_bits dj orm_lookups queryset rest
  end.

(** The loop that looks for a search spec needing [distinct()]. *)
Fixpoint any_needs_distinct (o : Options) (specs : list string) : exn + bool :=
  match specs with
  | [] => inr false
  | search_spec :: rest =>
      match lookup_needs_distinct o search_spec with
      | inl e => inl e
      | inr true => inr true
      | inr false => any_needs_distinct o rest
      end
  end.

Definition get_search_results (dj : Django) (self : t) (queryset : QuerySet)
    (search_term : string) : exn + (QuerySet * bool) :=
  let fields := search_fields (model_admin self) in
  if negb (bool_decide (fields = [])) && negb (bool_decide (search_term = ""))
  then
    let orm_lookups := map construct_search fields in
    queryset ← filter_bits dj orm_lookups queryset (PyStr.split_ws search_term);
    use_distinct ← any_needs_distinct (opts (model_admin self)) orm_lookups;
    mret (queryset, use_distinct)
  else inr (queryset, false).

(** The loop of [lookup_allowed] over [parts[:-1]]: [None] when the method
    returns True from inside the loop, otherwise the last [rel_name]. *)
Fixpoint scan_parts (o : Options) (ps : list string) (rel_name : option string)
    : option (option string) :=
  match ps with
  | [] => Some rel_name
  | part :: rest =>
      match get_field_by_name o part with
      | None => None
      | Some RelNone => None
      | Some (RelTo n) => scan_parts o rest (Some n)
      | Some (ReverseRel n) => scan_parts o rest (Some n)
      | Some PlainField => scan_parts o rest None
      end
  end.

(** [parts] once a trailing query term has been dropped. *)
Definition drop_query_term (parts : list string) : list string :=
  if (1 <? length parts)%nat && bool_decide (List.last parts "" ∈ QUERY_TERMS)
  then removelast parts else parts.

Definition in_list_filter (ma : ModelAdmin) (clean_lookup : string) : bool :=
  existsb (fun lf => bool_decide (lf_kind lf = FieldPath)
                     && bool_decide (lf_field_path lf = clean_lookup))
          (list_filter ma).

Definition lookup_allowed (self : t) (lookup value : string) : bool :=
  let ma := model_admin self in
  if existsb (fun l => bool_decide (l !! lookup = Some value))
             (related_fkey_lookups (opts ma))
  then true
  else
    let parts := drop_query_term (PyStr.split_dunder lookup) in
    match scan_parts (opts ma) (removelast parts) None with
    | None => true
    | Some rel_name =>
        let parts :=
          match rel_name with
          | Some n =>
              if negb (bool_decide (n = "")) && (1 <? length parts)%nat
                 && bool_decide (List.last parts "" = n)
              then removelast parts else parts
          | None => parts
          end in
        if (length parts =? 1)%nat then true
        else in_list_filter ma (PyStr.join LOOKUP_SEP parts)
    end.

Definition get_filters_params (self : t) : gmap string string :=
  fold_left (fun lookup_params ignored => delete ignored lookup_params)
            IGNORED_PARAMS (params self).

(** The loop over [list_filter]: each spec pops the parameters it uses. *)
Fixpoint build_specs (lfs : list ListFilter) (lookup_params : gmap string string)
    (use_distinct : bool) : list FilterSpec * gmap string string * bool :=
  match lfs with
  | [] => ([], lookup_params, use_distinct)
  | lf :: rest =>
      let spec := lf_create lf lookup_params in
      let lookup_params :=
        match spec with
        | Some sp => fold_left (fun m k => delete k m) (used_parameters sp) lookup_params
        | None => lookup_params
        end in
      let use_distinct :=
        if bool_decide (lf_kind lf = CustomFilter) then use_distinct
        else use_distinct || lf_needs_distinct lf in
      let '(specs, lookup_params, use_distinct) :=
        build_specs rest lookup_params use_distinct in
      (match spec with
       | Some sp => if has_output sp then sp :: specs else specs
       | None => specs
       end, lookup_params, use_distinct)
  end.

(** The guarded loop over the remaining parameters; [or] short-circuits. *)
Fixpoint prepare_remaining (dj : Django) (o : Options)
    (items : list (string * string)) (lookup_params : gmap string string)
    (use_distinct : bool) : exn + (gmap string string * bool) :=
  match items with
  | [] => inr (lookup_params, use_distinct)
  | (key, value) :: rest =>
      let lookup_params := <[key := prepare_lookup_value dj key value]> lookup_params in
      if use_distinct then prepare_remaining dj o rest lookup_params true
      else match lookup_needs_distinct o key with
           | inl _ => inl IncorrectLookupParameters
           | inr d => prepare_remaining dj o rest lookup_params d
           end
  end.

Definition get_filters (dj : Django) (self : t)
    : exn + (list FilterSpec * bool * gmap string string * bool) :=
  let ma := model_admin self in
  let lookup_params := get_filters_params self in
  match List.find (fun kv => negb (lookup_allowed self kv.1 kv.2))
                  (map_to_list lookup_params) with
  | Some (key, _) =>
      inl (DisallowedModelAdminLookup ("Filtering by " +:+ key +:+ " not allowed"))
  | None =>
      let '(filter_specs, lookup_params, use_distinct) :=
        build_specs (list_filter ma) lookup_params false in
      '(lookup_params, use_distinct) ←
        prepare_remaining dj (opts ma) (map_to_list lookup_params)
                          lookup_params use_distinct;
      mret (filter_specs, negb (bool_decide (filter_specs = [])),
            lookup_params, use_distinct)
  end.

(** [get_query_string]: the parameters the query string is made of; the text
    returned is a question mark followed by [urlencode(sorted(p.items()))]. *)
Definition get_query_string (self : t) (new_params : list (string * option string))
    (remove : list string) : gmap string string :=
  let p := fold_left (fun p r => filter (fun kv => String.prefix r kv.1 = false) p)
                     remove (params self) in
  fold_left (fun p kv => match kv.2 with
                         | None => delete kv.1 p
                         | Some v => <[kv.1 := v]> p
                         end)
            new_params p.

Definition get_default_ordering (self : t) : list string :=
  let ma := model_admin self in
  if negb (bool_decide (ordering ma = [])) then ordering ma
  else opts_ordering (opts ma).

Definition get_ordering_field (self : t) (column : Column) : exn + option string :=
  let ma := model_admin self in
  match column with
  | ColCallable aof => inr aof
  | ColName name =>
      match get_field (opts ma) name with
      | Some f => inr (Some (field_name f))
      | None =>
          match admin_attr ma name with
          | Some aof => inr aof
          | None =>
              match model_attr ma name with
              | Some aof => inr aof
              | None => inl (AttributeError name)
              end
          end
      end
  end.

(** One turn of the loop over the dot-separated pieces of [o]. *)
Definition order_step (self : t) (ordering : list string) (p : string)
    : exn + list string :=
  let '(_, pfx, idx) := PyStr.rpartition_dash p in
  match PyStr.int idx with
  | None => inr ordering
  | Some i =>
      match py_getitem (list_display (model_admin self)) i with
      | None => inr ordering
      | Some column =>
          order_field ← get_ordering_field self column;
          match order_field with
          | None | Some EmptyString => inr ordering
          | Some order_field =>
              if PyStr.startswith "-" order_field && bool_decide (pfx = "-")
              then inr (ordering ++ [PyStr.tail order_field])
              else inr (ordering ++ [pfx +:+ order_field])
          end
      end
  end.

Fixpoint order_loop (self : t) (ordering : list string) (ps : list string)
    : exn + list string :=
  match ps with
  | [] => inr ordering
  | p :: rest =>
      ordering ← order_step self ordering p;
      order_loop self ordering rest
  end.

(** Does the ordering name the primary key? *)
Definition names_pk (pk_name : string) (ordering : list string) : bool :=
  existsb (fun f => bool_decide (f ∈ ["pk"; "-pk"; pk_name; "-" +:+ pk_name])) ordering.

Definition get_ordering (self : t) (queryset : QuerySet) : exn + list string :=
  ordering ←
    match params self !! ORDER_VAR with
    | Some o => order_loop self [] (PyStr.split_char "." o)
    | None => inr (get_default_ordering self)
    end;
  let ordering := ordering ++ query_order_by queryset in
  if names_pk (pk_name (opts (model_admin self))) ordering
  then mret ordering
  else mret (ordering ++ ["-pk"]).

(** [_get_default_ordering] *)
Definition _get_default_ordering (self : t) : list string :=
  let ma := model_admin self in
  if negb (bool_decide (ordering ma = [])) then ordering ma
  else opts_ordering (opts ma).

(** Assignment into an OrderedDict: an existing key keeps its place. *)
Definition od_set (k : Z) (v : string) (od : list (Z * string)) : list (Z * string) :=
  if existsb (fun kv => (kv.1 =? k)%Z) od
  then map (fun kv => if (kv.1 =? k)%Z then (k, v) else kv) od
  else od ++ [(k, v)].

(** The first column of [list_display] whose ordering field is [field]. *)
Fixpoint find_column (self : t) (field : string) (columns : list Column)
    (index : Z) : exn + option Z :=
  match columns with
  | [] => inr None
  | attr :: rest =>
      f ← get_ordering_field self attr;
      if bool_decide (f = Some field) then inr (Some index)
      else find_column self field rest (index + 1)
  end.

Fixpoint guess_columns (self : t) (fields : list string)
    (ordering_fields : list (Z * string)) : exn + list (Z * string) :=
  match fields with
  | [] => inr ordering_fields
  | field :: rest =>
      let '(field, order_type) :=
        if PyStr.startswith "-" field then (PyStr.tail field, "desc")
        else (field, "asc") in
      found ← find_column self field (list_display (model_admin self)) 0;
      guess_columns self rest
        (match found with
         | Some index => od_set index order_type ordering_fields
         | None => ordering_fields
         end)
  end.

Definition column_step (ordering_fields : list (Z * string)) (p : string)
    : list (Z * string) :=
  let '(_, pfx, idx) := PyStr.rpartition_dash p in
  match PyStr.int idx with
  | None => ordering_fields
  | Some idx => od_set idx (if bool_decide (pfx = "-") then "desc" else "asc")
                       ordering_fields
  end.

(** [get_ordering_field_columns]: column numbers with asc or desc. *)
Definition get_ordering_field_columns (self : t) : exn + list (Z * string) :=
  match params self !! ORDER_VAR with
  | None => guess_columns self (_get_default_ordering self) []
  | Some o => inr (fold_left column_step (PyStr.split_char "." o) [])
  end.

Definition has_related_field_in_list_display (self : t) : bool :=
  existsb (fun column =>
             match column with
             | ColName name =>
                 match get_field (opts (model_admin self)) name with
                 | Some f => is_many_to_one_rel f
                 | None => false
                 end
             | ColCallable _ => false
             end)
          (list_display (model_admin self)).

Definition apply_select_related (self : t) (qs : QuerySet) : QuerySet :=
  match list_select_related (model_admin self) with
  | SRTrue => SelectRelatedAll qs
  | SRFalse =>
      if has_related_field_in_list_display self then SelectRelatedAll qs else qs
  | SRFields [] => qs
  | SRFields fields => SelectRelatedFields fields qs
  end.

Definition get_base_queryset (self : t) : QuerySet :=
  base_queryset (model_admin self).

Definition get_queryset (dj : Django) (self : t) : exn + QuerySet :=
  '(filter_specs, has_filters, remaining_lookup_params, filters_use_distinct) ←
    get_filters dj self;
  let qs := fold_left (fun qs filter_spec =>
                         match queryset filter_spec qs with
                         | Some new_qs => new_qs
                         | None => qs
                         end)
                      filter_specs (get_base_queryset self) in
  qs ← match filter_error dj remaining_lookup_params with
       | None => inr (FilterKw remaining_lookup_params qs)
       | Some SuspiciousOperation => inl SuspiciousOperation
       | Some ImproperlyConfigured => inl ImproperlyConfigured
       | Some _ => inl IncorrectLookupParameters
       end;
  let qs := if query_select_related qs then qs else apply_select_related self qs in
  ordering ← get_ordering self qs;
  let qs := OrderBy ordering qs in
  '(qs, search_use_distinct) ← get_search_results dj self qs (query self);
  if filters_use_distinct || search_use_distinct
  then mret (Distinct qs) else mret qs.

(** The page shown: [paginator.page(page_num + 1)], or the first page when
    that raises InvalidPage. *)
Definition page_obj (paginator : Paginator.t) (page_num : Z)
    : exn + (Z * list Instance) :=
  match Paginator.page paginator (page_num + 1) with
  | inl e => inl e
  | inr (Some pg) => inr pg
  | inr None =>
      match Paginator.page paginator 1 with
      | inl e => inl e
      | inr (Some pg) => inr pg
      | inr None => inl EmptyPage
      end
  end.

Definition get_context_data (dj : Django) (self : t) (request : Request) : M Context :=
  let ma := model_admin self in
  tbl ← get_table;
  let all_count := length (rows dj tbl (get_base_queryset self)) in
  queryset ← lift (get_queryset dj self);
  let result := rows dj tbl queryset in
  has_add ← checked "has_add_permission"
              (has_add_permission (permission_helper ma) (user request));
  let paginator := {| Paginator.object_list := result;
                      Paginator.per_page := list_per_page ma |} in
  pg ← lift (page_obj paginator (page_num self));
  if is_pagemodel ma then
    valid_parents ← checked "get_valid_parent_pages"
                      (get_valid_parent_pages (permission_helper ma) (user request));
    mret (IndexContext all_count (length result) pg.1 pg.2 has_add
            (Some (bool_decide (valid_parents = []))))
  else
    mret (IndexContext all_count (length result) pg.1 pg.2 has_add None).

Definition get (dj : Django) (self : t) (request : Request) : M Response :=
  context ← get_context_data dj self request;
  sess ← (fun w => (inr (session w), w));
  _ ← match sess !! "return_to_index_url" with
      | Some (String _ _) => del_session "return_to_index_url"
      | _ => mret tt
      end;
  mret (Rendered (index_template (model_admin self)) context).

(** [self.page_num]: [int(request.GET.get(PAGE_VAR, 0))], or 0 on
    ValueError. *)
Definition parse_page_num (request : Request) : Z :=
  match req_GET request !! PAGE_VAR with
  | None => 0
  | Some s => match PyStr.int s with
              | Some n => n
              | None => 0
              end
  end.

(** [self.params]: the query string without [p] and [e]. *)
Definition retained_params (request : Request) : gmap string string :=
  delete ERROR_FLAG (delete PAGE_VAR (req_GET request)).

(** The view as [dispatch] leaves it before building the queryset. *)
Definition init (ma : ModelAdmin) (request : Request) : t :=
  {| model_admin := ma;
     page_num := parse_page_num request;
     params := retained_params request;
     query := default "" (req_GET request !! SEARCH_VAR) |}.

Definition dispatch (dj : Django) (ma : ModelAdmin) : Request -> M Response :=
  login_required (fun request =>
    let self := init ma request in
    queryset ← lift (get_queryset dj self);
    allowed ← checked "allow_list_view"
                (allow_list_view (permission_helper ma) (user request));
    if negb allowed then permission_denied_response request
    else WMABaseView.dispatch (Some (get dj self)) None None request).

End IndexView.

(** ** ObjectSpecificView *)

Module ObjectSpecificView.

Record t := {
  model_admin : ModelAdmin;
  object_id : string;
  pk_safe : string;
  instance : Instance;
}.

(** [get_object_or_404] on a queryset *)
Definition get_object_or_404 (object_qs : list Instance) : M Instance :=
  match object_qs with
  | [] => raise Http404
  | [obj] => mret obj
  | _ => raise MultipleObjectsReturned
  end.

(** [__init__]: the instance is looked up by the quoted object id, which
    [filter()] first hands to the key field for conversion. *)
Definition init (ma : ModelAdmin) (object_id : string) : M t :=
  let pk_safe := quote object_id in
  key ← lift (pk_get_prep_value (opts ma) pk_safe);
  tbl ← get_table;
  let object_qs := List.filter (fun i => bool_decide (pk i = key)) tbl in
  inst ← get_object_or_404 object_qs;
  mret {| model_admin := ma; object_id := object_id;
          pk_safe := pk_safe; instance := inst |}.

(** [allow_object_delete] *)
Definition allow_object_delete (self : t) (request : Request) : M bool :=
  checked "can_delete_object"
    (can_delete_object (permission_helper (model_admin self)) (user request)
       (instance self)).

(** [get_edit_url] and [get_delete_url] as this class overrides them: the
    argument is ignored and the quoted id goes into the URL. *)
Definition get_edit_url (self : t) : Target :=
  UrlName (get_url_name (model_admin self) "edit") [pk_safe self].

Definition get_delete_url (self : t) : Target :=
  UrlName (get_url_name (model_admin self) "confirm_delete") [pk_safe self].

End ObjectSpecificView.

(** [View.as_view()] for a view bound to an object: on each request the view
    is constructed, then its [dispatch] is called. *)
Definition as_object_view
    (dispatch : ObjectSpecificView.t -> Request -> M Response)
    (ma : ModelAdmin) (object_id : string) (request : Request) : M Response :=
  self ← ObjectSpecificView.init ma object_id;
  dispatch self request.

(** ** InspectView *)

Module InspectView.
Import ObjectSpecificView.

Definition check_action_permitted (self : t) (request : Request) : M bool :=
  checked "has_list_permission"
    (has_list_permission (permission_helper (model_admin self)) (user request)).

(** [TemplateView.get] with this view's context; the field labels, values
    and buttons it shows are read from the instance. *)
Definition get (self : t) (request : Request) : M Response :=
  mret (Rendered (inspect_template (model_admin self))
                 (InspectContext (instance self))).

Definition dispatch (self : t) : Request -> M Response :=
  login_required (fun request =>
    permitted ← check_action_permitted self request;
    if negb permitted then permission_denied_response request
    else WMABaseView.dispatch (Some (get self)) None None request).

End InspectView.

(** ** WMAFormView *)

Module WMAFormView.

(** [form.save()]: the saved instance replaces the one edited, or is added. *)
Definition save_form (ma : ModelAdmin) (inst : option Instance)
    (data : gmap string string) : M Instance :=
  fun w =>
    let saved := form_save ma data inst in
    let kept := match inst with
                | Some old => List.filter (fun i => negb (bool_decide (pk i = pk old))) (table w)
                | None => table w
                end in
    (inr saved, {| table := kept ++ [saved]; messages := messages w;
                   session := session w; checks := checks w |}).

(** [form_valid]; [get_edit_url] is the view's method of that name, which
    [get_success_message_buttons] calls on the saved instance. *)
Definition form_valid (ma : ModelAdmin) (inst : option Instance)
    (get_edit_url : Instance -> Target)
    (success_message : Instance -> string) (request : Request) : M Response :=
  saved ← save_form ma inst (req_POST request);
  _ ← add_message SUCCESS (success_message saved)
        [(get_edit_url saved, "Edit")];
  mret (Redirect (Url (index_url ma))).

Definition form_invalid (ma : ModelAdmin) (inst : option Instance)
    (template error_message : string) (request : Request) : M Response :=
  _ ← add_message ERROR error_message [];
  mret (Rendered template (FormContext inst)).

(** [get], inherited from TemplateView: the form is rendered. *)
Definition get (ma : ModelAdmin) (inst : option Instance) (template : string)
    (request : Request) : M Response :=
  mret (Rendered template (FormContext inst)).

(** [post], inherited from ProcessFormView *)
Definition post (ma : ModelAdmin) (inst : option Instance)
    (get_edit_url : Instance -> Target)
    (template : string) (success_message : Instance -> string)
    (error_message : string) (request : Request) : M Response :=
  if form_is_valid ma (req_POST request)
  then form_valid ma inst get_edit_url success_message request
  else form_invalid ma inst template error_message request.

(** [put], inherited from ProcessFormView: it is [post]. *)
Definition put := post.

End WMAFormView.

(** ** CreateView *)

Module CreateView.

Definition get_success_message (ma : ModelAdmin) (inst : Instance) : string :=
  WMABaseView.model_name ma +:+ " '" +:+ str inst +:+ "' created.".

Definition get_error_message (ma : ModelAdmin) : string :=
  "The " +:+ PyStr.lower (WMABaseView.model_name ma)
  +:+ " could not be created due to errors.".

Definition dispatch (dj : Django) (ma : ModelAdmin) (request : Request) : M Response :=
  permitted ← checked "has_add_permission"
                (has_add_permission (permission_helper ma) (user request));
  if negb permitted then permission_denied_response request
  else if is_pagemodel ma then
    _ ← WMABaseView.prime_session_for_redirection ma;
    parents ← checked "get_valid_parent_pages"
                (get_valid_parent_pages (permission_helper ma) (user request));
    match parents with
    | [parent] =>
        mret (Redirect (UrlName (PAGES_CREATE_URL_NAME (wagtail_version dj))
                          [app_label (opts ma); model_name (opts ma); pk parent]))
    | _ => mret (Redirect (Url (choose_parent_url ma)))
    end
  else
    WMABaseView.dispatch
      (Some (WMAFormView.get ma None (create_template ma)))
      (Some (WMAFormView.post ma None (WMABaseView.get_edit_url ma)
               (create_template ma) (get_success_message ma) (get_error_message ma)))
      (Some (WMAFormView.put ma None (WMABaseView.get_edit_url ma)
               (create_template ma) (get_success_message ma) (get_error_message ma)))
      request.

End CreateView.

(** ** ChooseParentView *)

Module ChooseParentView.

Definition get_form (ma : ModelAdmin) (request : Request) : M (list Instance) :=
  checked "get_valid_parent_pages"
    (get_valid_parent_pages (permission_helper ma) (user request)).

Definition get (ma : ModelAdmin) (request : Request) : M Response :=
  parents ← get_form ma request;
  mret (Rendered (choose_parent_template ma) (ChooseParentContext parents)).

Definition post (dj : Django) (ma : ModelAdmin) (request : Request) : M Response :=
  parents ← get_form ma request;
  match parent_chooser_form ma parents (req_POST request) with
  | Some parent =>
      mret (Redirect (UrlName (PAGES_CREATE_URL_NAME (wagtail_version dj))
                        [app_label (opts ma); model_name (opts ma); quote (pk parent)]))
  | None => mret (Rendered (choose_parent_template ma) (ChooseParentContext parents))
  end.

Definition dispatch (dj : Django) (ma : ModelAdmin) (request : Request) : M Response :=
  permitted ← checked "has_add_permission"
                (has_add_permission (permission_helper ma) (user request));
  if negb permitted then permission_denied_response request
  else WMABaseView.dispatch (Some (get ma)) (Some (post dj ma)) None request.

End ChooseParentView.

(** ** EditView *)

Module EditView.
Import ObjectSpecificView.

Definition check_action_permitted (self : t) (request : Request) : M bool :=
  checked "can_edit_object"
    (can_edit_object (permission_helper (model_admin self)) (user request)
       (instance self)).

Definition get_success_message (ma : ModelAdmin) (inst : Instance) : string :=
  WMABaseView.model_name ma +:+ " '" +:+ str inst +:+ "' updated.".

Definition get_error_message (ma : ModelAdmin) : string :=
  "The " +:+ PyStr.lower (WMABaseView.model_name ma)
  +:+ " could not be saved due to errors.".

Definition dispatch (dj : Django) (self : t) : Request -> M Response :=
  login_required (fun request =>
    let ma := model_admin self in
    permitted ← check_action_permitted self request;
    if negb permitted then permission_denied_response request
    else if is_pagemodel ma then
      _ ← WMABaseView.prime_session_for_redirection ma;
      mret (Redirect (UrlName (PAGES_EDIT_URL_NAME (wagtail_version dj))
                        [object_id self]))
    else
      WMABaseView.dispatch
        (Some (WMAFormView.get ma (Some (instance self)) (edit_template ma)))
        (Some (WMAFormView.post ma (Some (instance self)) (fun _ => get_edit_url self)
                 (edit_template ma) (get_success_message ma) (get_error_message ma)))
        (Some (WMAFormView.put ma (Some (instance self)) (fun _ => get_edit_url self)
                 (edit_template ma) (get_success_message ma) (get_error_message ma)))
        request).

End EditView.

(** ** ConfirmDeleteView *)

Module ConfirmDeleteView.
Import ObjectSpecificView.

Definition check_action_permitted (self : t) (request : Request) : M bool :=
  checked "can_delete_object"
    (can_delete_object (permission_helper (model_admin self)) (user request)
       (instance self)).

Definition delete_instance (self : t) : M unit := orm_delete (instance self).

Definition get (self : t) (request : Request) : M Response :=
  mret (Rendered (confirm_delete_template (model_admin self))
                 (ConfirmDeleteContext (instance self) false [])).

(** The objects behind the accessors of the PROTECT relations. *)
Definition linked_objects (inst : Instance) : list Related :=
  flat_map (fun rel => if bool_decide (on_delete rel = PROTECT)
                       then accessor rel else [])
           (related inst).

(** [try: delete ... except ProtectedError: ...]: the handler runs in the
    state the failed delete left. *)
Definition post (self : t) (request : Request) : M Response :=
  let ma := model_admin self in
  let inst := instance self in
  if negb (bool_decide (req_POST request = ∅)) then
    fun w =>
      match delete_instance self w with
      | (inr _, w') =>
          (_ ← add_message SUCCESS
                 (WMABaseView.model_name ma +:+ " '" +:+ str inst +:+ "' deleted.") [];
           mret (Redirect (Url (index_url ma)))) w'
      | (inl ProtectedError, w') =>
          (_ ← add_message ERROR
                 (WMABaseView.model_name ma +:+ " '" +:+ str inst
                  +:+ "' could not be deleted.") [];
           mret (Rendered (confirm_delete_template ma)
                   (ConfirmDeleteContext inst true (linked_objects inst)))) w'
      | (inl e, w') => (inl e, w')
      end
  else raise (UnboundLocalError "context").

Definition dispatch (dj : Django) (self : t) : Request -> M Response :=
  login_required (fun request =>
    let ma := model_admin self in
    permitted ← check_action_permitted self request;
    if negb permitted then permission_denied_response request
    else if is_pagemodel ma then
      _ ← WMABaseView.prime_session_for_redirection ma;
      mret (Redirect (UrlName (PAGES_DELETE_URL_NAME (wagtail_version dj))
                        [object_id self]))
    else WMABaseView.dispatch (Some (get self)) (Some (post self)) None request).

End ConfirmDeleteView.

(** ** UnpublishRedirectView *)

Module UnpublishRedirectView.
Import ObjectSpecificView.

Definition check_action_permitted (self : t) (request : Request) : M bool :=
  checked "can_unpublish_object"
    (can_unpublish_object (permission_helper (model_admin self)) (user request)
       (instance self)).

Definition dispatch (dj : Django) (self : t) : Request -> M Response :=
  login_required (fun request =>
    permitted ← check_action_permitted self request;
    if negb permitted then permission_denied_response request
    else
      _ ← WMABaseView.prime_session_for_redirection (model_admin self);
      mret (Redirect (UrlName (PAGES_UNPUBLISH_URL_NAME (wagtail_version dj))
                        [object_id self]))).

End UnpublishRedirectView.

(** ** CopyRedirectView *)

Module CopyRedirectView.
Import ObjectSpecificView.

Definition check_action_permitted (self : t) (request : Request) : M bool :=
  checked "can_copy_object"
    (can_copy_object (permission_helper (model_admin self)) (user request)
       (instance self)).

Definition dispatch (dj : Django) (self : t) : Request -> M Response :=
  login_required (fun request =>
    permitted ← check_action_permitted self request;
    if negb permitted then permission_denied_response request
    else
      _ ← WMABaseView.prime_session_for_redirection (model_admin self);
      mret (Redirect (UrlName (PAGES_COPY_URL_NAME (wagtail_version dj))
                        [object_id self]))).

End CopyRedirectView.

(** ** Notions the properties below are stated with *)

(** A lookup that is a single part once a trailing query term is dropped. *)
Definition is_direct_lookup (lookup : string) : bool :=
  (length (IndexView.drop_query_term (PyStr.split_dunder lookup)) =? 1)%nat.

(** Two requests that differ at most in the value (or presence) of one
    query-string parameter. *)
Definition differ_only_in (key : string) (r1 r2 : Request) : Prop :=
  method r1 = method r2 /\ user r1 = user r2 /\ path r1 = path r2
  /\ req_POST r1 = req_POST r2
  /\ forall k, k <> key -> req_GET r1 !! k = req_GET r2 !! k.

(** The ordering carried by the queryset the index view ends up with. *)
Definition result_ordering (dj : Django) (ma : ModelAdmin) (request : Request)
    : exn + list string :=
  qs ← IndexView.get_queryset dj (IndexView.init ma request);
  mret (query_order_by qs).

(** The ordering the index view starts from: the one asked for in the query
    string when [o] is given, the default ordering otherwise. *)
Definition chosen_ordering (self : IndexView.t) : exn + list string :=
  match IndexView.params self !! ORDER_VAR with
  | Some o => IndexView.order_loop self [] (PyStr.split_char "." o)
  | None => inr (IndexView.get_default_ordering self)
  end.

(** A piece of [o] that [get_ordering] passes over: what follows its last
    dash is no integer, or no index of [list_display], or the column has no
    ordering field. *)
Definition skipped_piece (self : IndexView.t) (p : string) : bool :=
  match PyStr.int (PyStr.rpartition_dash p).2 with
  | None => true
  | Some i =>
      match py_getitem (list_display (IndexView.model_admin self)) i with
      | None => true
      | Some column =>
          match IndexView.get_ordering_field self column with
          | inr None | inr (Some EmptyString) => true
          | _ => false
          end
      end
  end.

(** An ordering field that stands for the primary key. *)
Definition is_pk_field (pk_name f : string) : Prop :=
  f = "pk" \/ f = "-pk" \/ f = pk_name \/ f = "-" +:+ pk_name.

(** A [list_display] name that is neither a model field nor an attribute of
    the model admin or of the model. *)
Definition unresolved (ma : ModelAdmin) (name : string) : Prop :=
  get_field (opts ma) name = None /\ admin_attr ma name = None
  /\ model_attr ma name = None.


(** The queryset the loop over the bits of a search term builds when
    [filter()] takes every lookup. *)
Definition filtered_by (lookups bits : list string) (qs : QuerySet) : QuerySet :=
  fold_left (fun qs bit =>
               match IndexView.reduce_or (map (fun l => QLookup l bit) lookups) with
               | Some q => FilterQ q qs
               | None => qs
               end)
            bits qs.

(** How often a row comes back from the filters of a search: for each bit,
    not at all when no lookup holds, and once and then once more per join
    otherwise. *)
Definition bit_copies (dj : Django) (lookups : list string) (bit : string)
    (i : Instance) : nat :=
  match IndexView.reduce_or (map (fun l => QLookup l bit) lookups) with
  | Some q => if q_holds dj q i then S (q_joins dj q i) else 0%nat
  | None => 1%nat
  end.

Definition term_copies (dj : Django) (lookups bits : list string) (i : Instance)
    : nat :=
  fold_right (fun bit n => (bit_copies dj lookups bit i * n)%nat) 1%nat bits.

(** Page [n] of a result list cut into pages of [per_page] objects. *)
Definition page_of (result : list Instance) (per_page n : Z) : list Instance :=
  take (Z.to_nat per_page) (drop (Z.to_nat ((n - 1) * per_page)) result).

(** Page [n] exists: it is the first page, or it has an object on it. *)
Definition page_in_range (result : list Instance) (per_page n : Z) : Prop :=
  (1 <= n /\ (n - 1) * per_page < Z.max 1 (Z.of_nat (length result)))%Z.

(** A computation that leaves the table of the model as it found it. *)
Definition keeps_table {A} (m : M A) : Prop :=
  forall w, table (m w).2 = table w.

(** The opposite direction of an ordering field. *)
Definition reverse_order (f : string) : string :=
  if PyStr.startswith "-" f then PyStr.tail f else "-" +:+ f.

(** The objects on the page shown for a given [page_num]. *)
Definition shown_objects (result : list Instance) (per_page page_num : Z)
    : list Instance :=
  match IndexView.page_obj
          {| Paginator.object_list := result; Paginator.per_page := per_page |}
          page_num with
  | inr pg => pg.2
  | inl _ => []
  end.

(** The five query-string parameters the index view keeps for itself. *)
Definition reserved_params : list string :=
  [ORDER_VAR; ORDER_TYPE_VAR; SEARCH_VAR; PAGE_VAR; ERROR_FLAG].

(** A model admin for other model metadata and search fields. *)
Definition with_search_on (o : Options) (fields : list string) (ma : ModelAdmin)
    : ModelAdmin :=
  {| opts := o;
     is_pagemodel := is_pagemodel ma;
     permission_helper := permission_helper ma;
     inspect_view_enabled := inspect_view_enabled ma;
     list_display := list_display ma;
     list_filter := list_filter ma;
     search_fields := fields;
     list_per_page := list_per_page ma;
     list_select_related := list_select_related ma;
     ordering := ordering ma;
     base_queryset := base_queryset ma;
     admin_attr := admin_attr ma;
     model_attr := model_attr ma;
     index_url := index_url ma;
     choose_parent_url := choose_parent_url ma;
     index_template := index_template ma;
     inspect_template := inspect_template ma;
     create_template := create_template ma;
     edit_template := edit_template ma;
     choose_parent_template := choose_parent_template ma;
     confirm_delete_template := confirm_delete_template ma;
     form_is_valid := form_is_valid ma;
     form_save := form_save ma;
     parent_chooser_form := parent_chooser_form ma;
     get_url_name := get_url_name ma |}.

(** A model admin whose form validates other data. *)
Definition with_form (valid : gmap string string -> bool) (ma : ModelAdmin)
    : ModelAdmin :=
  {| opts := opts ma;
     is_pagemodel := is_pagemodel ma;
     permission_helper := permission_helper ma;
     inspect_view_enabled := inspect_view_enabled ma;
     list_display := list_display ma;
     list_filter := list_filter ma;
     search_fields := search_fields ma;
     list_per_page := list_per_page ma;
     list_select_related := list_select_related ma;
     ordering := ordering ma;
     base_queryset := base_queryset ma;
     admin_attr := admin_attr ma;
     model_attr := model_attr ma;
     index_url := index_url ma;
     choose_parent_url := choose_parent_url ma;
     index_template := index_template ma;
     inspect_template := inspect_template ma;
     create_template := create_template ma;
     edit_template := edit_template ma;
     choose_parent_template := choose_parent_template ma;
     confirm_delete_template := confirm_delete_template ma;
     form_is_valid := valid;
     form_save := form_save ma;
     parent_chooser_form := parent_chooser_form ma;
     get_url_name := get_url_name ma |}.

(** A model admin with another [list_filter]. *)
Definition with_list_filter (lfs : list ListFilter) (ma : ModelAdmin) : ModelAdmin :=
  {| opts := opts ma;
     is_pagemodel := is_pagemodel ma;
     permission_helper := permission_helper ma;
     inspect_view_enabled := inspect_view_enabled ma;
     list_display := list_display ma;
     list_filter := lfs;
     search_fields := search_fields ma;
     list_per_page := list_per_page ma;
     list_select_related := list_select_related ma;
     ordering := ordering ma;
     base_queryset := base_queryset ma;
     admin_attr := admin_attr ma;
     model_attr := model_attr ma;
     index_url := index_url ma;
     choose_parent_url := choose_parent_url ma;
     index_template := index_template ma;
     inspect_template := inspect_template ma;
     create_template := create_template ma;
     edit_template := edit_template ma;
     choose_parent_template := choose_parent_template ma;
     confirm_delete_template := confirm_delete_template ma;
     form_is_valid := form_is_valid ma;
     form_save := form_save ma;
     parent_chooser_form := parent_chooser_form ma;
     get_url_name := get_url_name ma |}.

(** The response to a denied request, and the world it leaves: one error
    message more, one more permission check on record, nothing else. *)
Definition denied_message : Message :=
  {| level := ERROR;
     text := "Sorry, you do not have permission to access this area.";
     buttons := [] |}.

Definition denied (check : string) (w : World) : (exn + Response) * World :=
  (inr (Redirect (UrlName "wagtailadmin_home" [])),
   {| table := table w;
      messages := messages w ++ [denied_message];
      session := session w;
      checks := checks w ++ [check] |}).

(** ** A small library admin, used to run the views on concrete requests *)

Module Fixture.

Definition alice : User := {| username := "alice"; is_authenticated := true |}.
Definition anonymous : User := {| username := ""; is_authenticated := false |}.

Definition book (id title : string) (blocked : bool) : Instance :=
  {| pk := id; str := title;
     related := [ {| on_delete := PROTECT;
                     accessor := if blocked
                                 then [ {| rel_pk := "7"; rel_str := "loan 7" |} ]
                                 else [] |};
                  {| on_delete := CASCADE;
                     accessor := [ {| rel_pk := "3"; rel_str := "review 3" |} ] |} ];
     delete_blocked := blocked;
     cascade := [] |}.

(** A book that is the first volume of a series: its sequels refer to it
    with a CASCADE foreign key and go when it goes. *)
Definition first_volume (id title : string) (sequels : list string) : Instance :=
  {| pk := id; str := title; related := []; delete_blocked := false;
     cascade := sequels |}.

Definition title_field : Field :=
  {| field_name := "title"; is_many_to_one_rel := false; m2m := false |}.
Definition author_field : Field :=
  {| field_name := "author"; is_many_to_one_rel := false; m2m := false |}.
Definition about_field : Field :=
  {| field_name := "about"; is_many_to_one_rel := false; m2m := false |}.

(** The books are keyed by a text (a CharField): a shelf mark.  [title] is a
    CharField, [author] a ForeignKey and [about] a generic foreign key. *)
Definition book_opts : Options :=
  {| app_label := "library"; model_name := "book"; verbose_name := "book";
     pk_name := "id"; pk_attname := "id";
     pk_get_prep_value := fun s => inr s;
     opts_ordering := [];
     related_fkey_lookups := [];
     get_field_by_name := fun n =>
       if bool_decide (n = "title") then Some RelNone
       else if bool_decide (n = "author") then Some (RelTo "id")
       else if bool_decide (n = "about") then Some PlainField
       else None;
     get_field := fun n =>
       if bool_decide (n = "title") then Some title_field
       else if bool_decide (n = "author") then Some author_field
       else if bool_decide (n = "about") then Some about_field
       else None |}.

(** The same model keyed by an AutoField: [int()] of the text, which raises
    ValueError when the text is no integer. *)
Definition int_key (s : string) : exn + string :=
  match PyStr.int s with
  | Some n => inr (NilZero.string_of_int (Z.to_int n))
  | None => inl ValueError
  end.

Definition numbered_opts : Options :=
  {| app_label := "library"; model_name := "book"; verbose_name := "book";
     pk_name := "id"; pk_attname := "id";
     pk_get_prep_value := int_key;
     opts_ordering := [];
     related_fkey_lookups := [];
     get_field_by_name := get_field_by_name book_opts;
     get_field := get_field book_opts |}.

Definition helper (allow : bool) (parents : list Instance) : PermissionHelper :=
  {| allow_list_view := fun _ => allow;
     has_list_permission := fun _ => allow;
     has_add_permission := fun _ => allow;
     can_edit_object := fun _ _ => allow;
     can_delete_object := fun _ _ => allow;
     can_unpublish_object := fun _ _ => allow;
     can_copy_object := fun _ _ => allow;
     get_valid_parent_pages := fun _ => parents |}.

Definition admin (pagemodel allow : bool) (parents : list Instance) : ModelAdmin :=
  {| opts := book_opts;
     is_pagemodel := pagemodel;
     permission_helper := helper allow parents;
     inspect_view_enabled := true;
     list_display := [ColName "title"; ColName "author"];
     list_filter := [];
     search_fields := ["^title"; "author__name"];
     list_per_page := 2;
     list_select_related := SRFalse;
     ordering := [];
     base_queryset := Base [] false;
     admin_attr := fun _ => None;
     model_attr := fun _ => None;
     index_url := "/admin/library/book/";
     choose_parent_url := "/admin/library/book/choose_parent/";
     index_template := "index.html";
     inspect_template := "inspect.html";
     create_template := "create.html";
     edit_template := "edit.html";
     choose_parent_template := "choose_parent.html";
     confirm_delete_template := "confirm_delete.html";
     form_is_valid := fun data => bool_decide (is_Some (data !! "title"));
     form_save := fun data inst =>
       book (match inst with Some i => pk i | None => "new" end)
            (default "" (data !! "title")) false;
     parent_chooser_form := fun parents data =>
       List.find (fun p => bool_decide (data !! "parent_page" = Some (pk p))) parents;
     get_url_name := fun action => "library_book_modeladmin_" +:+ action |}.

(** The lookups the database knows for a book: a path to a column, then at
    most one query term. *)
Definition lookup_paths : list (list string) :=
  [["id"]; ["pk"]; ["title"]; ["author"]; ["author"; "id"]; ["author"; "name"];
   ["tags"]; ["tags"; "name"]].

Definition known_lookup (lookup : string) : bool :=
  bool_decide (IndexView.drop_query_term (PyStr.split_dunder lookup) ∈ lookup_paths).

Fixpoint contains (needle s : string) : bool :=
  String.prefix needle s
  || match s with
     | String _ rest => contains needle rest
     | EmptyString => false
     end.

(** A row against a lookup: keys are compared as they are, titles by the
    query term; the authors and tags of a book are not on record here. *)
Definition book_holds (lookup value : string) (i : Instance) : bool :=
  let parts := PyStr.split_dunder lookup in
  let term := List.last parts "" in
  let column := hd "" parts in
  if bool_decide (column ∈ ["id"; "pk"]) then bool_decide (pk i = value)
  else if bool_decide (column = "title") then
    if bool_decide (term = "icontains")
    then contains (PyStr.lower value) (PyStr.lower (str i))
    else if bool_decide (term = "istartswith")
    then String.prefix (PyStr.lower value) (PyStr.lower (str i))
    else if bool_decide (term = "iexact")
    then bool_decide (PyStr.lower value = PyStr.lower (str i))
    else bool_decide (str i = value)
  else false.

(** Ordering on the key and on the title, a dash reversing the direction;
    rows that compare equal keep their order. *)
Definition field_cmp (f : string) (a b : Instance) : comparison :=
  let name := if PyStr.startswith "-" f then PyStr.tail f else f in
  let c := if bool_decide (name ∈ ["pk"; "id"]) then String.compare (pk a) (pk b)
           else if bool_decide (name = "title") then String.compare (str a) (str b)
           else Eq in
  if PyStr.startswith "-" f then CompOpp c else c.

Fixpoint fields_cmp (fields : list string) (a b : Instance) : comparison :=
  match fields with
  | [] => Eq
  | f :: rest =>
      match field_cmp f a b with
      | Eq => fields_cmp rest a b
      | c => c
      end
  end.

Fixpoint insert_row (fields : list string) (x : Instance) (l : list Instance)
    : list Instance :=
  match l with
  | [] => [x]
  | y :: l' =>
      match fields_cmp fields x y with
      | Gt => y :: insert_row fields x l'
      | _ => x :: l
      end
  end.

Definition sort_by (fields : list string) (l : list Instance) : list Instance :=
  fold_right (insert_row fields) [] l.

(** [distinct()]: of the rows with one key, the first stays. *)
Fixpoint distinct_rows (l : list Instance) : list Instance :=
  match l with
  | [] => []
  | x :: rest =>
      x :: List.filter (fun y => negb (bool_decide (pk y = pk x))) (distinct_rows rest)
  end.

Definition django : Django :=
  {| wagtail_version := "1.3";
     holds := book_holds;
     q_joins := fun _ _ => 0%nat;
     kw_joins := fun _ _ => 0%nat;
     sort_rows := sort_by;
     dedup := distinct_rows;
     prepare_lookup_value := fun _ v => v;
     lookup_error := fun lookup _ =>
       if known_lookup lookup then None else Some FieldError;
     filter_error := fun kwargs =>
       if forallb (fun kv => known_lookup kv.1) (map_to_list kwargs) then None
       else Some FieldError |}.

Definition request (m : Method) (u : User) (get post : list (string * string)) : Request :=
  {| method := m; user := u; path := "/admin/library/book/";
     req_GET := list_to_map get; form_data := list_to_map post |}.

Definition world (tbl : list Instance) : World :=
  {| table := tbl; messages := []; session := ∅; checks := [] |}.

Definition shelf : list Instance :=
  [book "1" "Dune" false; book "2" "Emma" true; book "3" "Ulysses" false].

Definition view (ma : ModelAdmin) (object_id : string) (inst : Instance)
    : ObjectSpecificView.t :=
  {| ObjectSpecificView.model_admin := ma;
     ObjectSpecificView.object_id := object_id;
     ObjectSpecificView.pk_safe := quote object_id;
     ObjectSpecificView.instance := inst |}.

(** The same model with a many-to-many field, searched on its name. *)
Definition tags_field : Field :=
  {| field_name := "tags"; is_many_to_one_rel := false; m2m := true |}.

Definition tagged_opts : Options :=
  {| app_label := "library"; model_name := "book"; verbose_name := "book";
     pk_name := "id"; pk_attname := "id";
     pk_get_prep_value := fun s => inr s;
     opts_ordering := ["title"];
     related_fkey_lookups := [];
     get_field_by_name := get_field_by_name book_opts;
     get_field := fun n =>
       if bool_decide (n = "tags") then Some tags_field
       else get_field book_opts n |}.

Definition tagged_admin : ModelAdmin :=
  with_search_on tagged_opts ["tags__name"] (admin false true []).

(** A list filter on a relation path, with no spec of its own. *)
Definition by_author_name : ListFilter :=
  {| lf_kind := FieldPath; lf_field_path := "author__name";
     lf_create := fun _ => None; lf_needs_distinct := false |}.

End Fixture.

(** * Properties *)

(** ** Lookups *)

Lemma removelast_length_one {A} (l : list A) : length l = 1%nat -> removelast l = [].
Proof. destruct l as [|a [|b l]]; simpl; intros H; try discriminate; reflexivity. Qed.

Lemma prepare_remaining_error dj o items lp ud e :
  IndexView.prepare_remaining dj o items lp ud = inl e ->
  e = IncorrectLookupParameters.
Proof.
  revert lp ud. induction items as [|[k v] items IH]; intros lp ud; simpl.
  - discriminate.
  - destruct ud; [apply IH|].
    destruct (lookup_needs_distinct o k) as [err|d]; [congruence|apply IH].
Qed.

(** C10: a lookup that is a single part once a trailing query term is
    dropped is allowed whatever the value and the configured list_filter; so
    a request all of whose filter parameters are such lookups is never
    rejected with DisallowedModelAdminLookup. *)
Theorem lookup_allowed_direct (self : IndexView.t) :
  (forall lookup value,
     is_direct_lookup lookup = true ->
     IndexView.lookup_allowed self lookup value = true)
  /\ (forall dj msg,
        (forall k v, IndexView.get_filters_params self !! k = Some v ->
                     is_direct_lookup k = true) ->
        IndexView.get_filters dj self <> inl (DisallowedModelAdminLookup msg)).
Proof.
  assert (Hallowed : forall lookup value,
            is_direct_lookup lookup = true ->
            IndexView.lookup_allowed self lookup value = true).
  { intros lookup value Hdirect. unfold IndexView.lookup_allowed.
    destruct (existsb _ _); [reflexivity|].
    unfold is_direct_lookup in Hdirect. apply Nat.eqb_eq in Hdirect.
    rewrite (removelast_length_one _ Hdirect). simpl.
    rewrite Hdirect. reflexivity. }
  split; [exact Hallowed|].
  intros dj msg Hall. unfold IndexView.get_filters.
  destruct (List.find _ _) as [[k v]|] eqn:Hfind.
  - apply find_some in Hfind as [Hin Hrej]. simpl in Hrej.
    apply list_elem_of_In, elem_of_map_to_list in Hin.
    rewrite (Hallowed k v (Hall k v Hin)) in Hrej. discriminate.
  - destruct (IndexView.build_specs _ _ _) as [[specs lp] ud].
    destruct (IndexView.prepare_remaining _ _ _ _ _) as [e|[lp' ud']] eqn:Hprep;
      simpl; [|discriminate].
    apply prepare_remaining_error in Hprep. subst e. discriminate.
Qed.

Lemma lookup_allowed_direct_witness :
  let self := IndexView.init (Fixture.admin false true [])
                (Fixture.request GET Fixture.alice [("title__icontains", "du")] []) in
  is_direct_lookup "title__icontains" = true
  /\ IndexView.lookup_allowed self "title__icontains" "du" = true
  /\ exists specs has_filters remaining distinct,
       IndexView.get_filters Fixture.django self
       = inr (specs, has_filters, remaining, distinct).
Proof.
  intros self. split; [reflexivity|]. split.
  - exact (proj1 (lookup_allowed_direct self) "title__icontains" "du" eq_refl).
  - destruct (IndexView.get_filters Fixture.django self)
      as [e|[[[specs hf] remaining] distinct]] eqn:E.
    + vm_compute in E. discriminate.
    + repeat eexists.
Defined.

(** ** Ordering *)

Lemma py_getitem_elem {A} (l : list A) (i : Z) (x : A) :
  py_getitem l i = Some x -> x ∈ l.
Proof.
  unfold py_getitem. intros H.
  destruct (i <? 0)%Z; [destruct (_ <? 0)%Z; [discriminate|]|];
    eapply list_elem_of_lookup_2; exact H.
Qed.

Lemma get_ordering_field_error (self : IndexView.t) (column : Column) (e : exn) :
  IndexView.get_ordering_field self column = inl e ->
  exists name, column = ColName name /\ e = AttributeError name
               /\ unresolved (IndexView.model_admin self) name.
Proof.
  unfold IndexView.get_ordering_field, unresolved.
  destruct column as [name|aof]; [|discriminate].
  destruct (get_field _ name) eqn:Hf; [discriminate|].
  destruct (admin_attr _ name) eqn:Ha; [discriminate|].
  destruct (model_attr _ name) eqn:Hm; [discriminate|].
  intros [= <-]. exists name. auto.
Qed.

Lemma order_step_error (self : IndexView.t) (acc : list string) (p : string) (e : exn) :
  IndexView.order_step self acc p = inl e ->
  exists name, e = AttributeError name
               /\ ColName name ∈ list_display (IndexView.model_admin self)
               /\ unresolved (IndexView.model_admin self) name.
Proof.
  unfold IndexView.order_step.
  destruct (PyStr.rpartition_dash p) as [[h pfx] idx].
  destruct (PyStr.int idx) as [i|]; [|discriminate].
  destruct (py_getitem _ i) as [column|] eqn:Hget; [|discriminate].
  apply py_getitem_elem in Hget.
  destruct (IndexView.get_ordering_field self column) as [err|field] eqn:Hfield.
  - simpl. intros [= <-].
    apply get_ordering_field_error in Hfield as (name & -> & -> & Hun). eauto.
  - simpl. destruct field as [[|c f]|]; try discriminate.
    destruct (_ && _); discriminate.
Qed.

Lemma order_loop_error (self : IndexView.t) (ps : list string) (acc : list string) (e : exn) :
  IndexView.order_loop self acc ps = inl e ->
  exists name, e = AttributeError name
               /\ ColName name ∈ list_display (IndexView.model_admin self)
               /\ unresolved (IndexView.model_admin self) name.
Proof.
  revert acc. induction ps as [|p ps IH]; intros acc; simpl; [discriminate|].
  destruct (IndexView.order_step self acc p) as [err|acc'] eqn:Hstep; simpl.
  - intros [= <-]. eapply order_step_error; eauto.
  - apply IH.
Qed.

Lemma names_pk_spec (pk_name : string) (ordering : list string) :
  IndexView.names_pk pk_name ordering = true
  <-> exists f, f ∈ ordering /\ is_pk_field pk_name f.
Proof.
  unfold IndexView.names_pk, is_pk_field. rewrite existsb_exists. split.
  - intros (f & Hin & Hf). exists f. split; [by apply list_elem_of_In|].
    apply bool_decide_eq_true in Hf.
    rewrite !elem_of_cons, elem_of_nil in Hf. tauto.
  - intros (f & Hin & Hf). exists f. split; [by apply list_elem_of_In|].
    apply bool_decide_eq_true.
    rewrite !elem_of_cons, elem_of_nil. tauto.
Qed.

(** C9: whenever [get_ordering] returns, the ordering names the primary key
    ('pk', '-pk', the primary-key field name or its dashed form); it is the
    combined ordering (query-string or default ordering, then the queryset's
    own) when that already names it, and the combined ordering followed by
    '-pk' when it does not.  It fails to return only on an AttributeError
    for a [list_display] name that resolves to nothing, raised while reading
    the query-string ordering. *)
Theorem get_ordering_names_pk (self : IndexView.t) (queryset : QuerySet) :
  let pkn := pk_name (opts (IndexView.model_admin self)) in
  match chosen_ordering self with
  | inr chosen =>
      let combined := chosen ++ query_order_by queryset in
      exists ordering,
        IndexView.get_ordering self queryset = inr ordering
        /\ (exists f, f ∈ ordering /\ is_pk_field pkn f)
        /\ ((exists f, f ∈ combined /\ is_pk_field pkn f) -> ordering = combined)
        /\ (~ (exists f, f ∈ combined /\ is_pk_field pkn f) ->
            ordering = combined ++ ["-pk"])
  | inl e =>
      IndexView.get_ordering self queryset = inl e
      /\ is_Some (IndexView.params self !! ORDER_VAR)
      /\ exists name, e = AttributeError name
           /\ ColName name ∈ list_display (IndexView.model_admin self)
           /\ unresolved (IndexView.model_admin self) name
  end.
Proof.
  intros pkn. unfold chosen_ordering, IndexView.get_ordering.
  destruct (IndexView.params self !! ORDER_VAR) as [o|] eqn:Ho.
  - destruct (IndexView.order_loop self [] (PyStr.split_char "." o))
      as [e|chosen] eqn:Hloop; simpl.
    + split; [reflexivity|]. split; [eauto|].
      eapply order_loop_error; eauto.
    + fold pkn.
      destruct (IndexView.names_pk pkn (chosen ++ query_order_by queryset)) eqn:Hpk.
      * eexists. split; [reflexivity|].
        apply names_pk_spec in Hpk. split; [exact Hpk|].
        split; [reflexivity|]. intros Hno. contradiction.
      * eexists. split; [reflexivity|].
        assert (Hno : ~ (exists f, f ∈ chosen ++ query_order_by queryset
                                   /\ is_pk_field pkn f)).
        { intros H. apply names_pk_spec in H. congruence. }
        split; [|split; [intros H; contradiction|reflexivity]].
        exists "-pk". split; [|unfold is_pk_field; tauto].
        apply elem_of_app. right. by apply list_elem_of_singleton.
  - simpl. fold pkn.
    destruct (IndexView.names_pk pkn
                (IndexView.get_default_ordering self ++ query_order_by queryset)) eqn:Hpk.
    + eexists. split; [reflexivity|].
      apply names_pk_spec in Hpk. split; [exact Hpk|].
      split; [reflexivity|]. intros Hno. contradiction.
    + eexists. split; [reflexivity|].
      assert (Hno : ~ (exists f, f ∈ IndexView.get_default_ordering self
                                       ++ query_order_by queryset
                                 /\ is_pk_field pkn f)).
      { intros H. apply names_pk_spec in H. congruence. }
      split; [|split; [intros H; contradiction|reflexivity]].
      exists "-pk". split; [|unfold is_pk_field; tauto].
        apply elem_of_app. right. by apply list_elem_of_singleton.
Qed.

(** ** Search *)




(** [filter()] on a disjunction raises the error of one of its lookups, and
    none when every lookup can be built. *)
Lemma q_error_fold_or_Some (dj : Django) (rest : list Q) (q : Q) (e : exn) :
  q_error dj (fold_left QOr rest q) = Some e ->
  q_error dj q = Some e \/ exists q', q' ∈ rest /\ q_error dj q' = Some e.
Proof.
  revert q. induction rest as [|q' rest IH]; intros q; simpl; [by left|].
  intros H. apply IH in H as [H|(q'' & Hin & H)].
  - simpl in H. destruct (q_error dj q) as [e'|]; [by left|].
    right. exists q'. split; [left|assumption].
  - right. exists q''. split; [by right|assumption].
Qed.


Lemma filter_bit_error (dj : Django) (lookups : list string) (qs : QuerySet)
    (bit : string) (e : exn) :
  IndexView.filter_bit dj lookups qs bit = inl e ->
  exists l, l ∈ lookups /\ lookup_error dj l bit = Some e.
Proof.
  unfold IndexView.filter_bit. destruct lookups as [|l lookups]; [discriminate|].
  simpl. destruct (q_error dj _) as [e'|] eqn:Hq; [|discriminate].
  intros [= <-]. apply q_error_fold_or_Some in Hq as [Hq|(q' & Hin & Hq)].
  - exists l. split; [left|exact Hq].
  - apply list_elem_of_fmap in Hin as (l' & -> & Hin).
    exists l'. split; [by right|exact Hq].
Qed.


Lemma filter_bit_ok (dj : Django) (lookups : list string) (qs qs' : QuerySet)
    (bit : string) :
  IndexView.filter_bit dj lookups qs bit = inr qs' ->
  qs' = filtered_by lookups [bit] qs.
Proof.
  unfold IndexView.filter_bit, filtered_by. simpl.
  destruct (IndexView.reduce_or _) as [q|]; [|by intros [= <-]].
  destruct (q_error dj q); [discriminate|by intros [= <-]].
Qed.

Lemma filter_bits_error (dj : Django) (lookups bits : list string) (qs : QuerySet)
    (e : exn) :
  IndexView.filter_bits dj lookups qs bits = inl e ->
  exists l bit, l ∈ lookups /\ bit ∈ bits /\ lookup_error dj l bit = Some e.
Proof.
  revert qs. induction bits as [|bit bits IH]; intros qs; simpl; [discriminate|].
  destruct (IndexView.filter_bit dj lookups qs bit) as [e'|qs'] eqn:Hbit; simpl.
  - intros [= <-]. apply filter_bit_error in Hbit as (l & Hin & Hl).
    exists l, bit. split; [assumption|]. split; [left|assumption].
  - intros H. apply IH in H as (l & bit' & Hin & Hbit' & Hl).
    exists l, bit'. split; [assumption|]. split; [by right|assumption].
Qed.

Lemma filter_bits_ok (dj : Django) (lookups bits : list string) (qs qs' : QuerySet) :
  IndexView.filter_bits dj lookups qs bits = inr qs' ->
  qs' = filtered_by lookups bits qs.
Proof.
  revert qs. induction bits as [|bit bits IH]; intros qs; simpl; [by intros [= <-]|].
  destruct (IndexView.filter_bit dj lookups qs bit) as [e'|qs1] eqn:Hbit; simpl;
    [discriminate|].
  intros H. apply IH in H as ->. by apply filter_bit_ok in Hbit as ->.
Qed.


(** The rows of the filtered queryset. *)
Lemma flat_map_replicate {A} (n : nat) (b : A -> nat) (x : A) :
  flat_map (fun i => replicate (b i) i) (replicate n x) = replicate (n * b x) x.
Proof.
  induction n as [|n IH]; simpl; [reflexivity|]. by rewrite IH, replicate_add.
Qed.

Lemma flat_map_copies {A} (a b : A -> nat) (l : list A) :
  flat_map (fun i => replicate (b i) i) (flat_map (fun i => replicate (a i) i) l)
  = flat_map (fun i => replicate (a i * b i) i) l.
Proof.
  induction l as [|x l IH]; simpl; [reflexivity|].
  by rewrite flat_map_app, IH, flat_map_replicate.
Qed.

Lemma flat_map_once {A} (l : list A) : flat_map (fun i => replicate 1 i) l = l.
Proof.
  induction l as [|x l IH]; [reflexivity|].
  cbn [flat_map]. rewrite IH. reflexivity.
Qed.

Lemma flat_map_pointwise {A B} (f g : A -> list B) (l : list A) :
  (forall x, f x = g x) -> flat_map f l = flat_map g l.
Proof.
  intros Hfg. induction l as [|x l IH]; simpl; [reflexivity|]. by rewrite Hfg, IH.
Qed.

Lemma rows_filtered_by (dj : Django) (tbl : list Instance) (lookups bits : list string)
    (qs : QuerySet) :
  rows dj tbl (filtered_by lookups bits qs)
  = flat_map (fun i => replicate (term_copies dj lookups bits i) i) (rows dj tbl qs).
Proof.
  revert qs. induction bits as [|bit bits IH]; intros qs.
  - symmetry. apply flat_map_once.
  - change (filtered_by lookups (bit :: bits) qs)
      with (filtered_by lookups bits (filtered_by lookups [bit] qs)).
    rewrite IH.
    assert (Hbit : rows dj tbl (filtered_by lookups [bit] qs)
                   = flat_map (fun i => replicate (bit_copies dj lookups bit i) i)
                              (rows dj tbl qs)).
    { unfold filtered_by, bit_copies. simpl.
      destruct (IndexView.reduce_or _) as [q|]; simpl.
      - apply flat_map_pointwise. intros i. by destruct (q_holds dj q i).
      - symmetry. apply flat_map_once. }
    rewrite Hbit, flat_map_copies. reflexivity.
Qed.



Lemma term_copies_Permutation (dj : Django) (lookups : list string)
    (bits1 bits2 : list string) (i : Instance) :
  bits1 ≡ₚ bits2 -> term_copies dj lookups bits1 i = term_copies dj lookups bits2 i.
Proof.
  unfold term_copies.
  induction 1 as [|x l1 l2 _ IH|x y l|l1 l2 l3 _ IH1 _ IH2]; simpl.
  - reflexivity.
  - by rewrite IH.
  - lia.
  - by rewrite IH1.
Qed.



Lemma any_needs_distinct_error (o : Options) (specs : list string) (e : exn) :
  IndexView.any_needs_distinct o specs = inl e ->
  e = FieldDoesNotExist
  /\ exists spec, spec ∈ specs /\ lookup_needs_distinct o spec = inl FieldDoesNotExist.
Proof.
  induction specs as [|spec specs IH]; simpl; [discriminate|].
  destruct (lookup_needs_distinct o spec) as [err|[|]] eqn:Hspec.
  - unfold lookup_needs_distinct in Hspec.
    destruct (get_field o _) eqn:Hf; [discriminate|]. injection Hspec as <-.
    intros [= <-]. split; [reflexivity|]. exists spec. split; [left|].
    unfold lookup_needs_distinct. by rewrite Hf.
  - discriminate.
  - intros H. destruct (IH H) as (-> & spec' & Hin & Hspec').
    split; [reflexivity|]. exists spec'. split; [by right|assumption].
Qed.


(** What a search that returns has done to the queryset. *)
Lemma get_search_results_ok (dj : Django) (self : IndexView.t) (qs qs' : QuerySet)
    (term : string) (flag : bool) :
  IndexView.get_search_results dj self qs term = inr (qs', flag) ->
  qs' = filtered_by (map IndexView.construct_search
                         (search_fields (IndexView.model_admin self)))
          (if bool_decide (search_fields (IndexView.model_admin self) = [])
           then [] else PyStr.split_ws term)
          qs.
Proof.
  unfold IndexView.get_search_results.
  destruct (bool_decide (search_fields (IndexView.model_admin self) = [])) eqn:Hf.
  - cbn [negb andb]. by intros [= <- _].
  - cbn [negb andb].
    destruct (bool_decide (term = "")) eqn:Ht; cbn [negb].
    + apply bool_decide_eq_true in Ht. subst term. by intros [= <- _].
    + destruct (IndexView.filter_bits dj _ qs _) as [e|qs1] eqn:Hbits; simpl;
        [discriminate|].
      destruct (IndexView.any_needs_distinct _ _) as [e|d]; simpl; [discriminate|].
      intros [= <- _]. by apply filter_bits_ok in Hbits.
Qed.



(** ** Running a view *)

Ltac run :=
  unfold WMABaseView.dispatch, WMABaseView.prime_session_for_redirection,
    login_required, permission_denied_response,
    checked, add_message, set_session, del_session, get_table, lift, raise,
    mbind, mret, M_bind, M_ret, bind, ret in *; simpl in *.

(** ** Pagination *)

Lemma num_pages_spec (result : list Instance) (pp n : Z) :
  (0 < pp)%Z ->
  Paginator.num_pages {| Paginator.object_list := result; Paginator.per_page := pp |}
  = inr (- (- Z.max 1 (Z.of_nat (length result)) / pp))%Z
  /\ ((n <= - (- Z.max 1 (Z.of_nat (length result)) / pp))
      <-> (n - 1) * pp < Z.max 1 (Z.of_nat (length result)))%Z.
Proof.
  intros Hpp. unfold Paginator.num_pages, Paginator.count. simpl.
  destruct (pp =? 0)%Z eqn:H0; [lia|]. split; [reflexivity|].
  set (hits := Z.max 1 (Z.of_nat (length result))).
  pose proof (Z.mul_div_le (- hits) pp Hpp) as Hlo.
  pose proof (Z.mul_succ_div_gt (- hits) pp Hpp) as Hhi.
  set (q := (- hits / pp)%Z) in *.
  split; intros H.
  - assert (pp * (n + q) <= 0)%Z by (apply Z.mul_nonneg_nonpos; lia). lia.
  - destruct (Z_le_gt_dec n (- q)) as [Hle|Hgt]; [exact Hle|].
    assert (0 <= pp * (n - 1 + q))%Z by (apply Z.mul_nonneg_nonneg; lia). lia.
Qed.

Lemma slice_page (result : list Instance) (pp n : Z) :
  (0 < pp)%Z -> page_in_range result pp n ->
  let count := Z.of_nat (length result) in
  let bottom := ((n - 1) * pp)%Z in
  let top := (bottom + pp)%Z in
  Paginator.slice result bottom (if (count <=? top)%Z then count else top)
  = page_of result pp n.
Proof.
  intros Hpp [Hn Hlt] count bottom top. unfold Paginator.slice, page_of.
  fold bottom.
  assert (Hb : (0 <= bottom)%Z) by (apply Z.mul_nonneg_nonneg; lia).
  clear Hlt. clearbody bottom.
  destruct (count <=? top)%Z eqn:Hle.
  - apply Z.leb_le in Hle. subst top count.
    rewrite !take_ge; [reflexivity| |]; rewrite length_drop; lia.
  - apply Z.leb_gt in Hle. f_equal. subst top. lia.
Qed.

Lemma page_in_range_found (result : list Instance) (pp n : Z) :
  (0 < pp)%Z -> page_in_range result pp n ->
  Paginator.page {| Paginator.object_list := result; Paginator.per_page := pp |} n
  = inr (Some (n, page_of result pp n)).
Proof.
  intros Hpp Hin. unfold Paginator.page, Paginator.validate_number.
  destruct (num_pages_spec result pp n Hpp) as [-> Hiff].
  pose proof Hin as [Hn Hlt].
  destruct (n <? 1)%Z eqn:H1; [lia|].
  destruct (_ <? n)%Z eqn:H2.
  - apply Z.ltb_lt in H2. apply Hiff in Hlt. lia.
  - simpl. do 3 f_equal. by apply slice_page.
Qed.

Lemma page_out_of_range (result : list Instance) (pp n : Z) :
  (0 < pp)%Z -> ~ page_in_range result pp n ->
  Paginator.page {| Paginator.object_list := result; Paginator.per_page := pp |} n
  = inr None.
Proof.
  intros Hpp Hout. unfold Paginator.page, Paginator.validate_number.
  destruct (num_pages_spec result pp n Hpp) as [-> Hiff].
  destruct (n <? 1)%Z eqn:H1; [reflexivity|].
  destruct (_ <? n)%Z eqn:H2.
  - destruct (n =? 1)%Z eqn:H3; [|reflexivity].
    apply Z.eqb_eq in H3. exfalso. apply Hout. unfold page_in_range. lia.
  - exfalso. apply Hout. split; [lia|]. apply Hiff. lia.
Qed.

Lemma page_in_range_dec (result : list Instance) (pp n : Z) :
  {page_in_range result pp n} + {~ page_in_range result pp n}.
Proof.
  unfold page_in_range.
  destruct (Z_le_dec 1 n); [|right; tauto].
  destruct (Z_lt_dec ((n - 1) * pp) (Z.max 1 (Z.of_nat (length result))));
    [left|right]; tauto.
Qed.

(** With a positive page size [page_obj] always yields a page. *)
Lemma page_obj_total (result : list Instance) (pp page_num : Z) :
  (0 < pp)%Z ->
  exists pg,
    IndexView.page_obj
      {| Paginator.object_list := result; Paginator.per_page := pp |} page_num
    = inr pg.
Proof.
  intros Hpp. unfold IndexView.page_obj.
  destruct (page_in_range_dec result pp (page_num + 1)) as [Hin|Hout].
  - rewrite page_in_range_found by assumption. eauto.
  - rewrite page_out_of_range by assumption.
    rewrite page_in_range_found; [eauto|assumption|].
    unfold page_in_range. lia.
Qed.



(** ** What the queryset of the index view depends on *)

Lemma lookup_allowed_same_admin (s1 s2 : IndexView.t) :
  IndexView.model_admin s1 = IndexView.model_admin s2 ->
  IndexView.lookup_allowed s1 = IndexView.lookup_allowed s2.
Proof. intros H. unfold IndexView.lookup_allowed. by rewrite H. Qed.

Lemma order_step_same_admin (s1 s2 : IndexView.t) :
  IndexView.model_admin s1 = IndexView.model_admin s2 ->
  IndexView.order_step s1 = IndexView.order_step s2.
Proof.
  intros H. unfold IndexView.order_step, IndexView.get_ordering_field.
  by rewrite H.
Qed.

Lemma order_loop_same_admin (s1 s2 : IndexView.t) (ps acc : list string) :
  IndexView.model_admin s1 = IndexView.model_admin s2 ->
  IndexView.order_loop s1 acc ps = IndexView.order_loop s2 acc ps.
Proof.
  intros H. revert acc. induction ps as [|p ps IH]; intros acc; simpl; [reflexivity|].
  rewrite (order_step_same_admin s1 s2 H).
  destruct (IndexView.order_step s2 acc p); simpl; [reflexivity|apply IH].
Qed.

Lemma get_ordering_same (s1 s2 : IndexView.t) (qs : QuerySet) :
  IndexView.model_admin s1 = IndexView.model_admin s2 ->
  IndexView.params s1 !! ORDER_VAR = IndexView.params s2 !! ORDER_VAR ->
  IndexView.get_ordering s1 qs = IndexView.get_ordering s2 qs.
Proof.
  intros Hma Ho. unfold IndexView.get_ordering, IndexView.get_default_ordering.
  rewrite Ho, Hma.
  destruct (IndexView.params s2 !! ORDER_VAR); [|reflexivity].
  by rewrite (order_loop_same_admin s1 s2 _ _ Hma).
Qed.

Lemma find_column_same_admin (s1 s2 : IndexView.t) (field : string)
    (columns : list Column) (index : Z) :
  IndexView.model_admin s1 = IndexView.model_admin s2 ->
  IndexView.find_column s1 field columns index
  = IndexView.find_column s2 field columns index.
Proof.
  intros H. revert index.
  induction columns as [|attr rest IH]; intros index; simpl; [reflexivity|].
  unfold IndexView.get_ordering_field. rewrite H.
  match goal with |- mbind _ ?m = _ => destruct m as [e|f] end; simpl;
    [reflexivity|].
  destruct (bool_decide _); [reflexivity|apply IH].
Qed.

Lemma guess_columns_same_admin (s1 s2 : IndexView.t) (fields : list string)
    (acc : list (Z * string)) :
  IndexView.model_admin s1 = IndexView.model_admin s2 ->
  IndexView.guess_columns s1 fields acc = IndexView.guess_columns s2 fields acc.
Proof.
  intros H. revert acc.
  induction fields as [|field rest IH]; intros acc; simpl; [reflexivity|].
  destruct (PyStr.startswith "-" field);
    rewrite (find_column_same_admin s1 s2 _ _ _ H), H;
    (match goal with |- mbind _ ?m = _ => destruct m as [e|found] end); simpl;
    try reflexivity; apply IH.
Qed.

Lemma get_ordering_field_columns_same (s1 s2 : IndexView.t) :
  IndexView.model_admin s1 = IndexView.model_admin s2 ->
  IndexView.params s1 !! ORDER_VAR = IndexView.params s2 !! ORDER_VAR ->
  IndexView.get_ordering_field_columns s1 = IndexView.get_ordering_field_columns s2.
Proof.
  intros Hma Ho. unfold IndexView.get_ordering_field_columns. rewrite Ho.
  destruct (IndexView.params s2 !! ORDER_VAR); [reflexivity|].
  unfold IndexView._get_default_ordering. rewrite Hma.
  by apply guess_columns_same_admin.
Qed.

Lemma get_filters_same (dj : Django) (s1 s2 : IndexView.t) :
  IndexView.model_admin s1 = IndexView.model_admin s2 ->
  IndexView.get_filters_params s1 = IndexView.get_filters_params s2 ->
  IndexView.get_filters dj s1 = IndexView.get_filters dj s2.
Proof.
  intros Hma Hp. unfold IndexView.get_filters.
  by rewrite Hp, Hma, (lookup_allowed_same_admin s1 s2 Hma).
Qed.

(** The queryset is a function of the model admin, the search term, the
    filter parameters and the value of [o]; nothing else of the request
    reaches it. *)
Lemma get_queryset_same (dj : Django) (s1 s2 : IndexView.t) :
  IndexView.model_admin s1 = IndexView.model_admin s2 ->
  IndexView.query s1 = IndexView.query s2 ->
  IndexView.get_filters_params s1 = IndexView.get_filters_params s2 ->
  IndexView.params s1 !! ORDER_VAR = IndexView.params s2 !! ORDER_VAR ->
  IndexView.get_queryset dj s1 = IndexView.get_queryset dj s2.
Proof.
  intros Hma Hq Hp Ho. unfold IndexView.get_queryset.
  rewrite (get_filters_same dj s1 s2 Hma Hp).
  destruct (IndexView.get_filters dj s2) as [e|[[[specs hf] remaining] fd]];
    [reflexivity|]. simpl.
  unfold IndexView.get_base_queryset, IndexView.apply_select_related,
    IndexView.has_related_field_in_list_display, IndexView.get_search_results.
  rewrite Hma, Hq.
  destruct (filter_error dj remaining) as [err|]; simpl.
  - destruct err; reflexivity.
  - match goal with
    | |- context [IndexView.get_ordering s1 ?q] =>
        rewrite (get_ordering_same s1 s2 q Hma Ho)
    end.
    reflexivity.
Qed.

Lemma filters_params_without (key : string) (r1 r2 : Request) (ma : ModelAdmin) :
  key ∈ IGNORED_PARAMS ->
  differ_only_in key r1 r2 ->
  IndexView.get_filters_params (IndexView.init ma r1)
  = IndexView.get_filters_params (IndexView.init ma r2).
Proof.
  intros Hkey (_ & _ & _ & _ & Hget).
  unfold IndexView.get_filters_params, IndexView.init, IndexView.retained_params.
  simpl. apply map_eq. intros k.
  rewrite !lookup_delete.
  repeat case_decide; try reflexivity.
  apply Hget. intros ->.
  unfold IGNORED_PARAMS in Hkey. rewrite !elem_of_cons, elem_of_nil in Hkey.
  unfold ORDER_VAR, ORDER_TYPE_VAR, SEARCH_VAR in *. intuition congruence.
Qed.

Lemma get_queryset_ignores_ot (dj : Django) (ma : ModelAdmin) (r1 r2 : Request) :
  differ_only_in ORDER_TYPE_VAR r1 r2 ->
  IndexView.get_queryset dj (IndexView.init ma r1)
  = IndexView.get_queryset dj (IndexView.init ma r2).
Proof.
  intros Hd. apply get_queryset_same.
  - reflexivity.
  - destruct Hd as (_ & _ & _ & _ & Hget). simpl. by rewrite Hget.
  - apply (filters_params_without ORDER_TYPE_VAR); [|assumption].
    unfold IGNORED_PARAMS. rewrite !elem_of_cons. tauto.
  - destruct Hd as (_ & _ & _ & _ & Hget). simpl.
    unfold IndexView.retained_params.
    rewrite !lookup_delete_ne by discriminate. by apply Hget.
Qed.

(** ** Ordering direction *)

(** C4, as the code has it: [ot] plays no part in the ordering.  Two requests
    that differ at most in [ot] get the same queryset, hence the same
    ordering, and the same asc/desc marks on the columns; [ot] is not among
    the filter parameters either.  The direction of a column comes from a
    dash before its index in [o]. *)
Theorem order_type_ignored :
  (forall dj ma r1 r2,
     differ_only_in ORDER_TYPE_VAR r1 r2 ->
     IndexView.get_queryset dj (IndexView.init ma r1)
     = IndexView.get_queryset dj (IndexView.init ma r2)
     /\ result_ordering dj ma r1 = result_ordering dj ma r2
     /\ IndexView.get_ordering_field_columns (IndexView.init ma r1)
        = IndexView.get_ordering_field_columns (IndexView.init ma r2)
     /\ IndexView.get_filters_params (IndexView.init ma r1) !! ORDER_TYPE_VAR = None)
  /\ (let ma := Fixture.admin false true [] in
      let asc := Fixture.request GET Fixture.alice [("o", "0")] [] in
      let desc := Fixture.request GET Fixture.alice [("o", "-0")] [] in
      differ_only_in ORDER_VAR asc desc
      /\ result_ordering Fixture.django ma asc = inr ["title"; "-pk"]
      /\ result_ordering Fixture.django ma desc = inr ["-title"; "-pk"]
      /\ IndexView.get_ordering_field_columns (IndexView.init ma asc)
         = inr [(0%Z, "asc")]
      /\ IndexView.get_ordering_field_columns (IndexView.init ma desc)
         = inr [(0%Z, "desc")]).
Proof.
  split.
  - intros dj ma r1 r2 Hd. split; [|split; [|split]].
    + by apply get_queryset_ignores_ot.
    + unfold result_ordering. by rewrite (get_queryset_ignores_ot dj ma r1 r2 Hd).
    + apply get_ordering_field_columns_same; [reflexivity|].
      destruct Hd as (_ & _ & _ & _ & Hget). simpl.
      unfold IndexView.retained_params.
      rewrite !lookup_delete_ne by discriminate. by apply Hget.
    + unfold IndexView.get_filters_params. simpl.
      rewrite lookup_delete_ne by discriminate. apply lookup_delete_eq.
  - split; [|repeat split; vm_compute; reflexivity].
    unfold differ_only_in. repeat split.
    intros k Hk. simpl.
    rewrite !lookup_insert_ne by (intros <-; by apply Hk). reflexivity.
Qed.

Lemma order_type_ignored_witness :
  let ma := Fixture.admin false true [] in
  let r1 := Fixture.request GET Fixture.alice [("o", "0"); ("ot", "asc")] [] in
  let r2 := Fixture.request GET Fixture.alice [("o", "0"); ("ot", "desc")] [] in
  differ_only_in ORDER_TYPE_VAR r1 r2
  /\ result_ordering Fixture.django ma r1 = result_ordering Fixture.django ma r2.
Proof.
  intros ma r1 r2.
  assert (Hd : differ_only_in ORDER_TYPE_VAR r1 r2).
  { unfold differ_only_in. repeat split.
    intros k Hk. simpl. unfold ORDER_TYPE_VAR in Hk.
    destruct (decide (k = "o")) as [->|Ho]; [reflexivity|].
    rewrite !lookup_insert_ne by congruence. reflexivity. }
  split; [exact Hd|].
  destruct order_type_ignored as [H _].
  exact (proj1 (proj2 (H Fixture.django ma r1 r2 Hd))).
Defined.

(** C4 does not hold as stated: no two requests that differ only in [ot]
    are ordered differently. *)
Lemma order_type_no_effect :
  ~ (exists dj ma r1 r2,
       differ_only_in ORDER_TYPE_VAR r1 r2
       /\ result_ordering dj ma r1 <> result_ordering dj ma r2).
Proof.
  intros (dj & ma & r1 & r2 & Hd & Hne). apply Hne.
  unfold result_ordering. by rewrite (get_queryset_ignores_ot dj ma r1 r2 Hd).
Qed.

(** ** Page models *)

(** C1: for a page model, a permitted request to CreateView is redirected to
    the page-create view of the framework with the one valid parent page when
    there is exactly one, and to the choose-parent view otherwise; permitted
    requests (logged in, and passing the view's permission check) to
    EditView, ConfirmDeleteView, UnpublishRedirectView and CopyRedirectView
    are redirected to the framework's page edit, delete, unpublish and copy
    views for the object id. *)
Theorem page_model_redirects (dj : Django) (ma : ModelAdmin) (request : Request)
    (w : World) (Hpage : is_pagemodel ma = true) :
  let ph := permission_helper ma in
  let u := user request in
  let v := wagtail_version dj in
  (has_add_permission ph u = true ->
   (forall parent, get_valid_parent_pages ph u = [parent] ->
      (CreateView.dispatch dj ma request w).1
      = inr (Redirect (UrlName (PAGES_CREATE_URL_NAME v)
                         [app_label (opts ma); model_name (opts ma); pk parent])))
   /\ (length (get_valid_parent_pages ph u) <> 1%nat ->
       (CreateView.dispatch dj ma request w).1
       = inr (Redirect (Url (choose_parent_url ma)))))
  /\ (forall self : ObjectSpecificView.t,
        ObjectSpecificView.model_admin self = ma ->
        is_authenticated u = true ->
        let inst := ObjectSpecificView.instance self in
        let id := ObjectSpecificView.object_id self in
        (can_edit_object ph u inst = true ->
         (EditView.dispatch dj self request w).1
         = inr (Redirect (UrlName (PAGES_EDIT_URL_NAME v) [id])))
        /\ (can_delete_object ph u inst = true ->
            (ConfirmDeleteView.dispatch dj self request w).1
            = inr (Redirect (UrlName (PAGES_DELETE_URL_NAME v) [id])))
        /\ (can_unpublish_object ph u inst = true ->
            (UnpublishRedirectView.dispatch dj self request w).1
            = inr (Redirect (UrlName (PAGES_UNPUBLISH_URL_NAME v) [id])))
        /\ (can_copy_object ph u inst = true ->
            (CopyRedirectView.dispatch dj self request w).1
            = inr (Redirect (UrlName (PAGES_COPY_URL_NAME v) [id])))).
Proof.
  intros ph u v. split.
  - intros Hadd. unfold CreateView.dispatch. run.
    fold ph u. rewrite Hadd, Hpage. simpl. split.
    + intros parent ->. reflexivity.
    + intros Hlen. destruct (get_valid_parent_pages ph u) as [|p [|p' ps]];
        simpl in *; try reflexivity. congruence.
  - intros self Hma Hauth inst id.
    unfold EditView.dispatch, ConfirmDeleteView.dispatch,
      UnpublishRedirectView.dispatch, CopyRedirectView.dispatch,
      EditView.check_action_permitted, ConfirmDeleteView.check_action_permitted,
      UnpublishRedirectView.check_action_permitted,
      CopyRedirectView.check_action_permitted.
    run. fold u. rewrite Hauth, Hma. fold ph inst. rewrite Hpage.
    repeat split; intros ->; reflexivity.
Qed.

Lemma page_model_redirects_witness :
  let ma := Fixture.admin true true [Fixture.book "10" "Home" false] in
  let request := Fixture.request GET Fixture.alice [] [] in
  let self := Fixture.view ma "2" (Fixture.book "2" "Emma" true) in
  is_pagemodel ma = true
  /\ is_authenticated (user request) = true
  /\ can_edit_object (permission_helper ma) (user request)
       (ObjectSpecificView.instance self) = true
  /\ (EditView.dispatch Fixture.django self request (Fixture.world Fixture.shelf)).1
     = inr (Redirect (UrlName "wagtailadmin_pages:edit" ["2"]))
  /\ (CreateView.dispatch Fixture.django ma request (Fixture.world Fixture.shelf)).1
     = inr (Redirect (UrlName "wagtailadmin_pages:add" ["library"; "book"; "10"])).
Proof.
  intros ma request self.
  destruct (page_model_redirects Fixture.django ma request
              (Fixture.world Fixture.shelf) eq_refl) as [Hcreate Hobject].
  split; [reflexivity|]. split; [reflexivity|]. split; [reflexivity|]. split.
  - exact (proj1 (Hobject self eq_refl eq_refl) eq_refl).
  - exact (proj1 (Hcreate eq_refl) _ eq_refl).
Defined.

(** ** Missing objects *)

Lemma filter_none {A} (f : A -> bool) (l : list A) :
  (forall x, x ∈ l -> f x = false) -> List.filter f l = [].
Proof.
  induction l as [|x l IH]; intros H; simpl; [reflexivity|].
  rewrite (H x) by left. apply IH. intros y Hy. apply H. by right.
Qed.

(** Constructing an object view changes nothing, whatever comes of it. *)
Lemma init_world (ma : ModelAdmin) (object_id : string) (w : World) :
  (ObjectSpecificView.init ma object_id w).2 = w.
Proof.
  unfold ObjectSpecificView.init. run.
  destruct (pk_get_prep_value _ _) as [e|key]; simpl; [reflexivity|].
  by destruct (List.filter _ (table w)) as [|obj [|obj' l]].
Qed.

(** When the key field cannot convert the quoted id, its error is the
    outcome. *)
Lemma init_prep_error (ma : ModelAdmin) (object_id : string) (w : World) (e : exn) :
  pk_get_prep_value (opts ma) (quote object_id) = inl e ->
  ObjectSpecificView.init ma object_id w = (inl e, w).
Proof. intros H. unfold ObjectSpecificView.init. run. by rewrite H. Qed.

(** When no row has the converted quoted id as its key, the outcome is
    Http404. *)
Lemma init_not_found (ma : ModelAdmin) (object_id key : string) (w : World) :
  pk_get_prep_value (opts ma) (quote object_id) = inr key ->
  (forall i, i ∈ table w -> pk i <> key) ->
  ObjectSpecificView.init ma object_id w = (inl Http404, w).
Proof.
  intros Hkey Hnone. unfold ObjectSpecificView.init. run. rewrite Hkey. simpl.
  rewrite filter_none; [reflexivity|].
  intros i Hi. apply bool_decide_eq_false. by apply Hnone.
Qed.

(** What a constructed view holds. *)
Lemma init_found (ma : ModelAdmin) (object_id : string) (w w' : World)
    (self : ObjectSpecificView.t) :
  ObjectSpecificView.init ma object_id w = (inr self, w') ->
  w' = w
  /\ self = {| ObjectSpecificView.model_admin := ma;
               ObjectSpecificView.object_id := object_id;
               ObjectSpecificView.pk_safe := quote object_id;
               ObjectSpecificView.instance := ObjectSpecificView.instance self |}
  /\ ObjectSpecificView.instance self ∈ table w
  /\ pk_get_prep_value (opts ma) (quote object_id)
     = inr (pk (ObjectSpecificView.instance self)).
Proof.
  unfold ObjectSpecificView.init. run.
  destruct (pk_get_prep_value _ _) as [e|key] eqn:Hkey; simpl; [discriminate|].
  destruct (List.filter _ (table w)) as [|obj [|obj' l]] eqn:Hf; try discriminate.
  intros [= <- <-]. simpl.
  assert (Hobj : In obj (List.filter (fun i => bool_decide (pk i = key)) (table w)))
    by (rewrite Hf; by left).
  apply filter_In in Hobj as [Hin Hpk]. apply bool_decide_eq_true in Hpk.
  repeat split; [by apply list_elem_of_In|by rewrite Hpk].
Qed.

(** A request to an object view ends in the error of the constructor, or
    goes to [dispatch] with the view constructed and nothing changed. *)
Lemma as_object_view_error (dispatch : ObjectSpecificView.t -> Request -> M Response)
    (ma : ModelAdmin) (object_id : string) (request : Request) (w w' : World)
    (e : exn) :
  ObjectSpecificView.init ma object_id w = (inl e, w') ->
  as_object_view dispatch ma object_id request w = (inl e, w) /\ w' = w.
Proof.
  intros H. pose proof (init_world ma object_id w) as Hw. rewrite H in Hw.
  simpl in Hw. subst w'. split; [|reflexivity].
  unfold as_object_view, mbind, M_bind, bind. by rewrite H.
Qed.

Lemma as_object_view_found (dispatch : ObjectSpecificView.t -> Request -> M Response)
    (ma : ModelAdmin) (object_id : string) (request : Request) (w w' : World)
    (self : ObjectSpecificView.t) :
  ObjectSpecificView.init ma object_id w = (inr self, w') ->
  as_object_view dispatch ma object_id request w = dispatch self request w /\ w' = w.
Proof.
  intros H. pose proof (init_world ma object_id w) as Hw. rewrite H in Hw.
  simpl in Hw. subst w'. split; [|reflexivity].
  unfold as_object_view, mbind, M_bind, bind. by rewrite H.
Qed.

(** C8: the object views do not look the object up by the object id they are
    given but by its quoted form, which [__init__] computes for the URLs the
    view builds.  On a table keyed by text with a row a_5Fb and no row a_b,
    the request for a_b is served with the row a_5Fb where the claim has a
    404 response; and the row whose key is a_b cannot be reached by its own
    id.  On a table keyed by integers, the request for abc, which is no key
    of any row, ends in the ValueError of the key's conversion, not in the
    404 response. *)
Theorem object_lookup_by_quoted_id :
  let ma := Fixture.admin false true [] in
  let numbered := with_search_on Fixture.numbered_opts [] ma in
  let request := Fixture.request GET Fixture.alice [] [] in
  let odd := Fixture.book "a_5Fb" "Odd" false in
  let plain := Fixture.book "a_b" "Plain" false in
  let w1 := Fixture.world [Fixture.book "1" "Dune" false; odd] in
  let w2 := Fixture.world [Fixture.book "1" "Dune" false; plain] in
  let w3 := Fixture.world Fixture.shelf in
  ((forall i, i ∈ table w1 -> pk i <> "a_b")
   /\ (ObjectSpecificView.init ma "a_b" w1).1 = inr (Fixture.view ma "a_b" odd)
   /\ (as_object_view InspectView.dispatch ma "a_b" request w1).1
      = inr (Rendered "inspect.html" (InspectContext odd)))
  /\ (plain ∈ table w2
      /\ as_object_view InspectView.dispatch ma "a_b" request w2 = (inl Http404, w2))
  /\ ((forall i, i ∈ table w3 -> pk i <> "abc")
      /\ as_object_view InspectView.dispatch numbered "abc" request w3
         = (inl ValueError, w3)
      /\ as_object_view (EditView.dispatch Fixture.django) numbered "abc" request w3
         = (inl ValueError, w3)
      /\ as_object_view (ConfirmDeleteView.dispatch Fixture.django) numbered "abc"
           request w3
         = (inl ValueError, w3)
      /\ as_object_view (UnpublishRedirectView.dispatch Fixture.django) numbered "abc"
           request w3
         = (inl ValueError, w3)
      /\ as_object_view (CopyRedirectView.dispatch Fixture.django) numbered "abc"
           request w3
         = (inl ValueError, w3)).
Proof.
  intros ma numbered request odd plain w1 w2 w3.
  split; [|split]. 
  - split; [|split; reflexivity].
    intros i Hi. simpl in Hi. rewrite !elem_of_cons, elem_of_nil in Hi.
    destruct Hi as [->|[->|[]]]; discriminate.
  - split; [|reflexivity]. simpl. rewrite !elem_of_cons. tauto.
  - split.
    + intros i Hi. simpl in Hi. unfold Fixture.shelf in Hi.
      rewrite !elem_of_cons, elem_of_nil in Hi.
      destruct Hi as [->|[->|[->|[]]]]; discriminate.
    + assert (Hinit : ObjectSpecificView.init numbered "abc" w3 = (inl ValueError, w3))
        by (by apply init_prep_error).
      repeat split; by apply (as_object_view_error _ _ _ _ _ _ _ Hinit).
Qed.

(** ** Disallowed lookups *)

Lemma get_filters_disallowed (dj : Django) (self : IndexView.t) (key value : string) :
  IndexView.get_filters_params self !! key = Some value ->
  IndexView.lookup_allowed self key value = false ->
  exists k, IndexView.get_filters dj self
            = inl (DisallowedModelAdminLookup ("Filtering by " +:+ k +:+ " not allowed"))
            /\ is_Some (IndexView.get_filters_params self !! k).
Proof.
  intros Hkey Hno. unfold IndexView.get_filters.
  destruct (List.find _ _) as [[k v]|] eqn:Hfind.
  - exists k. split; [reflexivity|].
    apply find_some in Hfind as [Hin _].
    apply list_elem_of_In, elem_of_map_to_list in Hin. eauto.
  - exfalso.
    pose proof (find_none _ _ Hfind (key, value)) as Hnone. simpl in Hnone.
    rewrite Hno in Hnone. simpl in Hnone.
    assert (Hin : In (key, value) (map_to_list (IndexView.get_filters_params self))).
    { apply list_elem_of_In, elem_of_map_to_list. exact Hkey. }
    specialize (Hnone Hin). discriminate.
Qed.

Lemma get_queryset_disallowed (dj : Django) (self : IndexView.t) (key value : string) :
  IndexView.get_filters_params self !! key = Some value ->
  IndexView.lookup_allowed self key value = false ->
  exists msg, IndexView.get_queryset dj self = inl (DisallowedModelAdminLookup msg).
Proof.
  intros Hkey Hno.
  destruct (get_filters_disallowed dj self key value Hkey Hno) as (k & Hf & _).
  unfold IndexView.get_queryset. rewrite Hf. simpl. eauto.
Qed.

(** C2, as the code has it: when the request of a logged-in user carries a
    filter parameter that [lookup_allowed] rejects, [get_filters] raises
    DisallowedModelAdminLookup and [IndexView.dispatch] lets it out: the
    exception is the outcome of the view, no message has been issued, no
    permission check made, and the world is as it was. *)
Theorem disallowed_lookup_propagates (dj : Django) (ma : ModelAdmin)
    (request : Request) (w : World) (key value : string)
    (Hauth : is_authenticated (user request) = true)
    (Hkey : IndexView.get_filters_params (IndexView.init ma request) !! key
            = Some value)
    (Hno : IndexView.lookup_allowed (IndexView.init ma request) key value = false) :
  exists msg,
    IndexView.dispatch dj ma request w = (inl (DisallowedModelAdminLookup msg), w).
Proof.
  destruct (get_queryset_disallowed dj _ key value Hkey Hno) as (msg & Hq).
  exists msg. unfold IndexView.dispatch. run. by rewrite Hauth, Hq.
Qed.

Lemma disallowed_lookup_propagates_witness :
  let ma := Fixture.admin false true [] in
  let request := Fixture.request GET Fixture.alice [("author__name", "x")] [] in
  is_authenticated (user request) = true
  /\ IndexView.get_filters_params (IndexView.init ma request) !! "author__name"
     = Some "x"
  /\ IndexView.lookup_allowed (IndexView.init ma request) "author__name" "x" = false
  /\ exists msg,
       IndexView.dispatch Fixture.django ma request (Fixture.world Fixture.shelf)
       = (inl (DisallowedModelAdminLookup msg), Fixture.world Fixture.shelf).
Proof.
  intros ma request.
  split; [reflexivity|]. split; [reflexivity|]. split; [reflexivity|].
  exact (disallowed_lookup_propagates Fixture.django ma request
           (Fixture.world Fixture.shelf) "author__name" "x"
           eq_refl eq_refl eq_refl).
Defined.

(** C2 does not hold as stated: the request below filters on author__name,
    which is not allowed, and the view ends in the exception itself, with no
    message issued and no response made. *)
Lemma disallowed_lookup_not_caught :
  let ma := Fixture.admin false true [] in
  let request := Fixture.request GET Fixture.alice [("author__name", "x")] [] in
  let w := Fixture.world Fixture.shelf in
  IndexView.lookup_allowed (IndexView.init ma request) "author__name" "x" = false
  /\ IndexView.dispatch Fixture.django ma request w
     = (inl (DisallowedModelAdminLookup "Filtering by author__name not allowed"), w)
  /\ messages (IndexView.dispatch Fixture.django ma request w).2 = [].
Proof. intros ma request w. repeat split; vm_compute; reflexivity. Qed.

(** ** Denied requests *)

(** C6, as the code has it: once a request reaches the permission check of a
    view, a denial is answered with the error message and a redirect to the
    admin home page, and the table is left as it was.  The check is reached
    by every request to the create and choose-parent views; by the requests
    of logged-in users to the inspect, edit, delete, unpublish and copy views
    for which the view could be constructed (when the constructor raises, its
    error is the outcome and no check is made); and, on the index view, by
    the requests of logged-in users whose queryset could be built. *)
Theorem permission_denied (dj : Django) (ma : ModelAdmin) (request : Request)
    (w : World) :
  let ph := permission_helper ma in
  let u := user request in
  (is_authenticated u = true ->
   (exists qs, IndexView.get_queryset dj (IndexView.init ma request) = inr qs) ->
   allow_list_view ph u = false ->
   IndexView.dispatch dj ma request w = denied "allow_list_view" w)
  /\ (has_add_permission ph u = false ->
      CreateView.dispatch dj ma request w = denied "has_add_permission" w
      /\ ChooseParentView.dispatch dj ma request w = denied "has_add_permission" w)
  /\ (forall object_id self w',
        ObjectSpecificView.init ma object_id w = (inr self, w') ->
        is_authenticated u = true ->
        let inst := ObjectSpecificView.instance self in
        (has_list_permission ph u = false ->
         as_object_view InspectView.dispatch ma object_id request w
         = denied "has_list_permission" w)
        /\ (can_edit_object ph u inst = false ->
            as_object_view (EditView.dispatch dj) ma object_id request w
            = denied "can_edit_object" w)
        /\ (can_delete_object ph u inst = false ->
            as_object_view (ConfirmDeleteView.dispatch dj) ma object_id request w
            = denied "can_delete_object" w)
        /\ (can_unpublish_object ph u inst = false ->
            as_object_view (UnpublishRedirectView.dispatch dj) ma object_id request w
            = denied "can_unpublish_object" w)
        /\ (can_copy_object ph u inst = false ->
            as_object_view (CopyRedirectView.dispatch dj) ma object_id request w
            = denied "can_copy_object" w))
  /\ (forall object_id e w',
        ObjectSpecificView.init ma object_id w = (inl e, w') ->
        as_object_view InspectView.dispatch ma object_id request w = (inl e, w)
        /\ as_object_view (EditView.dispatch dj) ma object_id request w = (inl e, w)
        /\ as_object_view (ConfirmDeleteView.dispatch dj) ma object_id request w
           = (inl e, w)
        /\ as_object_view (UnpublishRedirectView.dispatch dj) ma object_id request w
           = (inl e, w)
        /\ as_object_view (CopyRedirectView.dispatch dj) ma object_id request w
           = (inl e, w))
  /\ (forall check,
        (denied check w).1 = inr (Redirect (UrlName "wagtailadmin_home" []))
        /\ table (denied check w).2 = table w
        /\ messages (denied check w).2 = messages w ++ [denied_message]).
Proof.
  intros ph u. split; [|split; [|split; [|split]]].
  - intros Hauth [qs Hqs] Hdeny. unfold IndexView.dispatch. run.
    fold u ph. by rewrite Hauth, Hqs, Hdeny.
  - intros Hdeny. unfold CreateView.dispatch, ChooseParentView.dispatch. run.
    fold u ph. by rewrite Hdeny.
  - intros object_id self w' Hinit Hauth inst.
    pose proof (init_found _ _ _ _ _ Hinit) as (_ & Hself & _).
    assert (Hma : ObjectSpecificView.model_admin self = ma) by (by rewrite Hself).
    assert (Hgo : forall dispatch,
              as_object_view dispatch ma object_id request w = dispatch self request w).
    { intros dispatch. by apply (as_object_view_found dispatch _ _ _ _ _ _ Hinit). }
    rewrite !Hgo.
    unfold InspectView.dispatch, EditView.dispatch, ConfirmDeleteView.dispatch,
      UnpublishRedirectView.dispatch, CopyRedirectView.dispatch,
      InspectView.check_action_permitted, EditView.check_action_permitted,
      ConfirmDeleteView.check_action_permitted,
      UnpublishRedirectView.check_action_permitted,
      CopyRedirectView.check_action_permitted.
    run. fold u. rewrite Hauth, Hma. fold ph inst.
    repeat split; intros ->; reflexivity.
  - intros object_id e w' Hinit.
    repeat split; by apply (as_object_view_error _ _ _ _ _ _ _ Hinit).
  - intros check. repeat split.
Qed.

Lemma permission_denied_witness :
  let ma := Fixture.admin false false [] in
  let request := Fixture.request GET Fixture.alice [("q", "du")] [] in
  let w := Fixture.world Fixture.shelf in
  is_authenticated (user request) = true
  /\ allow_list_view (permission_helper ma) (user request) = false
  /\ IndexView.dispatch Fixture.django ma request w = denied "allow_list_view" w
  /\ (ObjectSpecificView.init ma "2" w).1
     = inr (Fixture.view ma "2" (Fixture.book "2" "Emma" true))
  /\ as_object_view (EditView.dispatch Fixture.django) ma "2" request w
     = denied "can_edit_object" w.
Proof.
  intros ma request w. split; [reflexivity|]. split; [reflexivity|].
  pose proof (permission_denied Fixture.django ma request w) as (Hindex & _ & Hobj & _).
  split; [|split; [reflexivity|]].
  - refine (Hindex eq_refl _ eq_refl). eexists. vm_compute. reflexivity.
  - exact (proj1 (proj2 (Hobj "2" _ w eq_refl eq_refl)) eq_refl).
Defined.

(** C6 does not hold as stated.  On the index view the queryset is built
    before the permission check, so a denied user whose request carries a
    lookup that is not allowed gets the exception, not the redirect; a user
    who is not logged in is sent to the login page without any error message,
    whatever the permission helper says of them; and a denied user who asks
    an object view for an id that finds no object gets the 404 response of
    the constructor, no check having been made and no message issued. *)
Lemma permission_check_not_reached :
  let ma := Fixture.admin false false [] in
  let w := Fixture.world Fixture.shelf in
  let filtered := Fixture.request GET Fixture.alice [("author__name", "x")] [] in
  let anon := Fixture.request GET Fixture.anonymous [] [] in
  let plain := Fixture.request GET Fixture.alice [] [] in
  allow_list_view (permission_helper ma) (user filtered) = false
  /\ IndexView.dispatch Fixture.django ma filtered w
     = (inl (DisallowedModelAdminLookup "Filtering by author__name not allowed"), w)
  /\ has_list_permission (permission_helper ma) (user anon) = false
  /\ as_object_view InspectView.dispatch ma "1" anon w
     = (inr (Redirect (LoginUrl "/admin/library/book/")), w)
  /\ has_list_permission (permission_helper ma) (user plain) = false
  /\ as_object_view InspectView.dispatch ma "9" plain w = (inl Http404, w).
Proof. intros ma w filtered anon plain. repeat split; vm_compute; reflexivity. Qed.

(** ** Deleting *)

Lemma linked_objects_spec (inst : Instance) (r : Related) :
  r ∈ ConfirmDeleteView.linked_objects inst
  <-> exists rel, rel ∈ related inst /\ on_delete rel = PROTECT /\ r ∈ accessor rel.
Proof.
  unfold ConfirmDeleteView.linked_objects.
  rewrite list_elem_of_In, in_flat_map. split.
  - intros (rel & Hin & Hr). exists rel. split; [by apply list_elem_of_In|].
    case_bool_decide; [|by destruct Hr]. split; [assumption|by apply list_elem_of_In].
  - intros (rel & Hin & Hp & Hr). exists rel. split; [by apply list_elem_of_In|].
    rewrite bool_decide_eq_true_2 by assumption. by apply list_elem_of_In.
Qed.

(** C3, as the code has it: a POST with form data to ConfirmDeleteView of a
    model that is not a page model, by a logged-in user permitted to delete
    the object.  If deleting raises ProtectedError the table is unchanged, an
    error message is issued and the confirm-delete template is rendered with
    error_protected set and the objects behind the PROTECT relations;
    otherwise the row is gone from the table (and with it the rows the
    deletion cascades to, no other), a success message is issued and the
    response is a redirect to the index view. *)
Theorem confirm_delete_post (dj : Django) (self : ObjectSpecificView.t)
    (request : Request) (w : World)
    (Hauth : is_authenticated (user request) = true)
    (Hperm : can_delete_object
               (permission_helper (ObjectSpecificView.model_admin self))
               (user request) (ObjectSpecificView.instance self) = true)
    (Hpage : is_pagemodel (ObjectSpecificView.model_admin self) = false)
    (Hpost : method request = POST)
    (Hdata : req_POST request <> ∅) :
  let ma := ObjectSpecificView.model_admin self in
  let inst := ObjectSpecificView.instance self in
  let said l t := messages w ++ [{| level := l; text := t; buttons := [] |}] in
  let out := ConfirmDeleteView.dispatch dj self request w in
  (delete_blocked inst = true ->
   out.1 = inr (Rendered (confirm_delete_template ma)
                  (ConfirmDeleteContext inst true
                     (ConfirmDeleteView.linked_objects inst)))
   /\ table out.2 = table w
   /\ messages out.2
      = said ERROR (WMABaseView.model_name ma +:+ " '" +:+ str inst
                    +:+ "' could not be deleted."))
  /\ (delete_blocked inst = false ->
      out.1 = inr (Redirect (Url (index_url ma)))
      /\ table out.2
         = filter (fun i => pk i <> pk inst /\ pk i ∉ cascade inst) (table w)
      /\ (forall i, i ∈ table out.2 -> pk i <> pk inst)
      /\ messages out.2
         = said SUCCESS (WMABaseView.model_name ma +:+ " '" +:+ str inst
                         +:+ "' deleted."))
  /\ (forall r, r ∈ ConfirmDeleteView.linked_objects inst
        <-> exists rel, rel ∈ related inst /\ on_delete rel = PROTECT
                        /\ r ∈ accessor rel).
Proof.
  intros ma inst said out. subst out ma inst.
  unfold ConfirmDeleteView.dispatch, ConfirmDeleteView.check_action_permitted,
    ConfirmDeleteView.post, ConfirmDeleteView.delete_instance, orm_delete.
  run. rewrite Hauth, Hperm, Hpage, Hpost.
  rewrite (bool_decide_eq_false_2 _ Hdata). simpl.
  split; [|split].
  - intros ->. simpl. repeat split.
  - intros ->. simpl. repeat split.
    intros i Hi. by apply list_elem_of_filter in Hi as [[Hi _] _].
  - apply linked_objects_spec.
Qed.

Lemma confirm_delete_post_witness :
  let ma := Fixture.admin false true [] in
  let request := Fixture.request POST Fixture.alice [] [("csrfmiddlewaretoken", "t")] in
  let gone := Fixture.view ma "1" (Fixture.book "1" "Dune" false) in
  let kept := Fixture.view ma "2" (Fixture.book "2" "Emma" true) in
  let w := Fixture.world Fixture.shelf in
  is_authenticated (user request) = true
  /\ can_delete_object (permission_helper ma) (user request)
       (ObjectSpecificView.instance gone) = true
  /\ is_pagemodel ma = false
  /\ method request = POST
  /\ req_POST request <> ∅
  /\ (ConfirmDeleteView.dispatch Fixture.django gone request w).1
     = inr (Redirect (Url "/admin/library/book/"))
  /\ (ConfirmDeleteView.dispatch Fixture.django kept request w).1
     = inr (Rendered "confirm_delete.html"
              (ConfirmDeleteContext (Fixture.book "2" "Emma" true) true
                 [ {| rel_pk := "7"; rel_str := "loan 7" |} ])).
Proof.
  intros ma request gone kept w.
  assert (Hdata : req_POST request <> ∅).
  { intros H. apply (f_equal (fun m => m !! "csrfmiddlewaretoken")) in H.
    vm_compute in H. discriminate. }
  split; [reflexivity|]. split; [reflexivity|]. split; [reflexivity|].
  split; [reflexivity|]. split; [exact Hdata|]. split.
  - exact (proj1 (proj1 (proj2 (confirm_delete_post Fixture.django gone request w
                                  eq_refl eq_refl eq_refl eq_refl Hdata)) eq_refl)).
  - exact (proj1 (proj1 (confirm_delete_post Fixture.django kept request w
                           eq_refl eq_refl eq_refl eq_refl Hdata) eq_refl)).
Defined.

(** C3 does not hold as stated.  A POST without form data, by a logged-in
    user permitted to delete an object nothing protects, deletes nothing and
    ends in UnboundLocalError; and for a page model the POST is redirected to
    the framework's page-delete view, the row staying in the table. *)
Lemma confirm_delete_post_not_every_post :
  let dune := Fixture.book "1" "Dune" false in
  let w := Fixture.world Fixture.shelf in
  let empty_post := Fixture.request POST Fixture.alice [] [] in
  let post := Fixture.request POST Fixture.alice [] [("csrfmiddlewaretoken", "t")] in
  let plain := Fixture.view (Fixture.admin false true []) "1" dune in
  let page := Fixture.view (Fixture.admin true true []) "1" dune in
  delete_blocked dune = false
  /\ (ConfirmDeleteView.dispatch Fixture.django plain empty_post w).1
     = inl (UnboundLocalError "context")
  /\ table (ConfirmDeleteView.dispatch Fixture.django plain empty_post w).2 = table w
  /\ (ConfirmDeleteView.dispatch Fixture.django page post w).1
     = inr (Redirect (UrlName "wagtailadmin_pages:delete" ["1"]))
  /\ table (ConfirmDeleteView.dispatch Fixture.django page post w).2 = table w.
Proof.
  intros dune w empty_post post plain page. repeat split; vm_compute; reflexivity.
Qed.

(** ** The model on concrete inputs *)

Example split_dunder_examples :
  PyStr.split_dunder "author__name__icontains" = ["author"; "name"; "icontains"]
  /\ PyStr.split_dunder "a___b" = ["a"; "_b"]
  /\ PyStr.split_dunder "__a____" = [""; "a"; ""; ""]
  /\ PyStr.split_dunder "" = [""].
Proof. repeat split; reflexivity. Qed.

Example int_examples :
  PyStr.int " 12 " = Some 12%Z /\ PyStr.int "-3" = Some (-3)%Z
  /\ PyStr.int "+7" = Some 7%Z /\ PyStr.int "" = None /\ PyStr.int "-" = None
  /\ PyStr.int "1 2" = None /\ PyStr.int "two" = None.
Proof. repeat split; reflexivity. Qed.

Example split_examples :
  PyStr.split_ws "  dune  frank herbert " = ["dune"; "frank"; "herbert"]
  /\ PyStr.split_ws "   " = []
  /\ PyStr.split_char "." "1.-2..3" = ["1"; "-2"; ""; "3"]
  /\ PyStr.rpartition_dash "a-b-3" = ("a-b", "-", "3")
  /\ PyStr.rpartition_dash "3" = ("", "", "3").
Proof. repeat split; reflexivity. Qed.

Example quote_examples :
  quote "a_b/c:d" = "a_5Fb_2Fc_3Ad" /\ quote "42" = "42".
Proof. split; reflexivity. Qed.

Example relation_lookups :
  let self := IndexView.init (Fixture.admin false true [])
                (Fixture.request GET Fixture.alice [] []) in
  IndexView.lookup_allowed self "author__name" "x" = false
  /\ IndexView.lookup_allowed self "author__id__exact" "3" = true
  /\ IndexView.lookup_allowed self "publisher__name" "x" = true.
Proof. intros self. repeat split; vm_compute; reflexivity. Qed.

Example search_and_order :
  IndexView.get_queryset Fixture.django
    (IndexView.init (Fixture.admin false true [])
       (Fixture.request GET Fixture.alice [("o", "-0.1"); ("q", "Dune x"); ("ot", "asc")] []))
  = inr (FilterQ (QOr (QLookup "title__istartswith" "x")
                      (QLookup "author__name__icontains" "x"))
           (FilterQ (QOr (QLookup "title__istartswith" "Dune")
                         (QLookup "author__name__icontains" "Dune"))
              (OrderBy ["-title"; "author"; "-pk"]
                 (FilterKw ∅ (Base [] false))))).
Proof. vm_compute. reflexivity. Qed.

(** The books come last key first: the ordering ends in '-pk'. *)
Example second_page :
  (IndexView.dispatch Fixture.django (Fixture.admin false true [])
     (Fixture.request GET Fixture.alice [("p", "1"); ("e", "1")] [])
     (Fixture.world Fixture.shelf)).1
  = inr (Rendered "index.html"
           (IndexContext 3 3 2 [Fixture.book "1" "Dune" false] true None)).
Proof. vm_compute. reflexivity. Qed.

Example page_out_of_range_shows_first :
  (IndexView.dispatch Fixture.django (Fixture.admin false true [])
     (Fixture.request GET Fixture.alice [("p", "7")] [])
     (Fixture.world Fixture.shelf)).1
  = inr (Rendered "index.html"
           (IndexContext 3 3 1
              [Fixture.book "3" "Ulysses" false; Fixture.book "2" "Emma" true]
              true None)).
Proof. vm_compute. reflexivity. Qed.

Example search_by_title :
  (IndexView.dispatch Fixture.django (Fixture.admin false true [])
     (Fixture.request GET Fixture.alice [("q", "u"); ("o", "0")] [])
     (Fixture.world Fixture.shelf)).1
  = inr (Rendered "index.html"
           (IndexContext 3 1 1 [Fixture.book "3" "Ulysses" false] true None)).
Proof. vm_compute. reflexivity. Qed.

(** A search field that names no field of the model: [filter()] raises
    FieldError, which leaves the view as it is; the same mistake in a filter
    parameter is turned into IncorrectLookupParameters. *)
Example search_field_error :
  let ma := with_search_on Fixture.book_opts ["publisher"] (Fixture.admin false true []) in
  IndexView.get_queryset Fixture.django
    (IndexView.init ma (Fixture.request GET Fixture.alice [("q", "x")] []))
  = inl FieldError
  /\ IndexView.get_queryset Fixture.django
       (IndexView.init ma (Fixture.request GET Fixture.alice [("title__size", "3")] []))
     = inl IncorrectLookupParameters.
Proof. split; vm_compute; reflexivity. Qed.

(** HEAD is served by [get], PUT by [post] on the form views, OPTIONS by
    the list of handlers; a view without the handler answers 405.  The form
    of a PUT is bound to [request.POST], which is empty then: it is saved
    when the form validates without data. *)
Example http_methods :
  let ma := Fixture.admin false true [] in
  let lenient := with_form (fun _ => true) ma in
  let w := Fixture.world Fixture.shelf in
  let self := Fixture.view ma "1" (Fixture.book "1" "Dune" false) in
  let ask m := Fixture.request m Fixture.alice [] [("title", "Persuasion")] in
  (InspectView.dispatch self (ask HEAD) w).1
  = inr (Rendered "inspect.html" (InspectContext (Fixture.book "1" "Dune" false)))
  /\ (InspectView.dispatch self (ask OPTIONS) w).1
     = inr (Allow ["GET"; "HEAD"; "OPTIONS"])
  /\ (CreateView.dispatch Fixture.django ma (ask OPTIONS) w).1
     = inr (Allow ["GET"; "POST"; "PUT"; "HEAD"; "OPTIONS"])
  /\ (ConfirmDeleteView.dispatch Fixture.django self (ask PUT) w).1 = inr NotAllowed
  /\ (CreateView.dispatch Fixture.django ma (ask POST) w).1
     = inr (Redirect (Url "/admin/library/book/"))
  /\ table (CreateView.dispatch Fixture.django ma (ask POST) w).2
     = Fixture.shelf ++ [Fixture.book "new" "Persuasion" false]
  /\ (CreateView.dispatch Fixture.django ma (ask PUT) w).1
     = inr (Rendered "create.html" (FormContext None))
  /\ (CreateView.dispatch Fixture.django lenient (ask PUT) w).1
     = inr (Redirect (Url "/admin/library/book/"))
  /\ table (CreateView.dispatch Fixture.django lenient (ask PUT) w).2
     = Fixture.shelf ++ [Fixture.book "new" "" false].
Proof. repeat split; vm_compute; reflexivity. Qed.

(** Deleting the first volume of a series takes its sequels along. *)
Example delete_cascades :
  let ma := Fixture.admin false true [] in
  let first := Fixture.first_volume "10" "Dune" ["11"; "12"] in
  let w := Fixture.world [first; Fixture.book "11" "Dune Messiah" false;
                          Fixture.book "2" "Emma" false;
                          Fixture.book "12" "Children of Dune" false] in
  table (ConfirmDeleteView.dispatch Fixture.django (Fixture.view ma "10" first)
           (Fixture.request POST Fixture.alice [] [("csrfmiddlewaretoken", "t")]) w).2
  = [Fixture.book "2" "Emma" false].
Proof. vm_compute. reflexivity. Qed.

(** * Further properties of the views *)

(** ** Query-string parameters *)

(** X1: of the query string, the filters see every parameter except the five
    the index view keeps for itself (o, ot, q, p, e), each with the value it
    came with. *)
Theorem filters_params_spec (ma : ModelAdmin) (request : Request) (k : string) :
  IndexView.get_filters_params (IndexView.init ma request) !! k
  = if bool_decide (k ∈ reserved_params) then None else req_GET request !! k.
Proof.
  unfold IndexView.get_filters_params, IndexView.init, IndexView.retained_params,
    reserved_params, IGNORED_PARAMS, ORDER_VAR, ORDER_TYPE_VAR, SEARCH_VAR,
    PAGE_VAR, ERROR_FLAG.
  simpl. rewrite !lookup_delete.
  case_bool_decide as Hk; rewrite !elem_of_cons, elem_of_nil in Hk.
  - repeat case_decide; try reflexivity. exfalso. intuition congruence.
  - repeat case_decide; try reflexivity; exfalso; apply Hk; subst; tauto.
Qed.

Lemma remove_prefixes_lookup (remove : list string) (p : gmap string string)
    (k : string) :
  fold_left (fun p r => filter (fun kv => String.prefix r kv.1 = false) p) remove p !! k
  = if existsb (fun r => String.prefix r k) remove then None else p !! k.
Proof.
  revert p. induction remove as [|r remove IH]; intros p; simpl; [reflexivity|].
  rewrite IH. destruct (String.prefix r k) eqn:Hr; simpl.
  - destruct (existsb _ remove); [reflexivity|].
    apply map_lookup_filter_None. right. intros v _. simpl. congruence.
  - destruct (existsb _ remove); [reflexivity|].
    destruct (p !! k) as [v|] eqn:Hp.
    + apply map_lookup_filter_Some. split; [assumption|exact Hr].
    + apply map_lookup_filter_None. by left.
Qed.

Lemma update_params_lookup (new_params : list (string * option string))
    (p : gmap string string) (k : string) :
  fold_left (fun p kv => match kv.2 with
                         | None => delete kv.1 p
                         | Some v => <[kv.1 := v]> p
                         end) new_params p !! k
  = match (list_to_map (reverse new_params) : gmap string (option string)) !! k with
    | Some ov => ov
    | None => p !! k
    end.
Proof.
  revert p. induction new_params as [|[k' ov] l IH] using rev_ind; intros p;
    [reflexivity|].
  rewrite fold_left_app, reverse_app. simpl.
  destruct (decide (k' = k)) as [->|Hne].
  - rewrite lookup_insert_eq. destruct ov as [v|].
    + apply lookup_insert_eq.
    + apply lookup_delete_eq.
  - rewrite (lookup_insert_ne _ k' k) by assumption.
    destruct ov as [v|].
    + rewrite lookup_insert_ne by assumption. apply IH.
    + rewrite lookup_delete_ne by assumption. apply IH.
Qed.

(** X2: [get_query_string] starts from the retained parameters; a parameter
    named in [new_params] ends up with the value given there, or absent when
    that value is None; any other parameter is dropped when its name starts
    with one of the [remove] prefixes and kept unchanged otherwise. *)
Theorem get_query_string_spec (self : IndexView.t)
    (new_params : list (string * option string)) (remove : list string) :
  (forall k ov, NoDup new_params.*1 -> (k, ov) ∈ new_params ->
     IndexView.get_query_string self new_params remove !! k = ov)
  /\ (forall k, k ∉ new_params.*1 ->
        IndexView.get_query_string self new_params remove !! k
        = if existsb (fun r => String.prefix r k) remove then None
          else IndexView.params self !! k).
Proof.
  unfold IndexView.get_query_string. split.
  - intros k ov Hnd Hin. rewrite update_params_lookup.
    assert (Hl : (list_to_map (reverse new_params) : gmap string (option string)) !! k
                 = Some ov).
    { apply elem_of_list_to_map_1.
      - by rewrite fmap_reverse, reverse_Permutation.
      - by apply elem_of_reverse. }
    by rewrite Hl.
  - intros k Hk. rewrite update_params_lookup.
    assert (Hl : (list_to_map (reverse new_params) : gmap string (option string)) !! k
                 = None).
    { apply not_elem_of_list_to_map_1. rewrite fmap_reverse.
      by rewrite elem_of_reverse. }
    rewrite Hl. apply remove_prefixes_lookup.
Qed.

Lemma get_query_string_spec_witness :
  let self := IndexView.init (Fixture.admin false true [])
                (Fixture.request GET Fixture.alice
                   [("o", "0"); ("author__id", "3"); ("p", "4")] []) in
  NoDup [(PAGE_VAR, Some "2")].*1
  /\ (PAGE_VAR, Some "2") ∈ [(PAGE_VAR, Some "2")]
  /\ IndexView.get_query_string self [(PAGE_VAR, Some "2")] ["author"] !! PAGE_VAR
     = Some "2"
  /\ IndexView.get_query_string self [(PAGE_VAR, Some "2")] ["author"] !! "author__id"
     = None
  /\ IndexView.get_query_string self [(PAGE_VAR, Some "2")] ["author"] !! "o"
     = Some "0".
Proof.
  intros self.
  assert (Hnd : NoDup [(PAGE_VAR, Some "2")].*1).
  { simpl. apply NoDup_singleton. }
  assert (Hin : (PAGE_VAR, Some "2") ∈ [(PAGE_VAR, Some "2")]) by left.
  destruct (get_query_string_spec self [(PAGE_VAR, Some "2")] ["author"])
    as [Hset Hother].
  split; [exact Hnd|]. split; [exact Hin|]. split; [exact (Hset _ _ Hnd Hin)|].
  split.
  - refine (eq_trans (Hother "author__id" _) _); [|reflexivity].
    simpl. rewrite list_elem_of_singleton. discriminate.
  - refine (eq_trans (Hother "o" _) _); [|reflexivity].
    simpl. rewrite list_elem_of_singleton. discriminate.
Defined.

(** ** Filters *)

Lemma delete_all_lookup (ks : list string) (m : gmap string string) (k : string) :
  fold_left (fun m k => delete k m) ks m !! k
  = if bool_decide (k ∈ ks) then None else m !! k.
Proof.
  revert m. induction ks as [|k' ks IH]; intros m; simpl; [reflexivity|].
  rewrite IH. destruct (decide (k = k')) as [->|Hne].
  - rewrite lookup_delete_eq. rewrite (bool_decide_eq_true_2 (k' ∈ k' :: ks)) by left.
    by destruct (bool_decide _).
  - rewrite lookup_delete_ne by congruence.
    destruct (bool_decide (k ∈ ks)) eqn:Hin.
    + apply bool_decide_eq_true in Hin.
      by rewrite (bool_decide_eq_true_2 (k ∈ k' :: ks)) by (by right).
    + apply bool_decide_eq_false in Hin.
      rewrite (bool_decide_eq_false_2 (k ∈ k' :: ks)); [reflexivity|].
      rewrite elem_of_cons. tauto.
Qed.

Lemma build_specs_spec (lfs : list ListFilter) (lp : gmap string string) (ud : bool)
    (specs : list FilterSpec) (lp' : gmap string string) (ud' : bool) :
  IndexView.build_specs lfs lp ud = (specs, lp', ud') ->
  (forall k v, lp' !! k = Some v -> lp !! k = Some v)
  /\ (forall sp, sp ∈ specs ->
        has_output sp = true
        /\ forall p, p ∈ used_parameters sp -> lp' !! p = None).
Proof.
  revert lp ud specs lp' ud'.
  induction lfs as [|lf lfs IH]; intros lp ud specs lp' ud'; simpl.
  - intros [= <- <- <-]. split; [auto|]. intros sp Hsp. by apply elem_of_nil in Hsp.
  - destruct (IndexView.build_specs lfs _ _) as [[specs0 lp2] ud2] eqn:Hrest.
    apply IH in Hrest as [Hsub Hspecs]. intros [= <- <- <-].
    destruct (lf_create lf lp) as [sp0|] eqn:Hcreate.
    + assert (Hsub' : forall k v, lp2 !! k = Some v -> lp !! k = Some v).
      { intros k v Hk. apply Hsub in Hk. rewrite delete_all_lookup in Hk.
        by destruct (bool_decide _). }
      split; [exact Hsub'|].
      assert (Hused : forall p, p ∈ used_parameters sp0 -> lp2 !! p = None).
      { intros p Hp. destruct (lp2 !! p) as [v|] eqn:Hv; [|reflexivity].
        apply Hsub in Hv. rewrite delete_all_lookup in Hv.
        by rewrite bool_decide_eq_true_2 in Hv. }
      intros sp Hsp. destruct (has_output sp0) eqn:Hout.
      * apply elem_of_cons in Hsp as [->|Hsp]; [by split|by apply Hspecs].
      * by apply Hspecs.
    + split; [exact Hsub|exact Hspecs].
Qed.

Lemma prepare_remaining_lookup (dj : Django) (o : Options)
    (items : list (string * string)) (lp : gmap string string) (ud : bool)
    (lp' : gmap string string) (ud' : bool) (k : string) :
  NoDup items.*1 ->
  IndexView.prepare_remaining dj o items lp ud = inr (lp', ud') ->
  lp' !! k = match (list_to_map items : gmap string string) !! k with
             | Some v => Some (prepare_lookup_value dj k v)
             | None => lp !! k
             end.
Proof.
  revert lp ud. induction items as [|[key value] items IH]; intros lp ud Hnd; simpl.
  - by intros [= <- <-].
  - rewrite fmap_cons in Hnd. apply NoDup_cons in Hnd as [Hkey Hnd].
    change ((key, value).1) with key in Hkey. intros Hrun.
    assert (Hgo : exists ud1,
              IndexView.prepare_remaining dj o items
                (<[key := prepare_lookup_value dj key value]> lp) ud1
              = inr (lp', ud')).
    { destruct ud; [eauto|].
      destruct (lookup_needs_distinct o key); [discriminate|eauto]. }
    destruct Hgo as [ud1 Hgo]. rewrite (IH _ _ Hnd Hgo).
    destruct (decide (key = k)) as [->|Hne].
    + rewrite (not_elem_of_list_to_map_1 items k Hkey).
      by rewrite !lookup_insert_eq.
    + rewrite !(lookup_insert_ne _ key k) by assumption. reflexivity.
Qed.

(** X3: when [get_filters] returns, every filter parameter of the request
    passed [lookup_allowed]; the specs returned all have output, and none of
    the parameters they use is left in the remaining lookups; [has_filters]
    tells whether there is a spec; and each remaining lookup is a filter
    parameter of the request with its value passed through
    [prepare_lookup_value], nothing being added. *)
Theorem get_filters_spec (dj : Django) (self : IndexView.t)
    (specs : list FilterSpec) (has_filters : bool)
    (remaining : gmap string string) (distinct : bool)
    (Hok : IndexView.get_filters dj self = inr (specs, has_filters, remaining, distinct)) :
  (forall k v, IndexView.get_filters_params self !! k = Some v ->
     IndexView.lookup_allowed self k v = true)
  /\ (forall sp, sp ∈ specs ->
        has_output sp = true
        /\ forall p, p ∈ used_parameters sp -> remaining !! p = None)
  /\ has_filters = negb (bool_decide (specs = []))
  /\ (forall k v', remaining !! k = Some v' ->
        exists v, IndexView.get_filters_params self !! k = Some v
                  /\ v' = prepare_lookup_value dj k v)
  /\ (list_filter (IndexView.model_admin self) = [] ->
      forall k, remaining !! k
                = prepare_lookup_value dj k <$> IndexView.get_filters_params self !! k).
Proof.
  unfold IndexView.get_filters in Hok.
  destruct (List.find _ _) as [[k0 v0]|] eqn:Hfind; [discriminate|].
  destruct (IndexView.build_specs _ _ _) as [[specs0 lp] ud] eqn:Hbuild.
  destruct (IndexView.prepare_remaining _ _ _ _ _) as [e|[lp' ud']] eqn:Hprep;
    [discriminate|].
  simpl in Hok. injection Hok as <- <- <- <-.
  pose proof (build_specs_spec _ _ _ _ _ _ Hbuild) as [Hsub Hspecs].
  assert (Hlp : forall k, lp' !! k = prepare_lookup_value dj k <$> lp !! k).
  { intros k.
    rewrite (prepare_remaining_lookup _ _ _ _ _ _ _ k (NoDup_fst_map_to_list lp) Hprep).
    rewrite list_to_map_to_list. by destruct (lp !! k). }
  split; [|split; [|split; [|split]]].
  - intros k v Hk.
    pose proof (find_none _ _ Hfind (k, v)) as Hnone. simpl in Hnone.
    apply negb_false_iff, Hnone, list_elem_of_In, elem_of_map_to_list, Hk.
  - intros sp Hsp. destruct (Hspecs sp Hsp) as [Hout Hused]. split; [exact Hout|].
    intros p Hp. rewrite Hlp, (Hused p Hp). reflexivity.
  - reflexivity.
  - intros k v' Hk. rewrite Hlp in Hk.
    destruct (lp !! k) as [v|] eqn:Hv; [|discriminate].
    exists v. split; [by apply Hsub|]. by injection Hk as <-.
  - intros Hnone k. rewrite Hnone in Hbuild. simpl in Hbuild.
    injection Hbuild as <- <- <-. apply Hlp.
Qed.

Lemma get_filters_spec_witness :
  let self := IndexView.init (Fixture.admin false true [])
                (Fixture.request GET Fixture.alice
                   [("title__icontains", "du"); ("q", "x"); ("p", "1")] []) in
  IndexView.get_filters Fixture.django self
  = inr ([], false, {[ "title__icontains" := "du" ]}, false)
  /\ IndexView.lookup_allowed self "title__icontains" "du" = true.
Proof.
  intros self.
  assert (Hok : IndexView.get_filters Fixture.django self
                = inr ([], false, {[ "title__icontains" := "du" ]}, false))
    by (vm_compute; reflexivity).
  split; [exact Hok|].
  exact (proj1 (get_filters_spec _ _ _ _ _ _ Hok) "title__icontains" "du" eq_refl).
Defined.

Lemma prepare_remaining_unknown (dj : Django) (o : Options)
    (items : list (string * string)) (lp : gmap string string) :
  (forall k v f, (k, v) ∈ items ->
     get_field o (hd "" (PyStr.split_dunder k)) = Some f -> m2m f = false) ->
  (exists k v, (k, v) ∈ items /\ get_field o (hd "" (PyStr.split_dunder k)) = None) ->
  IndexView.prepare_remaining dj o items lp false = inl IncorrectLookupParameters.
Proof.
  revert lp. induction items as [|[key value] items IH]; intros lp Hplain Hbad.
  - destruct Hbad as (k & v & Hin & _). by apply elem_of_nil in Hin.
  - simpl. unfold lookup_needs_distinct.
    destruct (get_field o (hd "" (PyStr.split_dunder key))) as [f|] eqn:Hf;
      [|reflexivity].
    rewrite (Hplain key value f (list_elem_of_here _ _) Hf). apply IH.
    + intros k v f' Hin Hf'. apply (Hplain k v f'); [by right|assumption].
    + destruct Hbad as (k & v & Hin & Hnone).
      apply elem_of_cons in Hin as [[= -> ->]|Hin]; [congruence|eauto].
Qed.

(** X4: with no list filters configured and no many-to-many field among the
    parameters, a filter parameter whose first part names no field of the
    model makes [get_filters], and with it [get_queryset], raise
    IncorrectLookupParameters, even though [lookup_allowed] let every
    parameter through. *)
Theorem unknown_field_incorrect (dj : Django) (self : IndexView.t)
    (Hnone : list_filter (IndexView.model_admin self) = [])
    (Hallowed : forall k v, IndexView.get_filters_params self !! k = Some v ->
                  IndexView.lookup_allowed self k v = true)
    (Hplain : forall k v f, IndexView.get_filters_params self !! k = Some v ->
                get_field (opts (IndexView.model_admin self))
                  (hd "" (PyStr.split_dunder k)) = Some f ->
                m2m f = false)
    (Hbad : exists k v, IndexView.get_filters_params self !! k = Some v
              /\ get_field (opts (IndexView.model_admin self))
                   (hd "" (PyStr.split_dunder k)) = None) :
  IndexView.get_filters dj self = inl IncorrectLookupParameters
  /\ IndexView.get_queryset dj self = inl IncorrectLookupParameters.
Proof.
  assert (Hf : IndexView.get_filters dj self = inl IncorrectLookupParameters).
  { unfold IndexView.get_filters.
    destruct (List.find _ _) as [[k0 v0]|] eqn:Hfind.
    - apply find_some in Hfind as [Hin Hrej]. simpl in Hrej.
      apply list_elem_of_In, elem_of_map_to_list in Hin.
      rewrite (Hallowed k0 v0 Hin) in Hrej. discriminate.
    - rewrite Hnone. simpl. rewrite prepare_remaining_unknown; [reflexivity| |].
      + intros k v f Hin. apply elem_of_map_to_list in Hin. by apply (Hplain k v).
      + destruct Hbad as (k & v & Hk & Hn). exists k, v.
        split; [by apply elem_of_map_to_list|assumption]. }
  split; [exact Hf|]. unfold IndexView.get_queryset. by rewrite Hf.
Qed.

Lemma unknown_field_incorrect_witness :
  let self := IndexView.init (Fixture.admin false true [])
                (Fixture.request GET Fixture.alice [("publisher", "1")] []) in
  IndexView.get_filters_params self = {[ "publisher" := "1" ]}
  /\ IndexView.lookup_allowed self "publisher" "1" = true
  /\ IndexView.get_queryset Fixture.django self = inl IncorrectLookupParameters.
Proof.
  intros self.
  assert (Hp : IndexView.get_filters_params self = {[ "publisher" := "1" ]})
    by (vm_compute; reflexivity).
  split; [exact Hp|]. split; [reflexivity|].
  refine (proj2 (unknown_field_incorrect Fixture.django self eq_refl _ _ _)).
  - intros k v Hk. rewrite Hp in Hk. apply lookup_singleton_Some in Hk as [<- <-].
    reflexivity.
  - intros k v f Hk. rewrite Hp in Hk. apply lookup_singleton_Some in Hk as [<- <-].
    discriminate.
  - exists "publisher", "1". split; [by rewrite Hp|reflexivity].
Defined.

(** ** More on allowed lookups *)

(** The two equations of [split_dunder]. *)
Lemma split_dunder_sep (rest : string) :
  PyStr.split_dunder (String "_" (String "_" rest)) = "" :: PyStr.split_dunder rest.
Proof. reflexivity. Qed.

Lemma split_dunder_char (c : ascii) (rest : string) :
  (c <> "_"%char \/ forall r, rest <> String "_" r) ->
  PyStr.split_dunder (String c rest)
  = match PyStr.split_dunder rest with
    | p :: ps => String c p :: ps
    | [] => [String c ""]
    end.
Proof.
  intros Hc.
  destruct (decide (c = "_"%char)) as [->|Hne].
  - destruct Hc as [Hc|Hc]; [congruence|].
    destruct rest as [|c2 r]; [reflexivity|].
    destruct (decide (c2 = "_"%char)) as [->|Hne2]; [by destruct (Hc r)|].
    destruct c2 as [[] [] [] [] [] [] [] []]; try reflexivity. congruence.
  - destruct c as [[] [] [] [] [] [] [] []]; try reflexivity. congruence.
Qed.

Lemma starts_with_underscore_dec (s : string) :
  {r | s = String "_" r} + {forall r, s <> String "_" r}.
Proof.
  destruct s as [|c r]; [right; discriminate|].
  destruct (decide (c = "_"%char)) as [->|Hne]; [left; eauto|].
  right. intros r' [= -> _]. congruence.
Qed.

Lemma split_dunder_nonempty (s : string) : PyStr.split_dunder s <> [].
Proof.
  destruct s as [|c rest]; [discriminate|].
  destruct (decide (c = "_"%char)) as [->|Hne].
  - destruct (starts_with_underscore_dec rest) as [[r ->]|Hr].
    + rewrite split_dunder_sep. discriminate.
    + rewrite split_dunder_char by (by right).
      destruct (PyStr.split_dunder rest); discriminate.
  - rewrite split_dunder_char by (by left).
    destruct (PyStr.split_dunder rest); discriminate.
Qed.

Lemma join_cons_char (sep : string) (c : ascii) (p : string) (ps : list string) :
  PyStr.join sep (String c p :: ps) = String c (PyStr.join sep (p :: ps)).
Proof. destruct ps; reflexivity. Qed.

Lemma join_split_dunder_bounded (n : nat) (s : string) :
  (String.length s <= n)%nat -> PyStr.join LOOKUP_SEP (PyStr.split_dunder s) = s.
Proof.
  revert s. induction n as [|n IH]; intros s Hlen.
  - destruct s; [reflexivity|simpl in Hlen; lia].
  - destruct s as [|c rest]; [reflexivity|]. simpl in Hlen.
    assert (Hchar : PyStr.split_dunder (String c rest)
                    = match PyStr.split_dunder rest with
                      | p :: ps => String c p :: ps
                      | [] => [String c ""]
                      end ->
                    PyStr.join LOOKUP_SEP (PyStr.split_dunder (String c rest))
                    = String c rest).
    { intros ->. pose proof (IH rest ltac:(lia)) as Hrest.
      destruct (PyStr.split_dunder rest) as [|p ps] eqn:Hs;
        [by destruct (split_dunder_nonempty rest)|].
      rewrite join_cons_char. by rewrite Hrest. }
    destruct (decide (c = "_"%char)) as [->|Hne].
    + destruct (starts_with_underscore_dec rest) as [[r ->]|Hr].
      * rewrite split_dunder_sep. simpl in Hlen.
        pose proof (IH r ltac:(lia)) as Hr.
        destruct (PyStr.split_dunder r) as [|p ps] eqn:Hs;
          [by destruct (split_dunder_nonempty r)|].
        change (PyStr.join LOOKUP_SEP ("" :: p :: ps))
          with ("__" +:+ PyStr.join LOOKUP_SEP (p :: ps)).
        by rewrite Hr.
      * apply Hchar, split_dunder_char. by right.
    + apply Hchar, split_dunder_char. by left.
Qed.

(** Splitting a lookup on the separator and joining it again gives the
    lookup back. *)
Lemma join_split_dunder (s : string) :
  PyStr.join LOOKUP_SEP (PyStr.split_dunder s) = s.
Proof. by apply (join_split_dunder_bounded (String.length s)). Qed.

Lemma drop_query_term_nonempty (parts : list string) :
  parts <> [] -> IndexView.drop_query_term parts <> [].
Proof.
  unfold IndexView.drop_query_term. intros Hne.
  destruct (_ && _) eqn:Hc; [|assumption].
  apply andb_prop in Hc as [Hlen _]. apply Nat.ltb_lt in Hlen.
  destruct parts as [|a [|b l]]; simpl in *; try lia. discriminate.
Qed.

Lemma in_list_filter_spec (ma : ModelAdmin) (clean_lookup : string) :
  IndexView.in_list_filter ma clean_lookup = true
  <-> exists lf, lf ∈ list_filter ma /\ lf_kind lf = FieldPath
                 /\ lf_field_path lf = clean_lookup.
Proof.
  unfold IndexView.in_list_filter. rewrite existsb_exists. split.
  - intros (lf & Hin & Hlf). apply andb_prop in Hlf as [Hk Hp].
    apply bool_decide_eq_true in Hk, Hp. exists lf.
    split; [by apply list_elem_of_In|by split].
  - intros (lf & Hin & Hk & Hp). exists lf. split; [by apply list_elem_of_In|].
    by rewrite !bool_decide_eq_true_2.
Qed.

(** X5: adding entries to [list_filter] never turns an allowed lookup into a
    disallowed one. *)
Theorem lookup_allowed_monotone (s1 s2 : IndexView.t) (lookup value : string)
    (Hopts : opts (IndexView.model_admin s1) = opts (IndexView.model_admin s2))
    (Hmore : forall lf, lf ∈ list_filter (IndexView.model_admin s1) ->
                        lf ∈ list_filter (IndexView.model_admin s2))
    (Hallowed : IndexView.lookup_allowed s1 lookup value = true) :
  IndexView.lookup_allowed s2 lookup value = true.
Proof.
  unfold IndexView.lookup_allowed in *. rewrite Hopts in Hallowed.
  destruct (existsb _ _); [reflexivity|].
  destruct (IndexView.scan_parts _ _ _) as [rel_name|]; [|reflexivity].
  destruct (length _ =? 1)%nat; [reflexivity|].
  apply in_list_filter_spec in Hallowed as (lf & Hin & Hk & Hp).
  apply in_list_filter_spec. exists lf. split; [by apply Hmore|by split].
Qed.

Lemma lookup_allowed_monotone_witness :
  let ma := with_list_filter [Fixture.by_author_name] (Fixture.admin false true []) in
  let request := Fixture.request GET Fixture.alice [] [] in
  let more := with_list_filter
                [Fixture.by_author_name; Fixture.by_author_name] ma in
  IndexView.lookup_allowed (IndexView.init ma request) "author__name" "x" = true
  /\ IndexView.lookup_allowed (IndexView.init more request) "author__name" "x" = true.
Proof.
  intros ma request more.
  assert (H1 : IndexView.lookup_allowed (IndexView.init ma request)
                 "author__name" "x" = true) by reflexivity.
  split; [exact H1|].
  refine (lookup_allowed_monotone (IndexView.init ma request)
            (IndexView.init more request) "author__name" "x" eq_refl _ H1).
  intros lf Hlf. simpl in *. apply elem_of_cons. by left + (right; exact Hlf).
Defined.

(** X6: a lookup is only ever rejected when, its trailing query term
    dropped, it has at least two parts and its first part is a field of the
    model whose relation is not None; a lookup whose first part names no
    field of the model is always allowed. *)
Theorem lookup_rejected_shape (self : IndexView.t) (lookup value : string)
    (Hrejected : IndexView.lookup_allowed self lookup value = false) :
  let parts := IndexView.drop_query_term (PyStr.split_dunder lookup) in
  (2 <= length parts)%nat
  /\ exists rel, get_field_by_name (opts (IndexView.model_admin self)) (hd "" parts)
                 = Some rel
                 /\ rel <> RelNone.
Proof.
  intros parts. unfold IndexView.lookup_allowed in Hrejected. fold parts in Hrejected.
  destruct (existsb _ _); [discriminate|].
  pose proof (drop_query_term_nonempty _ (split_dunder_nonempty lookup)) as Hne.
  fold parts in Hne.
  destruct parts as [|first [|second rest]]; [congruence| |].
  - simpl in Hrejected. discriminate.
  - split; [simpl; lia|].
    change (removelast (first :: second :: rest))
      with (first :: removelast (second :: rest)) in Hrejected.
    simpl IndexView.scan_parts in Hrejected. simpl hd.
    destruct (get_field_by_name _ first) as [[]|]; try discriminate; eauto.
Qed.

Lemma lookup_rejected_shape_witness :
  let self := IndexView.init (Fixture.admin false true [])
                (Fixture.request GET Fixture.alice [] []) in
  IndexView.lookup_allowed self "author__name__icontains" "x" = false
  /\ exists rel, get_field_by_name Fixture.book_opts "author" = Some rel
                 /\ rel <> RelNone.
Proof.
  intros self.
  assert (H : IndexView.lookup_allowed self "author__name__icontains" "x" = false)
    by reflexivity.
  split; [exact H|].
  exact (proj2 (lookup_rejected_shape self "author__name__icontains" "x" H)).
Defined.

Lemma scan_parts_plain (o : Options) (ps : list string) (rel_name : option string) :
  (forall part, part ∈ ps -> get_field_by_name o part = Some PlainField) ->
  ps <> [] ->
  IndexView.scan_parts o ps rel_name = Some None.
Proof.
  revert rel_name. induction ps as [|part ps IH]; intros rel_name Hplain Hne;
    [congruence|].
  simpl. rewrite (Hplain part) by left.
  destruct ps as [|part' ps']; [reflexivity|].
  apply IH; [|discriminate]. intros p Hp. apply Hplain. by right.
Qed.

(** X7: a lookup of two or more parts that does not end in a query term and
    only passes through objects that have no [rel] attribute and are no
    reverse relation (a generic foreign key, say; a model field always has
    [rel], and is let through when its [rel] is None) is allowed exactly when
    the lookup itself is one of the field paths of [list_filter] (no
    [related_fkey_lookups] being declared). *)
Theorem plain_lookup_needs_list_filter (self : IndexView.t) (lookup value : string)
    (Hfkey : related_fkey_lookups (opts (IndexView.model_admin self)) = [])
    (Hlen : (2 <= length (PyStr.split_dunder lookup))%nat)
    (Hterm : List.last (PyStr.split_dunder lookup) "" ∉ QUERY_TERMS)
    (Hplain : forall part, part ∈ removelast (PyStr.split_dunder lookup) ->
                get_field_by_name (opts (IndexView.model_admin self)) part
                = Some PlainField) :
  IndexView.lookup_allowed self lookup value
  = IndexView.in_list_filter (IndexView.model_admin self) lookup.
Proof.
  unfold IndexView.lookup_allowed. rewrite Hfkey. simpl existsb. cbv iota.
  unfold IndexView.drop_query_term.
  rewrite (bool_decide_eq_false_2 _ Hterm), andb_false_r.
  rewrite scan_parts_plain; [|assumption|].
  - destruct (length (PyStr.split_dunder lookup) =? 1)%nat eqn:H1.
    + apply Nat.eqb_eq in H1. lia.
    + by rewrite join_split_dunder.
  - destruct (PyStr.split_dunder lookup) as [|a [|b l]]; simpl in *; try lia.
    discriminate.
Qed.

Lemma plain_lookup_needs_list_filter_witness :
  let self := IndexView.init (Fixture.admin false true [])
                (Fixture.request GET Fixture.alice [] []) in
  related_fkey_lookups (opts (IndexView.model_admin self)) = []
  /\ (2 <= length (PyStr.split_dunder "about__kind"))%nat
  /\ get_field_by_name (opts (IndexView.model_admin self)) "about" = Some PlainField
  /\ IndexView.lookup_allowed self "about__kind" "9"
     = IndexView.in_list_filter (IndexView.model_admin self) "about__kind"
  /\ IndexView.lookup_allowed self "about__kind" "9" = false
  /\ IndexView.lookup_allowed self "title__size" "9" = true.
Proof.
  intros self. split; [reflexivity|]. split; [simpl; lia|].
  split; [reflexivity|]. split; [|split; reflexivity].
  apply plain_lookup_needs_list_filter.
  - reflexivity.
  - simpl. lia.
  - unfold QUERY_TERMS. simpl. rewrite !elem_of_cons, elem_of_nil.
    intros H. repeat (destruct H as [H|H]; [discriminate|]). exact H.
  - intros part Hpart. simpl in Hpart. apply list_elem_of_singleton in Hpart as ->.
    reflexivity.
Defined.

(** X8: a lookup on the related field of a relation ([foo__id], or
    [foo__id__exact] and the like) is implied by the relation itself: it is
    allowed whatever [list_filter] holds. *)
Theorem related_id_lookup_allowed (self : IndexView.t) (lookup value : string)
    (first rel_name : string)
    (Hparts : IndexView.drop_query_term (PyStr.split_dunder lookup)
              = [first; rel_name])
    (Hrel : get_field_by_name (opts (IndexView.model_admin self)) first
            = Some (RelTo rel_name)
            \/ get_field_by_name (opts (IndexView.model_admin self)) first
               = Some (ReverseRel rel_name))
    (Hname : rel_name <> "") :
  IndexView.lookup_allowed self lookup value = true.
Proof.
  unfold IndexView.lookup_allowed. destruct (existsb _ _); [reflexivity|].
  rewrite Hparts. simpl.
  destruct Hrel as [-> | ->];
    rewrite (bool_decide_eq_false_2 _ Hname), bool_decide_eq_true_2 by reflexivity;
    reflexivity.
Qed.

Lemma related_id_lookup_allowed_witness :
  let self := IndexView.init (Fixture.admin false true [])
                (Fixture.request GET Fixture.alice [] []) in
  IndexView.drop_query_term (PyStr.split_dunder "author__id__exact") = ["author"; "id"]
  /\ IndexView.lookup_allowed self "author__id__exact" "3" = true
  /\ IndexView.lookup_allowed self "author__id" "3" = true.
Proof.
  intros self. split; [reflexivity|]. split.
  - apply (related_id_lookup_allowed self "author__id__exact" "3" "author" "id");
      [reflexivity|by left|discriminate].
  - apply (related_id_lookup_allowed self "author__id" "3" "author" "id");
      [reflexivity|by left|discriminate].
Defined.

(** ** More on ordering *)

Lemma order_loop_skipped (self : IndexView.t) (ps acc : list string) :
  (forall p, p ∈ ps -> IndexView.order_step self acc p = inr acc) ->
  IndexView.order_loop self acc ps = inr acc.
Proof.
  induction ps as [|p ps IH]; intros Hskip; simpl; [reflexivity|].
  rewrite (Hskip p) by left. simpl. apply IH. intros q Hq. apply Hskip. by right.
Qed.

Lemma order_step_skipped (self : IndexView.t) (acc : list string) (p : string) :
  skipped_piece self p = true -> IndexView.order_step self acc p = inr acc.
Proof.
  unfold skipped_piece, IndexView.order_step.
  destruct (PyStr.rpartition_dash p) as [[h pfx] idx]. simpl.
  destruct (PyStr.int idx) as [i|]; [|reflexivity].
  destruct (py_getitem _ i) as [column|]; [|reflexivity].
  destruct (IndexView.get_ordering_field self column) as [e|[[|c f]|]];
    try discriminate; reflexivity.
Qed.

Lemma order_loop_app (self : IndexView.t) (acc l1 l2 : list string) :
  IndexView.order_loop self acc (l1 ++ l2)
  = match IndexView.order_loop self acc l1 with
    | inr acc' => IndexView.order_loop self acc' l2
    | inl e => inl e
    end.
Proof.
  revert acc. induction l1 as [|p l1 IH]; intros acc; simpl; [reflexivity|].
  destruct (IndexView.order_step self acc p) as [e|acc']; simpl; [reflexivity|apply IH].
Qed.

Lemma order_loop_used (self : IndexView.t) (acc ps : list string) :
  IndexView.order_loop self acc ps
  = IndexView.order_loop self acc
      (List.filter (fun p => negb (skipped_piece self p)) ps).
Proof.
  revert acc. induction ps as [|p ps IH]; intros acc; simpl; [reflexivity|].
  destruct (skipped_piece self p) eqn:Hp; simpl.
  - rewrite (order_step_skipped self acc p Hp). simpl. apply IH.
  - destruct (IndexView.order_step self acc p) as [e|acc']; simpl;
      [reflexivity|apply IH].
Qed.

(** What a piece adds does not depend on what is already there, and what is
    already there stays. *)
Lemma order_step_acc (self : IndexView.t) (acc : list string) (p : string) :
  IndexView.order_step self acc p
  = match IndexView.order_step self [] p with
    | inr r => inr (acc ++ r)
    | inl e => inl e
    end.
Proof.
  unfold IndexView.order_step.
  destruct (PyStr.rpartition_dash p) as [[h pfx] idx].
  destruct (PyStr.int idx) as [i|]; [|by rewrite app_nil_r].
  destruct (py_getitem _ i) as [column|]; [|by rewrite app_nil_r].
  destruct (IndexView.get_ordering_field self column) as [e|[[|c f]|]]; simpl;
    try (by rewrite app_nil_r); [reflexivity|].
  by destruct (_ && _).
Qed.

Lemma order_loop_acc (self : IndexView.t) (acc ps : list string) :
  IndexView.order_loop self acc ps
  = match IndexView.order_loop self [] ps with
    | inr r => inr (acc ++ r)
    | inl e => inl e
    end.
Proof.
  revert acc. induction ps as [|p ps IH]; intros acc; simpl;
    [by rewrite app_nil_r|].
  rewrite (order_step_acc self acc p).
  destruct (IndexView.order_step self [] p) as [e|r]; simpl; [reflexivity|].
  rewrite (IH (acc ++ r)), (IH r).
  destruct (IndexView.order_loop self [] ps) as [e|r']; [reflexivity|].
  by rewrite app_assoc.
Qed.

(** X9: the pieces of [o] that do not end in an integer, whose integer is no
    index of [list_display], or whose column has no ordering field, are
    skipped wherever they stand: the ordering is the one the remaining pieces
    give, a piece never removing what the pieces before it gave.  Once [o] is
    given the default ordering is not used, even when every piece is skipped:
    the ordering is then the queryset's own, followed by '-pk' if it does not
    name the primary key. *)
Theorem order_pieces_skipped (self : IndexView.t) (queryset : QuerySet) (o : string)
    (Ho : IndexView.params self !! ORDER_VAR = Some o) :
  let pieces := PyStr.split_char "." o in
  let used := List.filter (fun p => negb (skipped_piece self p)) pieces in
  let pkn := pk_name (opts (IndexView.model_admin self)) in
  (forall acc before p after,
     skipped_piece self p = true ->
     IndexView.order_loop self acc (before ++ p :: after)
     = IndexView.order_loop self acc (before ++ after))
  /\ (forall acc ps,
        IndexView.order_loop self acc ps
        = match IndexView.order_loop self [] ps with
          | inr r => inr (acc ++ r)
          | inl e => inl e
          end)
  /\ chosen_ordering self = IndexView.order_loop self [] used
  /\ IndexView.get_ordering self queryset
     = match IndexView.order_loop self [] used with
       | inr chosen =>
           let combined := chosen ++ query_order_by queryset in
           inr (if IndexView.names_pk pkn combined then combined
                else combined ++ ["-pk"])
       | inl e => inl e
       end
  /\ ((forall p, p ∈ pieces ->
         let idx := (PyStr.rpartition_dash p).2 in
         PyStr.int idx = None
         \/ exists i, PyStr.int idx = Some i
              /\ (py_getitem (list_display (IndexView.model_admin self)) i = None
                  \/ exists column,
                       py_getitem (list_display (IndexView.model_admin self)) i
                       = Some column
                       /\ (IndexView.get_ordering_field self column = inr None
                           \/ IndexView.get_ordering_field self column
                              = inr (Some "")))) ->
      IndexView.get_ordering self queryset
      = inr (if IndexView.names_pk pkn (query_order_by queryset)
             then query_order_by queryset
             else query_order_by queryset ++ ["-pk"])).
Proof.
  intros pieces used pkn. split; [|split; [|split; [|split]]].
  - intros acc before p after Hp. rewrite !order_loop_app.
    destruct (IndexView.order_loop self acc before) as [e|acc']; [reflexivity|].
    simpl. by rewrite (order_step_skipped self acc' p Hp).
  - apply order_loop_acc.
  - unfold chosen_ordering. rewrite Ho. apply order_loop_used.
  - unfold IndexView.get_ordering. rewrite Ho. fold pieces.
    rewrite (order_loop_used self [] pieces). fold used.
    destruct (IndexView.order_loop self [] used) as [e|chosen]; simpl; [reflexivity|].
    fold pkn. by destruct (IndexView.names_pk pkn _).
  - intros Hskip. unfold IndexView.get_ordering. rewrite Ho. fold pieces.
    rewrite order_loop_skipped; [simpl; fold pkn; by destruct (IndexView.names_pk _ _)|].
    intros p Hp. specialize (Hskip p Hp). unfold IndexView.order_step.
    destruct (PyStr.rpartition_dash p) as [[h pfx] idx]. simpl in Hskip.
    destruct Hskip as [->|(i & -> & [->|(column & -> & [->| ->])])]; reflexivity.
Qed.

Lemma order_pieces_skipped_witness :
  let self := IndexView.init (Fixture.admin false true [])
                (Fixture.request GET Fixture.alice [("o", "x.0.9.-1.2-")] []) in
  IndexView.params self !! ORDER_VAR = Some "x.0.9.-1.2-"
  /\ List.filter (fun p => negb (skipped_piece self p))
       (PyStr.split_char "." "x.0.9.-1.2-") = ["0"; "-1"]
  /\ IndexView.order_loop self ["id"] ["0"; "9"; "-1"]
     = IndexView.order_loop self ["id"] ["0"; "-1"]
  /\ IndexView.get_ordering self (Base [] false) = inr ["title"; "-author"; "-pk"].
Proof.
  intros self.
  pose proof (order_pieces_skipped self (Base [] false) "x.0.9.-1.2-" eq_refl)
    as (Hdrop & _ & _ & Hget & _).
  split; [reflexivity|]. split; [reflexivity|]. split.
  - exact (Hdrop ["id"] ["0"] "9" ["-1"] eq_refl).
  - exact (eq_trans Hget eq_refl).
Defined.

(** X10: a dash before the index of a column reverses the direction the
    column would be ordered in without it: an ordering field loses its
    leading dash if it has one and gains one otherwise. *)
Theorem dash_reverses_column (self : IndexView.t) (acc : list string)
    (idx : string) (i : Z) (column : Column) (f : string)
    (Hnodash : PyStr.rfind_dash idx = None)
    (Hint : PyStr.int idx = Some i)
    (Hcol : py_getitem (list_display (IndexView.model_admin self)) i = Some column)
    (Hfield : IndexView.get_ordering_field self column = inr (Some f))
    (Hf : f <> "") :
  IndexView.order_step self acc idx = inr (acc ++ [f])
  /\ IndexView.order_step self acc ("-" +:+ idx) = inr (acc ++ [reverse_order f]).
Proof.
  unfold IndexView.order_step, PyStr.rpartition_dash.
  change (PyStr.rfind_dash ("-" +:+ idx))
    with (match PyStr.rfind_dash idx with
          | Some (h, t) => Some (String "-" h, t)
          | None => Some ("", idx)
          end).
  rewrite Hnodash, Hint, Hcol, Hfield. simpl.
  destruct f as [|c f]; [congruence|].
  rewrite andb_false_r. split; [reflexivity|].
  unfold reverse_order. rewrite andb_true_r.
  by destruct (PyStr.startswith "-" (String c f)).
Qed.

Lemma dash_reverses_column_witness :
  let self := IndexView.init (Fixture.admin false true [])
                (Fixture.request GET Fixture.alice [] []) in
  PyStr.rfind_dash "1" = None
  /\ IndexView.order_step self ["title"] "1" = inr ["title"; "author"]
  /\ IndexView.order_step self ["title"] "-1" = inr ["title"; "-author"].
Proof.
  intros self. split; [reflexivity|].
  exact (dash_reverses_column self ["title"] "1" 1 (ColName "author") "author"
           eq_refl eq_refl eq_refl eq_refl ltac:(discriminate)).
Defined.

Lemma od_set_keys (k : Z) (v : string) (od : list (Z * string)) :
  (IndexView.od_set k v od).*1 = if bool_decide (k ∈ od.*1) then od.*1 else od.*1 ++ [k].
Proof.
  unfold IndexView.od_set.
  assert (Hex : existsb (fun kv => (kv.1 =? k)%Z) od = bool_decide (k ∈ od.*1)).
  { induction od as [|[k' v'] od IH]; [reflexivity|].
    cbn [existsb]. rewrite IH, fmap_cons. cbn [fst].
    destruct (k' =? k)%Z eqn:Hk.
    - apply Z.eqb_eq in Hk as ->.
      by rewrite (bool_decide_eq_true_2 (k ∈ k :: od.*1)) by left.
    - apply Z.eqb_neq in Hk. cbn [orb]. apply bool_decide_ext.
      rewrite elem_of_cons. intuition congruence. }
  rewrite Hex. clear Hex. destruct (bool_decide _); [|by rewrite fmap_app].
  induction od as [|[k' v'] od IH]; [reflexivity|].
  cbn [map]. rewrite !fmap_cons, IH. f_equal. cbn [fst].
  destruct (k' =? k)%Z eqn:Hk; [|reflexivity].
  apply Z.eqb_eq in Hk as ->. reflexivity.
Qed.

Lemma od_set_NoDup (k : Z) (v : string) (od : list (Z * string)) :
  NoDup od.*1 -> NoDup (IndexView.od_set k v od).*1.
Proof.
  intros Hnd. rewrite od_set_keys. case_bool_decide as Hk; [assumption|].
  apply NoDup_app. split; [assumption|]. split; [|apply NoDup_singleton].
  intros x Hx Hx'. apply list_elem_of_singleton in Hx' as ->. contradiction.
Qed.

Lemma od_set_marks (k : Z) (v : string) (od : list (Z * string)) (P : string -> Prop) :
  P v -> (forall kv, kv ∈ od -> P kv.2) ->
  forall kv, kv ∈ IndexView.od_set k v od -> P kv.2.
Proof.
  intros Hv Hod kv. unfold IndexView.od_set. destruct (existsb _ _).
  - intros Hin. apply list_elem_of_fmap in Hin as (kv' & -> & Hin').
    destruct (kv'.1 =? k)%Z; [exact Hv|by apply Hod].
  - intros Hin. apply elem_of_app in Hin as [Hin|Hin]; [by apply Hod|].
    apply list_elem_of_singleton in Hin as ->. exact Hv.
Qed.

Lemma guess_columns_inv (self : IndexView.t) (fields : list string)
    (acc cols : list (Z * string)) (P : list (Z * string) -> Prop) :
  (forall k v od, (v = "asc" \/ v = "desc") -> P od -> P (IndexView.od_set k v od)) ->
  P acc ->
  IndexView.guess_columns self fields acc = inr cols -> P cols.
Proof.
  intros Hstep. revert acc. induction fields as [|field rest IH]; intros acc Hacc; simpl.
  - by intros [= <-].
  - destruct (PyStr.startswith "-" field);
      (match goal with |- mbind _ ?m = _ -> _ => destruct m as [e|[index|]] end);
      simpl; try discriminate; apply IH; auto.
Qed.

Lemma column_steps_inv (ps : list string) (acc : list (Z * string))
    (P : list (Z * string) -> Prop) :
  (forall k v od, (v = "asc" \/ v = "desc") -> P od -> P (IndexView.od_set k v od)) ->
  P acc -> P (fold_left IndexView.column_step ps acc).
Proof.
  intros Hstep. revert acc. induction ps as [|p ps IH]; intros acc Hacc; simpl;
    [assumption|].
  apply IH. unfold IndexView.column_step.
  destruct (PyStr.rpartition_dash p) as [[h pfx] idx].
  destruct (PyStr.int idx); [|assumption].
  apply Hstep; [|assumption]. destruct (bool_decide _); auto.
Qed.

(** X11: the column marks returned by [get_ordering_field_columns] name each
    column number at most once, and every mark is 'asc' or 'desc'. *)
Theorem ordering_field_columns_inv (self : IndexView.t) (cols : list (Z * string))
    (Hok : IndexView.get_ordering_field_columns self = inr cols) :
  NoDup cols.*1 /\ forall kv, kv ∈ cols -> kv.2 = "asc" \/ kv.2 = "desc".
Proof.
  set (P := fun od : list (Z * string) =>
              NoDup od.*1 /\ forall kv, kv ∈ od -> kv.2 = "asc" \/ kv.2 = "desc").
  assert (Hstep : forall k v od, (v = "asc" \/ v = "desc") -> P od ->
                                 P (IndexView.od_set k v od)).
  { intros k v od Hv [Hnd Hm]. split; [by apply od_set_NoDup|].
    exact (od_set_marks k v od (fun d => d = "asc" \/ d = "desc") Hv Hm). }
  assert (Hnil : P []).
  { split; [apply NoDup_nil_2|]. intros kv Hkv. by apply elem_of_nil in Hkv. }
  unfold IndexView.get_ordering_field_columns in Hok.
  destruct (IndexView.params self !! ORDER_VAR) as [o|].
  - injection Hok as <-. by apply column_steps_inv.
  - exact (guess_columns_inv self _ [] cols P Hstep Hnil Hok).
Qed.

Lemma ordering_field_columns_inv_witness :
  let self := IndexView.init (Fixture.admin false true [])
                (Fixture.request GET Fixture.alice [("o", "1.-0.-1")] []) in
  IndexView.get_ordering_field_columns self = inr [(1%Z, "desc"); (0%Z, "desc")]
  /\ NoDup [(1%Z, "desc"); (0%Z, "desc")].*1.
Proof.
  intros self.
  assert (Hok : IndexView.get_ordering_field_columns self
                = inr [(1%Z, "desc"); (0%Z, "desc")]) by reflexivity.
  split; [exact Hok|]. exact (proj1 (ordering_field_columns_inv self _ Hok)).
Defined.

(** ** The queryset as a whole *)

Lemma get_ordering_pk (self : IndexView.t) (queryset : QuerySet) (ordering : list string) :
  IndexView.get_ordering self queryset = inr ordering ->
  IndexView.names_pk (pk_name (opts (IndexView.model_admin self))) ordering = true.
Proof.
  unfold IndexView.get_ordering.
  match goal with |- mbind _ ?m = _ -> _ => destruct m as [e|chosen] end;
    simpl; [discriminate|].
  destruct (IndexView.names_pk _ (chosen ++ _)) eqn:Hpk; intros [= <-];
    [exact Hpk|].
  apply names_pk_spec. exists "-pk". split; [|unfold is_pk_field; tauto].
  apply elem_of_app. right. by apply list_elem_of_singleton.
Qed.

Lemma get_ordering_error (self : IndexView.t) (queryset : QuerySet) (e : exn) :
  IndexView.get_ordering self queryset = inl e -> exists name, e = AttributeError name.
Proof.
  unfold IndexView.get_ordering.
  destruct (IndexView.params self !! ORDER_VAR) as [o|]; simpl.
  - destruct (IndexView.order_loop self [] _) as [err|chosen] eqn:Hloop; simpl.
    + intros [= <-]. apply order_loop_error in Hloop as (name & -> & _). eauto.
    + destruct (IndexView.names_pk _ _); discriminate.
  - destruct (IndexView.names_pk _ _); discriminate.
Qed.

Lemma order_by_filtered (lookups bits : list string) (qs : QuerySet) :
  query_order_by (filtered_by lookups bits qs) = query_order_by qs.
Proof.
  unfold filtered_by. revert qs.
  induction bits as [|bit bits IH]; intros qs; simpl; [reflexivity|].
  rewrite IH. by destruct (IndexView.reduce_or _).
Qed.

Lemma get_search_results_order (dj : Django) (self : IndexView.t) (qs qs' : QuerySet)
    (term : string) (flag : bool) :
  IndexView.get_search_results dj self qs term = inr (qs', flag) ->
  query_order_by qs' = query_order_by qs.
Proof. intros H. apply get_search_results_ok in H as ->. apply order_by_filtered. Qed.

(** The steps of [get_queryset], once it has returned. *)
Lemma get_queryset_steps (dj : Django) (self : IndexView.t) (qs : QuerySet) :
  IndexView.get_queryset dj self = inr qs ->
  exists specs has_filters remaining fd inner ordering searched sd,
    IndexView.get_filters dj self = inr (specs, has_filters, remaining, fd)
    /\ IndexView.get_ordering self inner = inr ordering
    /\ IndexView.get_search_results dj self (OrderBy ordering inner)
         (IndexView.query self)
       = inr (searched, sd)
    /\ qs = (if fd || sd then Distinct searched else searched).
Proof.
  unfold IndexView.get_queryset.
  destruct (IndexView.get_filters dj self) as [e|[[[specs hf] remaining] fd]];
    [discriminate|]. simpl.
  destruct (filter_error dj remaining) as [err|]; simpl;
    [destruct err; discriminate|].
  match goal with
  | |- context [IndexView.get_ordering self ?q] =>
      set (inner := q); destruct (IndexView.get_ordering self inner)
        as [e|ordering] eqn:Hord
  end; simpl; [discriminate|].
  destruct (IndexView.get_search_results dj self _ _) as [e|[searched sd]] eqn:Hs;
    simpl; [discriminate|].
  intros Hqs. exists specs, hf, remaining, fd, inner, ordering, searched, sd.
  repeat split; try assumption. by destruct (fd || sd); injection Hqs as <-.
Qed.

(** X12: whenever [get_queryset] returns, the queryset it returns is ordered
    by a list of fields that names the primary key, whatever filters, search
    and [distinct()] were applied on the way. *)
Theorem get_queryset_ordered_by_pk (dj : Django) (self : IndexView.t) (qs : QuerySet)
    (Hok : IndexView.get_queryset dj self = inr qs) :
  exists f, f ∈ query_order_by qs
            /\ is_pk_field (pk_name (opts (IndexView.model_admin self))) f.
Proof.
  apply get_queryset_steps in Hok
    as (specs & hf & remaining & fd & inner & ordering & searched & sd
        & _ & Hord & Hsearch & ->).
  apply names_pk_spec.
  apply get_ordering_pk in Hord. apply get_search_results_order in Hsearch.
  simpl in Hsearch. by destruct (fd || sd); simpl; rewrite Hsearch.
Qed.

Lemma get_queryset_ordered_by_pk_witness :
  let self := IndexView.init (Fixture.admin false true [])
                (Fixture.request GET Fixture.alice [("q", "du"); ("o", "0")] []) in
  exists qs, IndexView.get_queryset Fixture.django self = inr qs
             /\ exists f, f ∈ query_order_by qs /\ is_pk_field "id" f.
Proof.
  intros self.
  destruct (IndexView.get_queryset Fixture.django self) as [e|qs] eqn:Hq.
  - vm_compute in Hq. discriminate.
  - exists qs. split; [reflexivity|].
    exact (get_queryset_ordered_by_pk Fixture.django self qs Hq).
Defined.

(** Whether the search raises, and what, does not depend on the queryset it
    is given. *)
Lemma filter_bits_error_any (dj : Django) (lookups bits : list string)
    (qs qs' : QuerySet) (e : exn) :
  IndexView.filter_bits dj lookups qs bits = inl e ->
  IndexView.filter_bits dj lookups qs' bits = inl e.
Proof.
  revert qs qs'. induction bits as [|bit bits IH]; intros qs qs'; simpl;
    [discriminate|].
  unfold IndexView.filter_bit. destruct (IndexView.reduce_or _) as [q|]; simpl.
  - destruct (q_error dj q); simpl; [by intros [= <-]|apply IH].
  - apply IH.
Qed.

Lemma filter_bits_ok_any (dj : Django) (lookups bits : list string)
    (qs qs' qs1 : QuerySet) :
  IndexView.filter_bits dj lookups qs bits = inr qs1 ->
  exists qs1', IndexView.filter_bits dj lookups qs' bits = inr qs1'.
Proof.
  intros H. destruct (IndexView.filter_bits dj lookups qs' bits) as [e|qs1'] eqn:H';
    [|eauto].
  apply (filter_bits_error_any dj lookups bits qs' qs) in H'. congruence.
Qed.

Lemma get_search_results_error_any (dj : Django) (self : IndexView.t)
    (qs qs' : QuerySet) (term : string) (e : exn) :
  IndexView.get_search_results dj self qs term = inl e ->
  IndexView.get_search_results dj self qs' term = inl e.
Proof.
  unfold IndexView.get_search_results. destruct (_ && _); [|discriminate].
  destruct (IndexView.filter_bits dj _ qs _) as [e1|qs1] eqn:Hbits; simpl.
  - intros [= <-]. by rewrite (filter_bits_error_any _ _ _ _ qs' _ Hbits).
  - destruct (filter_bits_ok_any _ _ _ _ qs' _ Hbits) as [qs1' ->]. simpl.
    by destruct (IndexView.any_needs_distinct _ _).
Qed.

Lemma get_ordering_total (self : IndexView.t) (queryset : QuerySet)
    (chosen : list string) :
  chosen_ordering self = inr chosen ->
  exists ordering, IndexView.get_ordering self queryset = inr ordering.
Proof.
  unfold chosen_ordering, IndexView.get_ordering.
  destruct (IndexView.params self !! ORDER_VAR) as [o|]; intros ->; simpl;
    destruct (IndexView.names_pk _ _); eauto.
Qed.

(** X13: the error [get_queryset] ends in is DisallowedModelAdminLookup,
    IncorrectLookupParameters, SuspiciousOperation, ImproperlyConfigured,
    AttributeError (an unresolvable [list_display] name), FieldDoesNotExist
    (a search field that is no field of the model), or whatever [filter()]
    raised for a lookup made of a search field and a bit of the term.  Of
    the errors of filtering on the remaining lookup parameters,
    SuspiciousOperation and ImproperlyConfigured pass as they are and every
    other one comes out as IncorrectLookupParameters; an error of the search
    filter is not converted.  (The list-filter classes are taken not to
    raise.) *)
Theorem get_queryset_errors (dj : Django) (self : IndexView.t) :
  let ma := IndexView.model_admin self in
  (forall e, IndexView.get_queryset dj self = inl e ->
     (exists msg, e = DisallowedModelAdminLookup msg)
     \/ e = IncorrectLookupParameters \/ e = SuspiciousOperation
     \/ e = ImproperlyConfigured \/ (exists name, e = AttributeError name)
     \/ e = FieldDoesNotExist
     \/ (exists f bit, f ∈ search_fields ma /\ bit ∈ PyStr.split_ws (IndexView.query self)
           /\ lookup_error dj (IndexView.construct_search f) bit = Some e))
  /\ (forall specs has_filters remaining distinct err,
        IndexView.get_filters dj self = inr (specs, has_filters, remaining, distinct) ->
        filter_error dj remaining = Some err ->
        IndexView.get_queryset dj self
        = inl (match err with
               | SuspiciousOperation => SuspiciousOperation
               | ImproperlyConfigured => ImproperlyConfigured
               | _ => IncorrectLookupParameters
               end))
  /\ (forall specs has_filters remaining distinct chosen qs e,
        IndexView.get_filters dj self = inr (specs, has_filters, remaining, distinct) ->
        filter_error dj remaining = None ->
        chosen_ordering self = inr chosen ->
        IndexView.get_search_results dj self qs (IndexView.query self) = inl e ->
        IndexView.get_queryset dj self = inl e).
Proof.
  intros ma. split; [|split].
  - intros e Herr. unfold IndexView.get_queryset in Herr.
    destruct (IndexView.get_filters dj self) as [e0|[[[specs hf] remaining] fd]] eqn:Hf.
    + simpl in Herr. injection Herr as <-. unfold IndexView.get_filters in Hf.
      destruct (List.find _ _) as [[k v]|]; [injection Hf as <-; eauto|].
      destruct (IndexView.build_specs _ _ _) as [[specs0 lp] ud].
      destruct (IndexView.prepare_remaining _ _ _ _ _) as [e1|[lp' ud']] eqn:Hp;
        [|discriminate].
      simpl in Hf. injection Hf as <-. apply prepare_remaining_error in Hp. auto.
    + simpl in Herr. destruct (filter_error dj remaining) as [err|]; simpl in Herr.
      * destruct err; injection Herr as <-; auto.
      * match type of Herr with
        | context [IndexView.get_ordering self ?q] =>
            destruct (IndexView.get_ordering self q) as [e1|ordering] eqn:Hord
        end; simpl in Herr.
        -- injection Herr as <-. apply get_ordering_error in Hord. auto 6.
        -- destruct (IndexView.get_search_results dj self _ _)
             as [e2|[searched sd]] eqn:Hs;
             simpl in Herr; [|destruct (fd || sd); discriminate].
           injection Herr as <-. unfold IndexView.get_search_results in Hs.
           destruct (_ && _); [|discriminate].
           destruct (IndexView.filter_bits dj _ _ _) as [e3|qs3] eqn:Hbits;
             simpl in Hs.
           ++ injection Hs as <-.
              apply filter_bits_error in Hbits as (l & bit & Hl & Hbit & Hle).
              apply list_elem_of_fmap in Hl as (f & -> & Hf').
              do 6 right. eauto.
           ++ destruct (IndexView.any_needs_distinct _ _) as [e4|d] eqn:Hany;
                [|discriminate].
              simpl in Hs. injection Hs as <-.
              apply any_needs_distinct_error in Hany as [-> _]. auto 7.
  - intros specs hf remaining fd err Hf Herr. unfold IndexView.get_queryset.
    rewrite Hf. simpl. rewrite Herr. by destruct err.
  - intros specs hf remaining fd chosen qs e Hf Hnone Hchosen Hsearch.
    unfold IndexView.get_queryset. rewrite Hf. simpl. rewrite Hnone. simpl.
    match goal with
    | |- context [IndexView.get_ordering self ?q] =>
        destruct (get_ordering_total self q chosen Hchosen) as [ordering ->]
    end.
    simpl.
    match goal with
    | |- context [IndexView.get_search_results dj self ?q _] =>
        rewrite (get_search_results_error_any dj self qs q _ e Hsearch)
    end.
    reflexivity.
Qed.

Lemma get_queryset_errors_witness :
  let ma := with_search_on Fixture.book_opts ["publisher"] (Fixture.admin false true []) in
  let searching := IndexView.init ma (Fixture.request GET Fixture.alice [("q", "x")] []) in
  let filtering := IndexView.init ma
                     (Fixture.request GET Fixture.alice [("title__size", "3")] []) in
  lookup_error Fixture.django "publisher__icontains" "x" = Some FieldError
  /\ IndexView.get_queryset Fixture.django searching = inl FieldError
  /\ filter_error Fixture.django {[ "title__size" := "3" ]} = Some FieldError
  /\ IndexView.get_queryset Fixture.django filtering = inl IncorrectLookupParameters.
Proof.
  intros ma searching filtering.
  split; [reflexivity|]. split; [|split; [reflexivity|]].
  - refine (proj2 (proj2 (get_queryset_errors Fixture.django searching))
              [] false ∅ false [] (Base [] false) FieldError _ _ _ _);
      vm_compute; reflexivity.
  - refine (proj1 (proj2 (get_queryset_errors Fixture.django filtering))
              [] false {[ "title__size" := "3" ]} false FieldError _ _);
      vm_compute; reflexivity.
Defined.

(** ** Pages *)

Lemma take_add {A} (a b : nat) (l : list A) :
  take (a + b) l = take a l ++ take b (drop a l).
Proof.
  revert l. induction a as [|a IH]; intros l; [reflexivity|].
  destruct l as [|x l]; simpl; [by rewrite take_nil|]. by rewrite IH.
Qed.

Lemma concat_pages {A} (p N : nat) (l : list A) :
  concat (map (fun k => take p (drop (k * p) l)) (seq 0 N)) = take (N * p) l.
Proof.
  induction N as [|N IH]; [reflexivity|].
  rewrite seq_S, map_app, concat_app, IH. simpl.
  rewrite app_nil_r, (Nat.add_comm p (N * p)). by rewrite take_add.
Qed.

Lemma shown_in_range (result : list Instance) (p k : nat) :
  (0 < p)%nat ->
  (k * p < Nat.max 1 (length result))%nat ->
  shown_objects result (Z.of_nat p) (Z.of_nat k) = take p (drop (k * p) result).
Proof.
  intros Hp Hk. unfold shown_objects, IndexView.page_obj.
  rewrite page_in_range_found.
  - unfold page_of. simpl. rewrite Nat2Z.id. do 2 f_equal.
    replace (Z.of_nat k + 1 - 1)%Z with (Z.of_nat k) by lia.
    by rewrite <- Nat2Z.inj_mul, Nat2Z.id.
  - lia.
  - unfold page_in_range. split; [lia|].
    replace (Z.of_nat k + 1 - 1)%Z with (Z.of_nat k) by lia.
    rewrite <- Nat2Z.inj_mul. lia.
Qed.

(** X15: with a positive page size, the pages shown for the page numbers
    0, 1, ... up to the last page that has objects, put one after the other,
    are exactly the result list: no object is lost or shown twice; and
    whatever [p] is, the page shown never holds more than a page's worth. *)
Theorem pages_partition_result (result : list Instance) (p N : nat)
    (Hp : (0 < p)%nat)
    (Hlast : ((N - 1) * p < Nat.max 1 (length result))%nat)
    (Hall : (length result <= N * p)%nat) :
  concat (map (fun k => shown_objects result (Z.of_nat p) (Z.of_nat k)) (seq 0 N))
  = result
  /\ forall page_num,
       (length (shown_objects result (Z.of_nat p) page_num) <= p)%nat.
Proof.
  split.
  - transitivity (take (N * p) result); [|by apply take_ge].
    rewrite <- concat_pages. f_equal. apply map_ext_in. intros k Hk.
    apply in_seq in Hk. apply shown_in_range; [assumption|].
    eapply Nat.le_lt_trans; [|exact Hlast].
    apply Nat.mul_le_mono_r. lia.
  - intros page_num. unfold shown_objects.
    destruct (page_obj_total result (Z.of_nat p) page_num ltac:(lia)) as [pg Hpg].
    rewrite Hpg. unfold IndexView.page_obj in Hpg.
    assert (Hpage : forall n pg',
              Paginator.page {| Paginator.object_list := result;
                                Paginator.per_page := Z.of_nat p |} n
              = inr (Some pg') -> (length pg'.2 <= p)%nat).
    { intros n pg' Hn.
      destruct (page_in_range_dec result (Z.of_nat p) n) as [Hin|Hout].
      - rewrite page_in_range_found in Hn by (lia || assumption).
        injection Hn as <-. unfold page_of. simpl.
        rewrite length_take, Nat2Z.id. lia.
      - rewrite page_out_of_range in Hn by (lia || assumption). discriminate. }
    destruct (Paginator.page _ (page_num + 1)) as [e|[pg1|]] eqn:H1.
    + discriminate.
    + injection Hpg as <-. by apply (Hpage (page_num + 1)%Z).
    + destruct (Paginator.page _ 1) as [e|[pg1|]] eqn:H2; try discriminate.
      injection Hpg as <-. by apply (Hpage 1%Z).
Qed.

Lemma pages_partition_result_witness :
  (0 < 2)%nat
  /\ ((2 - 1) * 2 < Nat.max 1 (length Fixture.shelf))%nat
  /\ (length Fixture.shelf <= 2 * 2)%nat
  /\ shown_objects Fixture.shelf 2 0 ++ shown_objects Fixture.shelf 2 1
     = Fixture.shelf.
Proof.
  split; [lia|]. split; [simpl; lia|]. split; [simpl; lia|].
  exact (proj1 (pages_partition_result Fixture.shelf 2 2 ltac:(lia)
                  ltac:(simpl; lia) ltac:(simpl; lia))).
Defined.

(** ** More on search *)

(** X16: a search term made of whitespace only filters nothing, but it is
    not treated as an empty term: the search fields are still examined for
    many-to-many lookups, so the duplicates flag can come back True (and a
    search field that is no model field still raises FieldDoesNotExist). *)
Theorem blank_search_term (dj : Django) (self : IndexView.t) (queryset : QuerySet)
    (term : string)
    (Hfields : search_fields (IndexView.model_admin self) <> [])
    (Hterm : term <> "")
    (Hblank : PyStr.split_ws term = []) :
  IndexView.get_search_results dj self queryset term
  = match IndexView.any_needs_distinct (opts (IndexView.model_admin self))
            (map IndexView.construct_search
                 (search_fields (IndexView.model_admin self))) with
    | inr use_distinct => inr (queryset, use_distinct)
    | inl e => inl e
    end.
Proof.
  unfold IndexView.get_search_results.
  rewrite (bool_decide_eq_false_2 _ Hfields), (bool_decide_eq_false_2 _ Hterm).
  rewrite Hblank. simpl. by destruct (IndexView.any_needs_distinct _ _).
Qed.

Lemma blank_search_term_witness :
  let self := IndexView.init Fixture.tagged_admin
                (Fixture.request GET Fixture.alice [("q", "  ")] []) in
  search_fields (IndexView.model_admin self) <> []
  /\ "  " <> ""
  /\ PyStr.split_ws "  " = []
  /\ IndexView.get_search_results Fixture.django self (Base [] false) "  "
     = inr (Base [] false, true)
  /\ IndexView.get_search_results Fixture.django self (Base [] false) ""
     = inr (Base [] false, false).
Proof.
  intros self. split; [discriminate|]. split; [discriminate|].
  split; [reflexivity|]. split; [|reflexivity].
  exact (blank_search_term Fixture.django self (Base [] false) "  "
           ltac:(discriminate) ltac:(discriminate) eq_refl).
Defined.

(** X17: searching does not depend on the order of the words of the term,
    nor on the whitespace between them: two terms with the same words, in any
    order, select the same rows. *)
Theorem search_word_order (dj : Django) (self : IndexView.t)
    (queryset q1 q2 : QuerySet) (t1 t2 : string) (f1 f2 : bool)
    (Hwords : PyStr.split_ws t1 ≡ₚ PyStr.split_ws t2)
    (H1 : IndexView.get_search_results dj self queryset t1 = inr (q1, f1))
    (H2 : IndexView.get_search_results dj self queryset t2 = inr (q2, f2)) :
  forall dj' tbl, rows dj' tbl q1 = rows dj' tbl q2.
Proof.
  intros dj' tbl.
  apply get_search_results_ok in H1 as ->. apply get_search_results_ok in H2 as ->.
  rewrite !rows_filtered_by. apply flat_map_pointwise. intros i.
  destruct (bool_decide _); [reflexivity|].
  by rewrite (term_copies_Permutation dj' _ _ _ i Hwords).
Qed.

Lemma search_word_order_witness :
  let self := IndexView.init (Fixture.admin false true [])
                (Fixture.request GET Fixture.alice [] []) in
  PyStr.split_ws "frank  herbert" ≡ₚ PyStr.split_ws " herbert frank"
  /\ exists q1 q2 f1 f2,
       IndexView.get_search_results Fixture.django self (Base [] false)
         "frank  herbert"
       = inr (q1, f1)
       /\ IndexView.get_search_results Fixture.django self (Base [] false)
            " herbert frank"
          = inr (q2, f2)
       /\ q1 <> q2
       /\ forall dj tbl, rows dj tbl q1 = rows dj tbl q2.
Proof.
  intros self.
  assert (Hp : PyStr.split_ws "frank  herbert" ≡ₚ PyStr.split_ws " herbert frank").
  { change (["frank"; "herbert"] ≡ₚ ["herbert"; "frank"]). apply perm_swap. }
  split; [exact Hp|].
  destruct (IndexView.get_search_results Fixture.django self (Base [] false)
              "frank  herbert")
    as [e|[q1 f1]] eqn:H1; [vm_compute in H1; discriminate|].
  destruct (IndexView.get_search_results Fixture.django self (Base [] false)
              " herbert frank")
    as [e|[q2 f2]] eqn:H2; [vm_compute in H2; discriminate|].
  exists q1, q2, f1, f2. split; [reflexivity|]. split; [reflexivity|]. split.
  - vm_compute in H1, H2. injection H1 as <- _. injection H2 as <- _. discriminate.
  - exact (search_word_order Fixture.django self (Base [] false) q1 q2 _ _ f1 f2
             Hp H1 H2).
Defined.

(** ** Constructing an object view *)

Lemma filter_unique_pk (l : list Instance) (i : Instance) :
  NoDup (pk <$> l) -> i ∈ l ->
  List.filter (fun j => bool_decide (pk j = pk i)) l = [i].
Proof.
  induction l as [|x l IH]; intros Hnd Hin; [by apply elem_of_nil in Hin|].
  rewrite fmap_cons in Hnd. apply NoDup_cons in Hnd as [Hx Hnd].
  apply elem_of_cons in Hin as [->|Hin]; simpl.
  - rewrite bool_decide_eq_true_2 by reflexivity. f_equal.
    apply filter_none. intros j Hj. apply bool_decide_eq_false. intros Hpk.
    apply Hx. rewrite <- Hpk. apply list_elem_of_fmap. eauto.
  - rewrite bool_decide_eq_false_2; [by apply IH|].
    intros Hpk. apply Hx. rewrite Hpk. apply list_elem_of_fmap. eauto.
Qed.

(** X18: when an object view is constructed, the world is untouched, the
    view holds the object id as given and its quoted form, and its instance
    is a row of the table whose primary key is what the key field makes of
    the quoted id.  The edit and delete URLs the view builds carry the quoted
    id, not the key of the instance: the edit URL is the one built from the
    instance's own key only when the two are the same text. *)
Theorem init_spec (ma : ModelAdmin) (object_id : string) (w w' : World)
    (self : ObjectSpecificView.t)
    (Hinit : ObjectSpecificView.init ma object_id w = (inr self, w')) :
  w' = w
  /\ ObjectSpecificView.model_admin self = ma
  /\ ObjectSpecificView.object_id self = object_id
  /\ ObjectSpecificView.pk_safe self = quote object_id
  /\ ObjectSpecificView.instance self ∈ table w
  /\ pk_get_prep_value (opts ma) (quote object_id)
     = inr (pk (ObjectSpecificView.instance self))
  /\ ObjectSpecificView.get_edit_url self
     = UrlName (get_url_name ma "edit") [quote object_id]
  /\ ObjectSpecificView.get_delete_url self
     = UrlName (get_url_name ma "confirm_delete") [quote object_id]
  /\ (ObjectSpecificView.get_edit_url self
      = WMABaseView.get_edit_url ma (ObjectSpecificView.instance self)
      <-> pk (ObjectSpecificView.instance self) = quote object_id).
Proof.
  apply init_found in Hinit as (-> & Hself & Hin & Hkey).
  assert (Hma : ObjectSpecificView.model_admin self = ma) by (by rewrite Hself).
  assert (Hid : ObjectSpecificView.object_id self = object_id) by (by rewrite Hself).
  assert (Hsafe : ObjectSpecificView.pk_safe self = quote object_id)
    by (by rewrite Hself).
  unfold ObjectSpecificView.get_edit_url, ObjectSpecificView.get_delete_url,
    WMABaseView.get_edit_url.
  rewrite Hma, Hsafe. repeat split; try assumption.
  - by intros [= ->].
  - by intros ->.
Qed.

Lemma init_spec_witness :
  let numbered := with_search_on Fixture.numbered_opts [] (Fixture.admin false true []) in
  exists self w',
    ObjectSpecificView.init numbered "02" (Fixture.world Fixture.shelf)
    = (inr self, w')
    /\ w' = Fixture.world Fixture.shelf
    /\ pk (ObjectSpecificView.instance self) = "2"
    /\ ObjectSpecificView.get_edit_url self
       = UrlName "library_book_modeladmin_edit" ["02"].
Proof.
  intros numbered.
  destruct (ObjectSpecificView.init numbered "02" (Fixture.world Fixture.shelf))
    as [[e|self] w'] eqn:Hinit.
  - vm_compute in Hinit. discriminate.
  - exists self, w'. split; [reflexivity|].
    pose proof (init_spec _ _ _ _ _ Hinit) as (Hw & _ & _ & _ & _ & Hpk & Hurl & _).
    split; [exact Hw|]. split; [|exact Hurl].
    assert (Hkey : pk_get_prep_value (opts numbered) (quote "02") = inr "2")
      by reflexivity.
    congruence.
Defined.

(** X19: on a table whose primary keys are all different, constructing an
    object view on an id whose quoted form the key field converts to the key
    of a row succeeds with that row; MultipleObjectsReturned cannot occur. *)
Theorem init_finds_row (ma : ModelAdmin) (object_id : string) (w : World)
    (row : Instance)
    (Hunique : NoDup (pk <$> table w))
    (Hrow : row ∈ table w)
    (Hpk : pk_get_prep_value (opts ma) (quote object_id) = inr (pk row)) :
  ObjectSpecificView.init ma object_id w
  = (inr {| ObjectSpecificView.model_admin := ma;
            ObjectSpecificView.object_id := object_id;
            ObjectSpecificView.pk_safe := quote object_id;
            ObjectSpecificView.instance := row |}, w).
Proof.
  unfold ObjectSpecificView.init. run.
  rewrite Hpk. simpl. by rewrite (filter_unique_pk _ row Hunique Hrow).
Qed.

Lemma init_finds_row_witness :
  NoDup (pk <$> table (Fixture.world Fixture.shelf))
  /\ Fixture.book "3" "Ulysses" false ∈ table (Fixture.world Fixture.shelf)
  /\ ObjectSpecificView.init (Fixture.admin false true []) "3"
       (Fixture.world Fixture.shelf)
     = (inr (Fixture.view (Fixture.admin false true []) "3"
               (Fixture.book "3" "Ulysses" false)),
        Fixture.world Fixture.shelf).
Proof.
  assert (Hnd : NoDup (pk <$> table (Fixture.world Fixture.shelf))).
  { simpl. repeat (apply NoDup_cons; split;
      [rewrite ?elem_of_cons, elem_of_nil; intuition discriminate|]).
    apply NoDup_nil_2. }
  assert (Hin : Fixture.book "3" "Ulysses" false ∈ table (Fixture.world Fixture.shelf)).
  { simpl. unfold Fixture.shelf. rewrite !elem_of_cons. tauto. }
  split; [exact Hnd|]. split; [exact Hin|].
  exact (init_finds_row (Fixture.admin false true []) "3"
           (Fixture.world Fixture.shelf) _ Hnd Hin eq_refl).
Defined.

(** ** What the views leave alone *)

Lemma keeps_ret {A} (a : A) : keeps_table (mret a : M A).
Proof. by intros w. Qed.

Lemma keeps_bind {A B} (m : M A) (k : A -> M B) :
  keeps_table m -> (forall a, keeps_table (k a)) -> keeps_table (m ≫= k).
Proof.
  intros Hm Hk w. unfold mbind, M_bind, bind.
  specialize (Hm w). destruct (m w) as [[e|a] w1]; simpl in *; [exact Hm|].
  by rewrite Hk.
Qed.

Lemma keeps_checked {A} (name : string) (a : A) : keeps_table (checked name a).
Proof. by intros w. Qed.

Lemma keeps_add_message (l : Level) (t : string) (b : list (Target * string)) :
  keeps_table (add_message l t b).
Proof. by intros w. Qed.

Lemma keeps_set_session (k v : string) : keeps_table (set_session k v).
Proof. by intros w. Qed.

Lemma keeps_del_session (k : string) : keeps_table (del_session k).
Proof. by intros w. Qed.

Lemma keeps_lift {A} (r : exn + A) : keeps_table (lift r).
Proof. by intros w. Qed.

Lemma keeps_raise {A} (e : exn) : keeps_table (raise e : M A).
Proof. by intros w. Qed.

Lemma keeps_get_table : keeps_table get_table.
Proof. by intros w. Qed.

Lemma keeps_login_required (view : Request -> M Response) (request : Request) :
  keeps_table (view request) -> keeps_table (login_required view request).
Proof.
  intros Hv. unfold login_required.
  destruct (is_authenticated (user request)); [exact Hv|apply keeps_ret].
Qed.

Lemma keeps_denied (request : Request) :
  keeps_table (permission_denied_response request).
Proof. by intros w. Qed.

Lemma keeps_prime (ma : ModelAdmin) :
  keeps_table (WMABaseView.prime_session_for_redirection ma).
Proof. by intros w. Qed.

Lemma keeps_base_dispatch (get post put : option (Request -> M Response))
    (request : Request) :
  (forall h, get = Some h -> keeps_table (h request)) ->
  (forall h, post = Some h -> method request = POST -> keeps_table (h request)) ->
  (forall h, put = Some h -> method request = PUT -> keeps_table (h request)) ->
  keeps_table (WMABaseView.dispatch get post put request).
Proof.
  intros Hget Hpost Hput. unfold WMABaseView.dispatch, WMABaseView.handler.
  apply keeps_login_required.
  destruct (method request) eqn:Hm, get as [g|], post as [p|], put as [u|];
    try apply keeps_ret; try (by apply Hget); try (by apply Hpost); by apply Hput.
Qed.

Lemma keeps_init (ma : ModelAdmin) (object_id : string) :
  keeps_table (ObjectSpecificView.init ma object_id).
Proof. intros w. by rewrite init_world. Qed.

Lemma keeps_as_object_view (dispatch : ObjectSpecificView.t -> Request -> M Response)
    (ma : ModelAdmin) (object_id : string) (request : Request) :
  (forall self, keeps_table (dispatch self request)) ->
  keeps_table (as_object_view dispatch ma object_id request).
Proof. intros H. apply keeps_bind; [apply keeps_init|exact H]. Qed.

Create HintDb keeps.
#[local] Hint Resolve keeps_ret keeps_checked keeps_add_message keeps_set_session
  keeps_del_session keeps_lift keeps_raise keeps_get_table keeps_denied
  keeps_prime keeps_init : keeps.

Ltac keeps :=
  repeat first
    [ match goal with
      | |- keeps_table (WMABaseView.dispatch _ _ _ _) =>
          apply keeps_base_dispatch; [intros ? ?|intros ? ? ?|intros ? ? ?];
          simplify_eq
      | |- keeps_table (as_object_view _ _ _ _) =>
          apply keeps_as_object_view; intros ?
      end
    | apply keeps_bind; [|intros ?]
    | apply keeps_login_required
    | solve [auto with keeps]
    | match goal with
      | |- keeps_table (if ?b then _ else _) => destruct b
      | |- keeps_table (match ?x with _ => _ end) => destruct x
      end ].

Lemma keeps_index_get (dj : Django) (self : IndexView.t) (request : Request) :
  keeps_table (IndexView.get dj self request).
Proof.
  unfold IndexView.get, IndexView.get_context_data. keeps.
  all: by intros w.
Qed.

Lemma keeps_form_get (ma : ModelAdmin) (inst : option Instance) (template : string)
    (request : Request) :
  keeps_table (WMAFormView.get ma inst template request).
Proof. by intros w. Qed.

(** X20: only a POST or a PUT to the create or edit view, or a POST to the
    confirm-delete view, can change the table.  The index, inspect,
    choose-parent, unpublish and copy views leave it as it is whatever the
    request (GET, HEAD, OPTIONS or any other method), and so do the other
    three for every other method; constructing the view of an object changes
    nothing either. *)
Theorem only_posts_write (dj : Django) (ma : ModelAdmin) (object_id : string)
    (request : Request) :
  keeps_table (IndexView.dispatch dj ma request)
  /\ keeps_table (as_object_view InspectView.dispatch ma object_id request)
  /\ keeps_table (ChooseParentView.dispatch dj ma request)
  /\ keeps_table (as_object_view (UnpublishRedirectView.dispatch dj) ma object_id request)
  /\ keeps_table (as_object_view (CopyRedirectView.dispatch dj) ma object_id request)
  /\ (method request <> POST -> method request <> PUT ->
      keeps_table (CreateView.dispatch dj ma request)
      /\ keeps_table (as_object_view (EditView.dispatch dj) ma object_id request))
  /\ (method request <> POST ->
      keeps_table (as_object_view (ConfirmDeleteView.dispatch dj) ma object_id request)).
Proof.
  split; [|split; [|split; [|split; [|split; [|split]]]]].
  - unfold IndexView.dispatch; keeps; try apply keeps_index_get.
  - keeps; unfold InspectView.dispatch, InspectView.check_action_permitted; keeps;
      try (by intros w).
  - unfold ChooseParentView.dispatch, ChooseParentView.get, ChooseParentView.post,
      ChooseParentView.get_form; keeps.
  - keeps; unfold UnpublishRedirectView.dispatch,
      UnpublishRedirectView.check_action_permitted; keeps.
  - keeps; unfold CopyRedirectView.dispatch, CopyRedirectView.check_action_permitted;
      keeps.
  - intros Hpost Hput. split.
    + unfold CreateView.dispatch; keeps;
        try contradiction; try apply keeps_form_get.
    + keeps; unfold EditView.dispatch, EditView.check_action_permitted; keeps;
        try contradiction; try apply keeps_form_get.
  - intros Hpost.
    keeps; unfold ConfirmDeleteView.dispatch, ConfirmDeleteView.check_action_permitted;
      keeps; try contradiction; try (by intros w).
Qed.

Lemma only_posts_write_witness :
  let ma := with_form (fun _ => true) (Fixture.admin false true []) in
  let request := Fixture.request PUT Fixture.alice [] [("title", "x")] in
  method request <> POST
  /\ table (as_object_view (ConfirmDeleteView.dispatch Fixture.django) ma "1" request
              (Fixture.world Fixture.shelf)).2
     = Fixture.shelf
  /\ table (as_object_view (EditView.dispatch Fixture.django) ma "1" request
              (Fixture.world Fixture.shelf)).2
     <> Fixture.shelf.
Proof.
  intros ma request. split; [discriminate|]. split; [|discriminate].
  destruct (only_posts_write Fixture.django ma "1" request)
    as (_ & _ & _ & _ & _ & _ & H).
  exact (H ltac:(discriminate) (Fixture.world Fixture.shelf)).
Defined.

(** X21: a user who is not logged in is never shown a page and changes
    nothing.  The index, create and choose-parent views answer with a
    redirect (to the login page, to the admin home page after a denial, or,
    from the create view of a page model, on to the page-create or
    choose-parent view).  The views of an object answer with the redirect to
    the login page when the object is found, and end in the error of the
    constructor (the 404 response when there is no such object) when it is
    not: the object is looked up before the login is. *)
Theorem anonymous_redirected (dj : Django) (ma : ModelAdmin) (object_id : string)
    (request : Request) (w : World)
    (Hanon : is_authenticated (user request) = false) :
  let redirected (out : (exn + Response) * World) :=
    (exists t, out.1 = inr (Redirect t)) /\ table out.2 = table w in
  let gated (dispatch : ObjectSpecificView.t -> Request -> M Response) :=
    as_object_view dispatch ma object_id request w
    = match ObjectSpecificView.init ma object_id w with
      | (inr _, _) => (inr (Redirect (LoginUrl (path request))), w)
      | (inl e, _) => (inl e, w)
      end in
  redirected (IndexView.dispatch dj ma request w)
  /\ redirected (CreateView.dispatch dj ma request w)
  /\ redirected (ChooseParentView.dispatch dj ma request w)
  /\ gated InspectView.dispatch
  /\ gated (EditView.dispatch dj)
  /\ gated (ConfirmDeleteView.dispatch dj)
  /\ gated (UnpublishRedirectView.dispatch dj)
  /\ gated (CopyRedirectView.dispatch dj).
Proof.
  intros redirected gated. subst redirected gated. cbv beta.
  assert (Hobject : forall dispatch : ObjectSpecificView.t -> Request -> M Response,
            (forall self, dispatch self request w
                          = (inr (Redirect (LoginUrl (path request))), w)) ->
            as_object_view dispatch ma object_id request w
            = match ObjectSpecificView.init ma object_id w with
              | (inr _, _) => (inr (Redirect (LoginUrl (path request))), w)
              | (inl e, _) => (inl e, w)
              end).
  { intros dispatch Hd.
    destruct (ObjectSpecificView.init ma object_id w) as [[e|self] w'] eqn:Hinit.
    - by apply (as_object_view_error dispatch _ _ _ _ _ _ Hinit).
    - rewrite <- (Hd self). by apply (as_object_view_found dispatch _ _ _ _ _ _ Hinit). }
  split; [|split; [|split; [|split; [|split; [|split; [|split]]]]]];
    try (apply Hobject; intros self;
         unfold InspectView.dispatch, EditView.dispatch, ConfirmDeleteView.dispatch,
           UnpublishRedirectView.dispatch, CopyRedirectView.dispatch;
         run; by rewrite Hanon).
  - unfold IndexView.dispatch. run. rewrite Hanon. simpl. eauto.
  - unfold CreateView.dispatch. run. rewrite Hanon.
    destruct (has_add_permission _ _); simpl; eauto.
    destruct (is_pagemodel ma); simpl; eauto.
    destruct (get_valid_parent_pages _ _) as [|parent [|parent' parents]];
      simpl; eauto.
  - unfold ChooseParentView.dispatch. run. rewrite Hanon.
    destruct (has_add_permission _ _); simpl; eauto.
Qed.

Lemma anonymous_redirected_witness :
  let ma := Fixture.admin false true [] in
  let request := Fixture.request POST Fixture.anonymous [] [("title", "x")] in
  let w := Fixture.world Fixture.shelf in
  is_authenticated (user request) = false
  /\ (exists t, (CreateView.dispatch Fixture.django ma request w).1 = inr (Redirect t))
  /\ table (CreateView.dispatch Fixture.django ma request w).2 = Fixture.shelf
  /\ as_object_view (EditView.dispatch Fixture.django) ma "1" request w
     = (inr (Redirect (LoginUrl "/admin/library/book/")), w)
  /\ as_object_view (EditView.dispatch Fixture.django) ma "9" request w
     = (inl Http404, w).
Proof.
  intros ma request w. split; [reflexivity|].
  pose proof (anonymous_redirected Fixture.django ma "1" request w eq_refl)
    as (_ & [Hcreate Htable] & _ & _ & Hedit & _).
  pose proof (anonymous_redirected Fixture.django ma "9" request w eq_refl)
    as (_ & _ & _ & _ & Hmissing & _).
  split; [exact Hcreate|]. split; [exact Htable|]. split.
  - exact (eq_trans Hedit eq_refl).
  - exact (eq_trans Hmissing eq_refl).
Defined.

(** X22: the confirm-delete view changes the table only by deleting the
    instance it was constructed on, and it does so only when the object was
    found and a logged-in user permitted to delete it POSTs form data for a
    model that is not a page model, no protected reference stopping the
    deletion; the table is then the one the deletion leaves, and the answer
    the redirect to the index view. *)
Theorem delete_only_when_permitted (dj : Django) (ma : ModelAdmin)
    (object_id : string) (request : Request) (w : World) :
  let out := as_object_view (ConfirmDeleteView.dispatch dj) ma object_id request w in
  table out.2 = table w
  \/ exists self,
       ObjectSpecificView.init ma object_id w = (inr self, w)
       /\ is_authenticated (user request) = true
       /\ can_delete_object (permission_helper ma) (user request)
            (ObjectSpecificView.instance self) = true
       /\ is_pagemodel ma = false
       /\ method request = POST
       /\ req_POST request <> ∅
       /\ delete_blocked (ObjectSpecificView.instance self) = false
       /\ table out.2 = table (orm_delete (ObjectSpecificView.instance self) w).2
       /\ out.1 = inr (Redirect (Url (index_url ma))).
Proof.
  intros out. subst out.
  destruct (ObjectSpecificView.init ma object_id w) as [[e|self] w'] eqn:Hinit.
  - left. by rewrite (proj1 (as_object_view_error _ _ _ _ _ _ _ Hinit)).
  - pose proof (init_found _ _ _ _ _ Hinit) as (-> & Hself & _).
    assert (Hma : ObjectSpecificView.model_admin self = ma) by (by rewrite Hself).
    rewrite (proj1 (as_object_view_found _ _ _ _ _ _ _ Hinit)).
    unfold ConfirmDeleteView.dispatch, ConfirmDeleteView.check_action_permitted,
      ConfirmDeleteView.post, ConfirmDeleteView.get, ConfirmDeleteView.delete_instance,
      orm_delete.
    run. rewrite Hma.
    destruct (is_authenticated (user request)) eqn:Hauth; simpl; [|by left].
    destruct (can_delete_object _ _ _) eqn:Hperm; simpl; [|by left].
    destruct (is_pagemodel ma) eqn:Hpage; simpl; [by left|].
    destruct (method request) eqn:Hmethod; simpl; try (by left).
    case_bool_decide as Hdata; simpl; [by left|].
    destruct (delete_blocked _) eqn:Hblocked; simpl; [by left|].
    right. exists self. rewrite Hblocked. simpl.
    repeat split; try assumption; reflexivity.
Qed.

(** X23: a POST or PUT to the create or edit view of a model that is not a
    page model, by a logged-in and permitted user, with a form that does not
    validate, saves nothing: the table is unchanged, the view's error message
    is issued and the form is rendered again.  With a form that validates,
    the answer is a redirect to the index view and a success message naming
    the saved instance, with an Edit button: from the create view to the edit
    URL of the saved instance's key, from the edit view to the edit URL of
    the quoted object id the view was constructed on. *)
Theorem form_post_outcomes (dj : Django) (ma : ModelAdmin)
    (self : ObjectSpecificView.t) (request : Request) (w : World)
    (Hself : ObjectSpecificView.model_admin self = ma)
    (Hauth : is_authenticated (user request) = true)
    (Hpage : is_pagemodel ma = false)
    (Hpost : method request = POST \/ method request = PUT) :
  let ph := permission_helper ma in
  let inst := ObjectSpecificView.instance self in
  let data := req_POST request in
  let said l t b := messages w ++ [{| level := l; text := t; buttons := b |}] in
  let create := CreateView.dispatch dj ma request w in
  let edit := EditView.dispatch dj self request w in
  (has_add_permission ph (user request) = true ->
   (form_is_valid ma data = false ->
    create.1 = inr (Rendered (create_template ma) (FormContext None))
    /\ table create.2 = table w
    /\ messages create.2 = said ERROR (CreateView.get_error_message ma) [])
   /\ (form_is_valid ma data = true ->
       let saved := form_save ma data None in
       create.1 = inr (Redirect (Url (index_url ma)))
       /\ messages create.2
          = said SUCCESS (CreateView.get_success_message ma saved)
              [(UrlName (get_url_name ma "edit") [pk saved], "Edit")]))
  /\ (can_edit_object ph (user request) inst = true ->
      (form_is_valid ma data = false ->
       edit.1 = inr (Rendered (edit_template ma) (FormContext (Some inst)))
       /\ table edit.2 = table w
       /\ messages edit.2 = said ERROR (EditView.get_error_message ma) [])
      /\ (form_is_valid ma data = true ->
          let saved := form_save ma data (Some inst) in
          edit.1 = inr (Redirect (Url (index_url ma)))
          /\ messages edit.2
             = said SUCCESS (EditView.get_success_message ma saved)
                 [(UrlName (get_url_name ma "edit")
                     [ObjectSpecificView.pk_safe self], "Edit")])).
Proof.
  intros ph inst data said create edit. subst ph inst data said create edit.
  unfold CreateView.dispatch, EditView.dispatch, EditView.check_action_permitted,
    WMAFormView.put, WMAFormView.post, WMAFormView.get, WMAFormView.form_valid,
    WMAFormView.form_invalid, WMAFormView.save_form, WMABaseView.get_edit_url,
    ObjectSpecificView.get_edit_url, WMABaseView.handler.
  run. rewrite Hself, Hauth, Hpage.
  destruct Hpost as [-> | ->]; simpl;
    (split; intros ->; simpl; split; intros ->; simpl; repeat split).
Qed.

Lemma form_post_outcomes_witness :
  let ma := Fixture.admin false true [] in
  let numbered := with_search_on Fixture.numbered_opts [] ma in
  let self := Fixture.view numbered "01" (Fixture.book "1" "Dune" false) in
  let bad := Fixture.request POST Fixture.alice [] [("author", "x")] in
  let good := Fixture.request POST Fixture.alice [] [("title", "Dune 2")] in
  let w := Fixture.world Fixture.shelf in
  is_authenticated (user bad) = true /\ is_pagemodel ma = false
  /\ method bad = POST
  /\ has_add_permission (permission_helper ma) (user bad) = true
  /\ form_is_valid ma (req_POST bad) = false
  /\ (CreateView.dispatch Fixture.django ma bad w).1
     = inr (Rendered "create.html" (FormContext None))
  /\ table (CreateView.dispatch Fixture.django ma bad w).2 = Fixture.shelf
  /\ (ObjectSpecificView.init numbered "01" w).1 = inr self
  /\ messages (EditView.dispatch Fixture.django self good w).2
     = [ {| level := SUCCESS; text := "Book 'Dune 2' updated.";
            buttons := [(UrlName "library_book_modeladmin_edit" ["01"], "Edit")] |} ].
Proof.
  intros ma numbered self bad good w.
  pose proof (proj1 (proj1 (form_post_outcomes Fixture.django ma
                              (Fixture.view ma "1" (Fixture.book "1" "Dune" false))
                              bad w
                              eq_refl eq_refl eq_refl (or_introl eq_refl)) eq_refl)
                eq_refl)
    as (Hresp & Htable & _).
  pose proof (proj2 (proj2 (form_post_outcomes Fixture.django numbered self good w
                              eq_refl eq_refl eq_refl (or_introl eq_refl)) eq_refl)
                eq_refl)
    as (_ & Hmsg).
  split; [reflexivity|]. split; [reflexivity|]. split; [reflexivity|].
  split; [reflexivity|]. split; [reflexivity|]. split; [exact Hresp|].
  split; [exact Htable|]. split; [reflexivity|]. exact (eq_trans Hmsg eq_refl).
Defined.

(** X24: a POST to the choose-parent view by a logged-in user who may add
    redirects to the framework's page-create view for the chosen parent when
    the parent-chooser form validates, and renders the chooser again when it
    does not; no message is issued either way.  The primary key goes into the
    URL quoted, where the create view puts it in as it is, so the two views
    agree on a parent whose key [quote] leaves alone. *)
Theorem choose_parent_post (dj : Django) (ma : ModelAdmin) (request : Request)
    (w : World)
    (Hauth : is_authenticated (user request) = true)
    (Hadd : has_add_permission (permission_helper ma) (user request) = true)
    (Hpost : method request = POST) :
  let parents := get_valid_parent_pages (permission_helper ma) (user request) in
  let out := ChooseParentView.dispatch dj ma request w in
  (forall parent,
     parent_chooser_form ma parents (req_POST request) = Some parent ->
     out.1 = inr (Redirect (UrlName (PAGES_CREATE_URL_NAME (wagtail_version dj))
                              [app_label (opts ma); model_name (opts ma);
                               quote (pk parent)]))
     /\ messages out.2 = messages w
     /\ (is_pagemodel ma = true -> parents = [parent] ->
         quote (pk parent) = pk parent ->
         out.1 = (CreateView.dispatch dj ma request w).1))
  /\ (parent_chooser_form ma parents (req_POST request) = None ->
      out.1 = inr (Rendered (choose_parent_template ma) (ChooseParentContext parents))
      /\ messages out.2 = messages w).
Proof.
  intros parents out. subst parents out.
  unfold ChooseParentView.dispatch, ChooseParentView.post, ChooseParentView.get_form,
    CreateView.dispatch.
  run. rewrite Hadd, Hauth, Hpost. simpl. split.
  - intros parent ->. simpl. repeat split.
    intros -> -> ->. reflexivity.
  - intros ->. simpl. by split.
Qed.

Lemma choose_parent_post_witness :
  let home := Fixture.book "10" "Home" false in
  let ma := Fixture.admin true true [home; Fixture.book "11" "Blog" false] in
  let request := Fixture.request POST Fixture.alice [] [("parent_page", "11")] in
  is_authenticated (user request) = true
  /\ has_add_permission (permission_helper ma) (user request) = true
  /\ method request = POST
  /\ (ChooseParentView.dispatch Fixture.django ma request
        (Fixture.world Fixture.shelf)).1
     = inr (Redirect (UrlName "wagtailadmin_pages:add" ["library"; "book"; "11"])).
Proof.
  intros home ma request.
  split; [reflexivity|]. split; [reflexivity|]. split; [reflexivity|].
  exact (proj1 (proj1 (choose_parent_post Fixture.django ma request
                         (Fixture.world Fixture.shelf) eq_refl eq_refl eq_refl)
                  (Fixture.book "11" "Blog" false) eq_refl)).
Defined.

(** X25: when the index page is rendered, the session entry
    [return_to_index_url] that the redirecting views leave behind is gone (or
    was empty), every other session entry is as before, and no message has
    been issued. *)
Theorem index_get_clears_return_url (dj : Django) (self : IndexView.t)
    (request : Request) (w w' : World) (response : Response)
    (Hget : IndexView.get dj self request w = (inr response, w')) :
  (session w' !! "return_to_index_url" = None
   \/ session w' !! "return_to_index_url" = Some "")
  /\ (forall k, k <> "return_to_index_url" -> session w' !! k = session w !! k)
  /\ messages w' = messages w
  /\ table w' = table w.
Proof.
  unfold IndexView.get, IndexView.get_context_data in Hget. run.
  destruct (IndexView.get_queryset dj self) as [e|qs]; [discriminate|].
  simpl in Hget.
  destruct (IndexView.page_obj _ _) as [e|pg]; [discriminate|].
  destruct (is_pagemodel _); simpl in Hget;
    destruct (session w !! "return_to_index_url") as [[|c s]|] eqn:Hs;
    simpl in Hget; injection Hget as _ <-; simpl;
    repeat split; auto;
    try (left; apply lookup_delete_eq);
    intros k Hk; by rewrite lookup_delete_ne.
Qed.

Lemma index_get_clears_return_url_witness :
  let ma := Fixture.admin false true [] in
  let request := Fixture.request GET Fixture.alice [] [] in
  let primed := (WMABaseView.prime_session_for_redirection ma
                   (Fixture.world Fixture.shelf)).2 in
  session primed !! "return_to_index_url" = Some "/admin/library/book/"
  /\ exists response w',
       IndexView.get Fixture.django (IndexView.init ma request) request primed
       = (inr response, w')
       /\ session w' !! "return_to_index_url" = None.
Proof.
  intros ma request primed. split; [reflexivity|].
  destruct (IndexView.get Fixture.django (IndexView.init ma request) request primed)
    as [[e|response] w'] eqn:Hget.
  - vm_compute in Hget. discriminate.
  - exists response, w'. split; [reflexivity|].
    destruct (proj1 (index_get_clears_return_url _ _ _ _ _ _ Hget)) as [H|H];
      [exact H|].
    vm_compute in Hget. injection Hget as _ <-. vm_compute in H. discriminate.
Defined.

(** X26: the index and inspect views define a handler for GET only: a POST
    by a logged-in and permitted user gets the method-not-allowed response,
    with no message and the table as it was. *)
Theorem index_and_inspect_get_only (dj : Django) (ma : ModelAdmin)
    (self : ObjectSpecificView.t) (request : Request) (w : World)
    (Hself : ObjectSpecificView.model_admin self = ma)
    (Hauth : is_authenticated (user request) = true)
    (Hpost : method request = POST) :
  ((exists qs, IndexView.get_queryset dj (IndexView.init ma request) = inr qs) ->
   allow_list_view (permission_helper ma) (user request) = true ->
   let out := IndexView.dispatch dj ma request w in
   out.1 = inr NotAllowed /\ messages out.2 = messages w /\ table out.2 = table w)
  /\ (has_list_permission (permission_helper ma) (user request) = true ->
      let out := InspectView.dispatch self request w in
      out.1 = inr NotAllowed /\ messages out.2 = messages w
      /\ table out.2 = table w).
Proof.
  unfold IndexView.dispatch, InspectView.dispatch, InspectView.check_action_permitted.
  run. rewrite Hself, Hauth, Hpost. split.
  - intros [qs ->] ->. simpl. by repeat split.
  - intros ->. simpl. by repeat split.
Qed.

Lemma index_and_inspect_get_only_witness :
  let ma := Fixture.admin false true [] in
  let self := Fixture.view ma "1" (Fixture.book "1" "Dune" false) in
  let request := Fixture.request POST Fixture.alice [] [("x", "y")] in
  is_authenticated (user request) = true /\ method request = POST
  /\ (IndexView.dispatch Fixture.django ma request (Fixture.world Fixture.shelf)).1
     = inr NotAllowed
  /\ (InspectView.dispatch self request (Fixture.world Fixture.shelf)).1
     = inr NotAllowed.
Proof.
  intros ma self request.
  destruct (index_and_inspect_get_only Fixture.django ma self request
              (Fixture.world Fixture.shelf) eq_refl eq_refl eq_refl)
    as [Hindex Hinspect].
  split; [reflexivity|]. split; [reflexivity|]. split.
  - refine (proj1 (Hindex _ eq_refl)). eexists. vm_compute. reflexivity.
  - exact (proj1 (Hinspect eq_refl)).
Defined.
